(** * Triple Seven: the game engines (server-authoritative and offline store)

    A shallow embedding of
      - src/src/types/game.ts            (cards, values, powers, seats)
      - src/src/lib/ai-logic.ts          (updateMemory; the AI strategies are
                                          random and enter as an oracle)
      - src/unnamed/part_003             (game-room.ts buildClientView and
                                          game-engine.ts, the server engine)
      - src/src/store/game-store.ts      (the offline zustand store)

    JavaScript numbers used as seats and hand indices are modelled as [nat].
    A property read on [undefined] (e.g. [hand[9].isLocked]) raises a
    TypeError; the [outcome] monad below records it as [Throws]. *)

From Stdlib Require Import Arith Lia Ascii.
From stdpp Require Import base gmap list strings pretty.

Local Notation "a +++ b" := (String.append a b) (at level 60, right associativity).

(* ------------------------------------------------------------------ *)
(** ** The outcome monad: normal return or a thrown TypeError *)

Inductive outcome (A : Type) : Type :=
| Returns (a : A)
| Throws
  (** the JS code reads a property of [undefined] *)
| Malformed.
  (** the JS code produces a value outside the data model (a partial card
      object [{isLocked: true}] written past the end of a hand) *)
Arguments Returns {A} _.
Arguments Throws {A}.
Arguments Malformed {A}.

Global Instance outcome_ret : MRet outcome := λ A a, Returns a.
Global Instance outcome_bind : MBind outcome := λ A B f m,
  match m with
  | Returns a => f a
  | Throws => Throws
  | Malformed => Malformed
  end.

(** [arr[i].field] / [arr[i].hand]: a read through an index that must exist *)
Definition at_ {A} (l : list A) (i : nat) : outcome A :=
  match l !! i with Some x => Returns x | None => Throws end.

(** [{ ...arr[i] }]: spreading [undefined] does not throw, it yields [{}] *)
Definition spread_at {A} (l : list A) (i : nat) : outcome A :=
  match l !! i with Some x => Returns x | None => Malformed end.

(* ------------------------------------------------------------------ *)
(** ** types/game.ts *)

Inductive Suit := hearts | diamonds | clubs | spades.
Inductive Rank := rA | r2 | r3 | r4 | r5 | r6 | r7 | r8 | r9 | r10 | rJ | rQ | rK.
Inductive JokerColor := red | black.
Inductive PowerType := unlock | swap | peek | lock | mass_swap.
Inductive Difficulty := beginner | intermediate | hardcore.
Inductive PlayerKind := human | ai.
Inductive DrawSource := from_deck | from_discard.
Inductive ToastType := info | power | warning | success.

Global Instance PowerType_eq_dec : EqDecision PowerType.
Proof. solve_decision. Defined.
Global Instance PlayerKind_eq_dec : EqDecision PlayerKind.
Proof. solve_decision. Defined.

(** [Card]; [powerUsed?: boolean] is [option bool] ([None] = undefined) *)
Record Card := mkCard {
  card_id : string;
  suit : option Suit;
  rank : option Rank;
  isJoker : bool;
  jokerColor : option JokerColor;
  isFaceUp : bool;
  isLocked : bool;
  isSelected : bool;
  isPeeking : bool;
  powerUsed : option bool
}.

Definition with_isFaceUp (b : bool) (c : Card) : Card :=
  mkCard (card_id c) (suit c) (rank c) (isJoker c) (jokerColor c)
         b (isLocked c) (isSelected c) (isPeeking c) (powerUsed c).
Definition with_isLocked (b : bool) (c : Card) : Card :=
  mkCard (card_id c) (suit c) (rank c) (isJoker c) (jokerColor c)
         (isFaceUp c) b (isSelected c) (isPeeking c) (powerUsed c).
Definition with_isSelected (b : bool) (c : Card) : Card :=
  mkCard (card_id c) (suit c) (rank c) (isJoker c) (jokerColor c)
         (isFaceUp c) (isLocked c) b (isPeeking c) (powerUsed c).
Definition with_isPeeking (b : bool) (c : Card) : Card :=
  mkCard (card_id c) (suit c) (rank c) (isJoker c) (jokerColor c)
         (isFaceUp c) (isLocked c) (isSelected c) b (powerUsed c).
Definition with_powerUsed (b : bool) (c : Card) : Card :=
  mkCard (card_id c) (suit c) (rank c) (isJoker c) (jokerColor c)
         (isFaceUp c) (isLocked c) (isSelected c) (isPeeking c) (Some b).

(** The card invariant of the data model: standard card or joker. *)
Definition card_ok (c : Card) : Prop :=
  (isJoker c = false ∧ suit c ≠ None ∧ rank c ≠ None) ∨
  (isJoker c = true ∧ suit c = None ∧ rank c = None).

Definition rank_str (r : Rank) : string :=
  match r with
  | rA => "A" | r2 => "2" | r3 => "3" | r4 => "4" | r5 => "5" | r6 => "6"
  | r7 => "7" | r8 => "8" | r9 => "9" | r10 => "10" | rJ => "J" | rQ => "Q"
  | rK => "K"
  end.

(** [parseInt(card.rank!, 10)] for the ranks that reach it *)
Definition parse_rank (r : Rank) : nat :=
  match r with
  | rA => 1 | r2 => 2 | r3 => 3 | r4 => 4 | r5 => 5 | r6 => 6 | r7 => 7
  | r8 => 8 | r9 => 9 | r10 => 10 | rJ | rQ | rK => 0 (* NaN, not reached *)
  end.

(** [getCardValue]; a non-joker without rank would give NaN, excluded by
    [card_ok] *)
Definition getCardValue (c : Card) : nat :=
  if isJoker c then 10 else
  match rank c with
  | Some r7 => 0
  | Some rA => 1
  | Some r10 | Some rJ | Some rQ | Some rK => 10
  | Some r => parse_rank r
  | None => 0
  end.

Definition getCardPower (c : Card) : option PowerType :=
  if (match powerUsed c with Some true => true | _ => false end) then None
  else if isJoker c then Some mass_swap
  else match rank c with
       | Some r10 => Some unlock
       | Some rJ => Some swap
       | Some rQ => Some peek
       | Some rK => Some lock
       | _ => None
       end.

Definition calculateHandScore (h : list Card) : nat :=
  fold_left (λ total c, total + getCardValue c) h 0.

(** [getCardImagePath]; [suitMap[card.suit!]] and [rankMap[card.rank!]]
    read ["undefined"] on a null field, and [rankMap] is the identity *)
Definition suitMap (s : Suit) : string :=
  match s with hearts => "H" | diamonds => "D" | clubs => "C" | spades => "S" end.

Definition jokerColor_str (c : JokerColor) : string :=
  match c with red => "red" | black => "black" end.

Definition getCardImagePath (c : Card) : string :=
  if isJoker c then
    "/cards/joker_" +++ jokerColor_str (default red (jokerColor c)) +++ ".svg"
  else
    "/cards/" +++ default "undefined" (suitMap <$> suit c)
              +++ default "undefined" (rank_str <$> rank c) +++ ".png".

Definition CARD_BACK_IMAGE : string := "/cards/back.svg".

Definition getNextSeat (current : nat) : nat := (current + 1) mod 4.

Definition powerName (p : PowerType) : string :=
  match p with
  | unlock => "Unlock" | swap => "Swap" | peek => "Peek" | lock => "Lock"
  | mass_swap => "Mass Swap"
  end.

Record PlayerInfo := mkPlayer {
  player_id : string;
  seatIndex : nat;
  kind : PlayerKind;
  name : string;
  hand : list Card;
  score : nat;
  isLocal : bool
}.

Definition with_hand (h : list Card) (p : PlayerInfo) : PlayerInfo :=
  mkPlayer (player_id p) (seatIndex p) (kind p) (name p) h (score p) (isLocal p).
Definition with_score (n : nat) (p : PlayerInfo) : PlayerInfo :=
  mkPlayer (player_id p) (seatIndex p) (kind p) (name p) (hand p) n (isLocal p).

(** [newPlayers[seat].hand[i] = c] at an index already read (in range) *)
Definition set_card (ps : list PlayerInfo) (seat i : nat) (c : Card) : list PlayerInfo :=
  match ps !! seat with
  | Some p => <[seat := with_hand (<[i := c]> (hand p)) p]> ps
  | None => ps
  end.

(** [AIMemory]: seatIndex -> (cardIndex -> Card) *)
Record AIMemory := mkMemory {
  knownCards : gmap nat (gmap nat Card);
  discardedCards : list Card
}.

Definition createEmptyAIMemory : AIMemory := mkMemory ∅ [].

(** ai-logic.ts [updateMemory] *)
Definition updateMemory (m : AIMemory) (seatIndex cardIndex : nat) (c : Card) : AIMemory :=
  let seatKnown := default ∅ (knownCards m !! seatIndex) in
  mkMemory (<[seatIndex := <[cardIndex := c]> seatKnown]> (knownCards m))
           (discardedCards m).

(** [const k = new Map(known.get(s) || new Map()); k.delete(i); known.set(s, k)] *)
Definition forget_slot (known : gmap nat (gmap nat Card)) (s i : nat) :
    gmap nat (gmap nat Card) :=
  <[s := delete i (default ∅ (known !! s))]> known.

(** End of game, shared by both engines: reveal, score, lowest score wins
    ([let winnerSeat = 0; let lowestScore = Infinity]; [None] is Infinity). *)
Definition reveal_and_score (p : PlayerInfo) : PlayerInfo :=
  let revealed := map (with_isFaceUp true) (hand p) in
  with_score (calculateHandScore revealed) (with_hand revealed p).

Definition pick_winner (ps : list PlayerInfo) : nat * option nat :=
  fold_left (λ acc p,
    let '(w, lowest) := acc in
    match lowest with
    | None => (seatIndex p, Some (score p))
    | Some l => if score p <? l then (seatIndex p, Some (score p)) else acc
    end) ps (0, None).

Definition lowest_str (l : option nat) : string :=
  match l with Some n => pretty n | None => "Infinity" end.

(* ------------------------------------------------------------------ *)
(** ** lib/deck (bundled at the end of ai-logic.ts): building, shuffling
    and dealing the deck. [Date.now()] enters as an oracle [now], read at
    the creation of each card (indexed by the card counter), and
    [Math.floor(Math.random() * (i + 1))] as an oracle [rnd i]. *)

Definition SUITS : list Suit := [hearts; diamonds; clubs; spades].
Definition RANKS : list Rank := [rA; r2; r3; r4; r5; r6; r7; r8; r9; r10; rJ; rQ; rK].

(** [createCard]: [cardIdCounter++] is threaded as [counter] *)
Definition createCard (now : nat → nat) (counter : nat) (s : option Suit) (r : option Rank)
    (joker : bool) (color : option JokerColor) : Card * nat :=
  let counter := S counter in
  (mkCard ("card-" +++ pretty counter +++ "-" +++ pretty (now counter)) s r joker color
          false false false false None, counter).

(** [for (const rank of RANKS) cards.push(createCard(suit, rank))] *)
Fixpoint push_ranks (now : nat → nat) (s : Suit) (rs : list Rank) (counter : nat)
    (cards : list Card) : list Card * nat :=
  match rs with
  | [] => (cards, counter)
  | r :: rs =>
    let '(c, counter) := createCard now counter (Some s) (Some r) false None in
    push_ranks now s rs counter (cards ++ [c])
  end.

(** [for (const suit of SUITS) ...] *)
Fixpoint push_suits (now : nat → nat) (ss : list Suit) (counter : nat) (cards : list Card) :
    list Card * nat :=
  match ss with
  | [] => (cards, counter)
  | s :: ss =>
    let '(cards, counter) := push_ranks now s RANKS counter cards in
    push_suits now ss counter cards
  end.

(** [createDeck(includeJokers)]; [cardIdCounter = 0] first *)
Definition createDeck (now : nat → nat) (includeJokers : bool) : list Card :=
  let '(cards, counter) := push_suits now SUITS 0 [] in
  if includeJokers then
    let '(j1, counter) := createCard now counter None None true (Some red) in
    let '(j2, _) := createCard now counter None None true (Some black) in
    cards ++ [j1; j2]
  else cards.

(** [[shuffled[i], shuffled[j]] = [shuffled[j], shuffled[i]]]; the indices
    are in range ([j <= i < length]), the last case is not reached *)
Definition swap_entries {A} (l : list A) (i j : nat) : list A :=
  match l !! i, l !! j with
  | Some x, Some y => <[j := x]> (<[i := y]> l)
  | _, _ => l
  end.

(** [for (let i = shuffled.length - 1; i > 0; i--)] *)
Fixpoint shuffle_loop {A} (rnd : nat → nat) (i : nat) (l : list A) : list A :=
  match i with
  | 0 => l
  | S i' => shuffle_loop rnd i' (swap_entries l i (rnd i))
  end.

Definition shuffleDeck {A} (rnd : nat → nat) (deck : list A) : list A :=
  shuffle_loop rnd (length deck - 1) deck.

Definition dealCards (deck : list Card) (count : nat) : list Card * list Card :=
  (take count deck, drop count deck).

(** [SeatConfig] as the engines receive it *)
Record SeatConfig := mkSeatConfig {
  sc_kind : PlayerKind;
  sc_name : string;
  sc_socketId : option string
}.

(** [s || d] on an optional string: [undefined], [null] and [""] are falsy *)
Definition str_or (o : option string) (d : string) : string :=
  match o with Some x => if String.eqb x "" then d else x | None => d end.

(* ------------------------------------------------------------------ *)
(** ** ai-logic.ts: the decision interface. The strategies draw on
    [Math.random], so the engines below take them as an oracle. *)

Inductive DecisionAction := act_swap | act_discard.

Record AIDecision := mkDecision { action : DecisionAction; swapIndex : option nat }.

Record Opponent := mkOpponent { opp_seatIndex : nat; opp_hand : list Card }.

Record AIPowerDecision := mkPowerDecision {
  pd_power : PowerType;
  pd_targetSeat : nat;
  pd_targetIndex : nat;
  pd_swapOwnIndex : option nat
}.

Record AIStrategy := mkStrategy {
  aiChooseDraw : Difficulty → option Card → DrawSource;
  aiDecide : Difficulty → Card → list Card → AIMemory → nat → AIDecision;
  aiPowerTarget : Difficulty → PowerType → nat → list Card → list Opponent →
                  AIMemory → option AIPowerDecision
}.

Definition opponents_of (ps : list PlayerInfo) (seat : nat) : list Opponent :=
  (λ p, mkOpponent (seatIndex p) (hand p)) <$> filter (λ p, seatIndex p ≠ seat) ps.

(* ------------------------------------------------------------------ *)
(** ** game-engine.ts: the server-authoritative engine *)

Module Server.

Inductive Phase := turn_draw | turn_decision | power_target | game_over.

Global Instance Phase_eq_dec : EqDecision Phase.
Proof. solve_decision. Defined.

Record ServerGameState := mkState {
  deck : list Card;
  discardPile : list Card;
  players : list PlayerInfo;
  currentTurnSeat : nat;
  drawnCard : option Card;
  drawnFrom : option DrawSource;
  activePower : option PowerType;
  powerSourceSeat : option nat;
  aiMemories : gmap nat AIMemory;
  winnerSeat : option nat;
  turnCount : nat;
  difficulty : Difficulty;
  phase : Phase;
  swapSource : option (nat * nat)
}.

Record GameEvent := mkEvent { message : string; toastType : ToastType }.

Record EngineResult := mkResult { state : ServerGameState; events : list GameEvent }.

(** [{ ...state, field: x }], one setter per field the engine writes *)
Definition with_deck x s := mkState x (discardPile s) (players s) (currentTurnSeat s)
  (drawnCard s) (drawnFrom s) (activePower s) (powerSourceSeat s) (aiMemories s)
  (winnerSeat s) (turnCount s) (difficulty s) (phase s) (swapSource s).
Definition with_discardPile x s := mkState (deck s) x (players s) (currentTurnSeat s)
  (drawnCard s) (drawnFrom s) (activePower s) (powerSourceSeat s) (aiMemories s)
  (winnerSeat s) (turnCount s) (difficulty s) (phase s) (swapSource s).
Definition with_players x s := mkState (deck s) (discardPile s) x (currentTurnSeat s)
  (drawnCard s) (drawnFrom s) (activePower s) (powerSourceSeat s) (aiMemories s)
  (winnerSeat s) (turnCount s) (difficulty s) (phase s) (swapSource s).
Definition with_currentTurnSeat x s := mkState (deck s) (discardPile s) (players s) x
  (drawnCard s) (drawnFrom s) (activePower s) (powerSourceSeat s) (aiMemories s)
  (winnerSeat s) (turnCount s) (difficulty s) (phase s) (swapSource s).
Definition with_drawn x y s := mkState (deck s) (discardPile s) (players s)
  (currentTurnSeat s) x y (activePower s) (powerSourceSeat s) (aiMemories s)
  (winnerSeat s) (turnCount s) (difficulty s) (phase s) (swapSource s).
Definition with_power x y s := mkState (deck s) (discardPile s) (players s)
  (currentTurnSeat s) (drawnCard s) (drawnFrom s) x y (aiMemories s)
  (winnerSeat s) (turnCount s) (difficulty s) (phase s) (swapSource s).
Definition with_aiMemories x s := mkState (deck s) (discardPile s) (players s)
  (currentTurnSeat s) (drawnCard s) (drawnFrom s) (activePower s)
  (powerSourceSeat s) x (winnerSeat s) (turnCount s) (difficulty s) (phase s)
  (swapSource s).
Definition with_winnerSeat x s := mkState (deck s) (discardPile s) (players s)
  (currentTurnSeat s) (drawnCard s) (drawnFrom s) (activePower s)
  (powerSourceSeat s) (aiMemories s) x (turnCount s) (difficulty s) (phase s)
  (swapSource s).
Definition with_turnCount x s := mkState (deck s) (discardPile s) (players s)
  (currentTurnSeat s) (drawnCard s) (drawnFrom s) (activePower s)
  (powerSourceSeat s) (aiMemories s) (winnerSeat s) x (difficulty s) (phase s)
  (swapSource s).
Definition with_phase x s := mkState (deck s) (discardPile s) (players s)
  (currentTurnSeat s) (drawnCard s) (drawnFrom s) (activePower s)
  (powerSourceSeat s) (aiMemories s) (winnerSeat s) (turnCount s) (difficulty s) x
  (swapSource s).
Definition with_swapSource x s := mkState (deck s) (discardPile s) (players s)
  (currentTurnSeat s) (drawnCard s) (drawnFrom s) (activePower s)
  (powerSourceSeat s) (aiMemories s) (winnerSeat s) (turnCount s) (difficulty s)
  (phase s) x.

Definition toast (m : string) (t : ToastType) : GameEvent := mkEvent m t.
Definition invalid_action : GameEvent := toast "Invalid action" warning.

Definition power_toast (c : Card) (pw : PowerType) : GameEvent :=
  toast ((if isJoker c then "Joker" else default "undefined" (rank_str <$> rank c))
         +++ " power: " +++ powerName pw +++ "!") power.

(** [endGame] *)
Definition endGame (s : ServerGameState) (evs : list GameEvent) : outcome EngineResult :=
  let newPlayers := map reveal_and_score (players s) in
  let '(w, lowest) := pick_winner newPlayers in
  winner ← at_ newPlayers w;
  let evs' := evs ++ [toast (name winner +++ " wins with " +++ lowest_str lowest
                             +++ " points!") success] in
  Returns (mkResult (with_phase game_over (with_winnerSeat (Some w)
                       (with_players newPlayers s))) evs').

(** [advanceTurn] *)
Definition advanceTurn (s : ServerGameState) (evs : list GameEvent) : outcome EngineResult :=
  match deck s with
  | [] => endGame s evs
  | _ =>
    let nextSeat := getNextSeat (currentTurnSeat s) in
    let tc := turnCount s + (if decide (nextSeat = 0) then 1 else 0) in
    Returns (mkResult (with_swapSource None (with_phase turn_draw
               (with_turnCount tc (with_currentTurnSeat nextSeat s)))) evs)
  end.

Definition reject (s : ServerGameState) (e : GameEvent) : outcome EngineResult :=
  Returns (mkResult s [e]).

(** [processDrawFromDeck] *)
Definition processDrawFromDeck (s : ServerGameState) (seat : nat) : outcome EngineResult :=
  if decide (phase s ≠ turn_draw ∨ currentTurnSeat s ≠ seat) then reject s invalid_action else
  match deck s with
  | [] => reject s invalid_action
  | top :: rest =>
    Returns (mkResult (with_phase turn_decision
               (with_drawn (Some (with_isFaceUp true top)) (Some from_deck)
                 (with_deck rest s))) [])
  end.

(** [processDrawFromDiscard]: no other guard than phase, seat, non-empty pile *)
Definition processDrawFromDiscard (s : ServerGameState) (seat : nat) : outcome EngineResult :=
  if decide (phase s ≠ turn_draw ∨ currentTurnSeat s ≠ seat) then reject s invalid_action else
  match last (discardPile s) with
  | None => reject s invalid_action
  | Some top =>
    Returns (mkResult (with_phase turn_decision
               (with_drawn (Some (with_isFaceUp true top)) (Some from_discard)
                 (with_discardPile (removelast (discardPile s)) s))) [])
  end.

(** [processSwapWithHand]: the replaced hand card goes to the discard pile
    and its power (if any) is triggered *)
Definition processSwapWithHand (s : ServerGameState) (seat handIndex : nat) :
    outcome EngineResult :=
  match drawnCard s with
  | None => reject s invalid_action
  | Some drawn =>
  if decide (phase s ≠ turn_decision ∨ currentTurnSeat s ≠ seat) then reject s invalid_action else
  player ← at_ (players s) seat;
  c ← at_ (hand player) handIndex;
  if isLocked c then reject s (toast "Card is locked!" warning) else
  let removedCard := with_isFaceUp true c in
  let newPlayers := set_card (players s) seat handIndex (with_isFaceUp false drawn) in
  let newDiscardPile := discardPile s ++ [removedCard] in
  let pw := getCardPower removedCard in
  let newMemories := map_imap (λ aiSeat mem,
        let updated := mkMemory (forget_slot (knownCards mem) seat handIndex)
                                (discardedCards mem ++ [removedCard]) in
        Some (if decide (aiSeat = seat) then updateMemory updated seat handIndex drawn
              else updated)) (aiMemories s) in
  let evs := match pw with Some p => [power_toast removedCard p] | None => [] end in
  let newState := with_phase (if pw then power_target else phase s)
                    (with_power pw (if pw then Some seat else None)
                      (with_aiMemories newMemories
                        (with_drawn None None
                          (with_discardPile newDiscardPile (with_players newPlayers s))))) in
  match pw with
  | None => advanceTurn newState evs
  | Some _ => Returns (mkResult newState evs)
  end
  end.

(** [processDiscardDrawn]: no check of the board before entering power_target *)
Definition processDiscardDrawn (s : ServerGameState) (seat : nat) : outcome EngineResult :=
  match drawnCard s with
  | None => reject s invalid_action
  | Some drawn =>
  if decide (phase s ≠ turn_decision ∨ currentTurnSeat s ≠ seat) then reject s invalid_action else
  let discarded := with_isFaceUp true drawn in
  let newDiscardPile := discardPile s ++ [discarded] in
  let pw := getCardPower discarded in
  let newMemories := (λ mem, mkMemory (knownCards mem)
                               (discardedCards mem ++ [discarded])) <$> aiMemories s in
  let evs := match pw with Some p => [power_toast discarded p] | None => [] end in
  let newState := with_phase (if pw then power_target else phase s)
                    (with_power pw (if pw then Some seat else None)
                      (with_aiMemories newMemories
                        (with_drawn None None (with_discardPile newDiscardPile s)))) in
  match pw with
  | None => advanceTurn newState evs
  | Some _ => Returns (mkResult newState evs)
  end
  end.

(** the [for (let i = 0; i < 4; i++)] loop of the mass_swap case, with the
    short-circuit of [!own.isLocked && !target.isLocked] *)
Fixpoint mass_swap_loop (seat targetSeat : nat) (n i : nat) (ps : list PlayerInfo) :
    outcome (list PlayerInfo) :=
  match n with
  | 0 => Returns ps
  | S n' =>
    own ← at_ ps seat;
    oc ← at_ (hand own) i;
    ps' ← (if isLocked oc then Returns ps else
             tp ← at_ ps targetSeat;
             tc ← at_ (hand tp) i;
             if isLocked tc then Returns ps else
             Returns (set_card (set_card ps seat i tc) targetSeat i oc));
    mass_swap_loop seat targetSeat n' (S i) ps'
  end.

Definition name_at (ps : list PlayerInfo) (i : nat) : outcome string :=
  p ← at_ ps i; Returns (name p).

(** the common tail of [processPowerTarget]: [newState = { ...state, players:
    newPlayers, activePower: null, powerSourceSeat: null, aiMemories:
    newMemories, swapSource: null }], then [advanceTurn] *)
Definition resolve_power (s : ServerGameState) (ps' : list PlayerInfo)
    (mems' : gmap nat AIMemory) (evs : list GameEvent) : outcome EngineResult :=
  advanceTurn (with_swapSource None (with_aiMemories mems'
                 (with_power None None (with_players ps' s)))) evs.

(** [processPowerTarget]; a rejection inside a case returns the input state,
    a completed case falls through to the common tail (reset the power,
    clear the swap source, [advanceTurn]) *)
Definition processPowerTarget (s : ServerGameState) (seat targetSeat targetIndex : nat) :
    outcome EngineResult :=
  match activePower s with
  | None => Returns (mkResult s [])
  | Some pw =>
  if decide (currentTurnSeat s ≠ seat) then Returns (mkResult s []) else
  let ps := players s in
  let mems := aiMemories s in
  let finish := resolve_power s in
  match pw with
  | unlock =>
    tp ← at_ ps targetSeat;
    c ← at_ (hand tp) targetIndex;
    if isLocked c then
      let ps' := set_card ps targetSeat targetIndex (with_isLocked false c) in
      n ← name_at ps' targetSeat;
      finish ps' mems [toast ("Unlocked " +++ n +++ "'s card!") info]
    else finish ps mems []
  | peek =>
    tp ← at_ ps targetSeat;
    c ← at_ (hand tp) targetIndex;
    if isLocked c then reject s (toast "Cannot peek at locked card" warning) else
    let ps' := set_card ps targetSeat targetIndex (with_isPeeking true c) in
    n ← name_at ps' targetSeat;
    finish ps' mems [toast ("Peeking at " +++ n +++ "'s card...") info]
  | swap =>
    match swapSource s with
    | None =>
      tp ← at_ ps targetSeat;
      c ← at_ (hand tp) targetIndex;
      if isLocked c then reject s (toast "Cannot select locked card" warning) else
      Returns (mkResult (with_swapSource (Some (targetSeat, targetIndex)) (with_players ps s))
                        [toast "Select second card to swap" info])
    | Some (sourceSeat, sourceIndex) =>
      if decide (sourceSeat = targetSeat ∧ sourceIndex = targetIndex) then
        reject s (toast "Select a different card" warning) else
      tp ← at_ ps targetSeat;
      tc ← at_ (hand tp) targetIndex;
      if isLocked tc then reject s (toast "Cannot swap with locked card" warning) else
      sp ← at_ ps sourceSeat;
      temp ← spread_at (hand sp) sourceIndex;
      let ps1 := set_card ps sourceSeat sourceIndex tc in
      let ps2 := set_card ps1 targetSeat targetIndex temp in
      let mems' := (λ mem, mkMemory (forget_slot (forget_slot (knownCards mem)
                                        sourceSeat sourceIndex) targetSeat targetIndex)
                                    (discardedCards mem)) <$> mems in
      finish ps2 mems' [toast "Swapped cards!" info]
    end
  | lock =>
    tp ← at_ ps targetSeat;
    c ← spread_at (hand tp) targetIndex;
    let ps' := set_card ps targetSeat targetIndex (with_isLocked true c) in
    n ← name_at ps' targetSeat;
    finish ps' mems [toast ("Locked " +++ n +++ "'s card!") info]
  | mass_swap =>
    ps' ← mass_swap_loop seat targetSeat 4 0 ps;
    let mems' := (λ mem, mkMemory (<[targetSeat := ∅]> (<[seat := ∅]> (knownCards mem)))
                                  (discardedCards mem)) <$> mems in
    n ← name_at ps' targetSeat;
    finish ps' mems' [toast ("Mass swap with " +++ n +++ "!") power]
  end
  end.

(** [applyAIPowerServer]: mutates [newPlayers] and the AI's [memory] in
    place; here it returns their new values. [aiPlayer] is the AI's own
    player object, read by the caller before. *)
Definition applyAIPowerServer (d : AIPowerDecision) (aiSeat : nat)
    (ps : list PlayerInfo) (memory : AIMemory) (evs : list GameEvent) :
    outcome (list PlayerInfo * AIMemory * list GameEvent) :=
  aiName ← name_at ps aiSeat;
  let ts := pd_targetSeat d in
  let ti := pd_targetIndex d in
  match pd_power d with
  | unlock =>
    tp ← at_ ps ts;
    c ← at_ (hand tp) ti;
    if isLocked c then
      Returns (set_card ps ts ti (with_isLocked false c), memory,
               evs ++ [toast (aiName +++ " unlocked a card") info])
    else Returns (ps, memory, evs)
  | peek =>
    tp ← at_ ps ts;
    c ← at_ (hand tp) ti;
    if isLocked c then Returns (ps, memory, evs) else
    let seatKnown := default ∅ (knownCards memory !! ts) in
    Returns (ps, mkMemory (<[ts := <[ti := c]> seatKnown]> (knownCards memory))
                          (discardedCards memory),
             evs ++ [toast (aiName +++ " peeked at a card") info])
  | swap =>
    let ownIdx := default 0 (pd_swapOwnIndex d) in
    own ← at_ ps aiSeat;
    tp ← at_ ps ts;
    oc ← at_ (hand own) ownIdx;
    if isLocked oc then Returns (ps, memory, evs) else
    tc ← at_ (hand tp) ti;
    if isLocked tc then Returns (ps, memory, evs) else
    let ps' := set_card (set_card ps aiSeat ownIdx tc) ts ti oc in
    tn ← name_at ps' ts;
    Returns (ps', mkMemory (forget_slot (forget_slot (knownCards memory) aiSeat ownIdx) ts ti)
                           (discardedCards memory),
             evs ++ [toast (aiName +++ " swapped cards with " +++ tn +++ "!") warning])
  | lock =>
    tp ← at_ ps ts;
    c ← spread_at (hand tp) ti;
    Returns (set_card ps ts ti (with_isLocked true c), memory,
             evs ++ [toast (aiName +++ " locked a card") info])
  | mass_swap =>
    _ ← at_ ps aiSeat;
    _ ← at_ ps ts;
    ps' ← mass_swap_loop aiSeat ts 4 0 ps;
    Returns (ps', mkMemory (<[ts := ∅]> (<[aiSeat := ∅]> (knownCards memory)))
                           (discardedCards memory),
             evs ++ [toast (aiName +++ " used Mass Swap!") power])
  end.

(** [if (pd) applyAIPowerServer(...)] after a triggered power *)
Definition ai_use_power (strat : AIStrategy) (s : ServerGameState) (seat : nat)
    (pw : PowerType) (opps : list Opponent) (ps : list PlayerInfo) (mem : AIMemory)
    (evs : list GameEvent) : outcome (list PlayerInfo * AIMemory * list GameEvent) :=
  aiName ← name_at ps seat;
  let evs := evs ++ [toast (aiName +++ " used " +++ powerName pw +++ "!") power] in
  own ← at_ ps seat;
  match aiPowerTarget strat (difficulty s) pw seat (hand own) opps mem with
  | Some pd => applyAIPowerServer pd seat ps mem evs
  | None => Returns (ps, mem, evs)
  end.

(** [executeAITurnServer]: a non-AI seat on turn, or an empty deck, ends
    the game *)
Definition executeAITurnServer (strat : AIStrategy) (s : ServerGameState) :
    outcome EngineResult :=
  let seat := currentTurnSeat s in
  aiPlayer ← at_ (players s) seat;
  if decide (kind aiPlayer ≠ ai ∨ deck s = []) then endGame s [] else
  let memory := default createEmptyAIMemory (aiMemories s !! seat) in
  let ps := players s in
  let opponents := opponents_of ps seat in
  let discardTop := last (discardPile s) in
  let drawChoice := aiChooseDraw strat (difficulty s) discardTop in
  '(drawn, newDeck, newDiscardPile, evs) ←
    (match drawChoice, discardTop with
     | from_discard, Some top =>
       Returns (with_isFaceUp true top, deck s, removelast (discardPile s),
                [toast (name aiPlayer +++ " drew from discard") info])
     | _, _ =>
       top ← spread_at (deck s) 0;
       Returns (with_isFaceUp true top, drop 1 (deck s), discardPile s,
                [toast (name aiPlayer +++ " drew from deck") info])
     end);
  own ← at_ ps seat;
  let decision := aiDecide strat (difficulty s) drawn (hand own) memory seat in
  '(ps', newMemory, newDiscardPile', evs') ←
    (match action decision, swapIndex decision with
     | act_swap, Some idx =>
       c ← at_ (hand own) idx;
       if negb (isLocked c) then
         let removed := with_isFaceUp true c in
         let ps1 := set_card ps seat idx (with_isFaceUp false drawn) in
         let mem1 := updateMemory memory seat idx drawn in
         let mem2 := mkMemory (knownCards mem1) (discardedCards mem1 ++ [removed]) in
         let evs1 := evs ++ [toast (name aiPlayer +++ " swapped a card") info] in
         match getCardPower removed with
         | Some pw =>
           '(ps2, mem3, evs2) ← ai_use_power strat s seat pw opponents ps1 mem2 evs1;
           Returns (ps2, mem3, newDiscardPile ++ [removed], evs2)
         | None => Returns (ps1, mem2, newDiscardPile ++ [removed], evs1)
         end
       else Returns (ps, memory, newDiscardPile ++ [with_isFaceUp true drawn], evs)
     | _, _ =>
       let discarded := with_isFaceUp true drawn in
       let mem1 := mkMemory (knownCards memory) (discardedCards memory ++ [discarded]) in
       match getCardPower discarded with
       | Some pw =>
         '(ps2, mem2, evs2) ← ai_use_power strat s seat pw (opponents_of ps seat) ps mem1 evs;
         Returns (ps2, mem2, newDiscardPile ++ [discarded], evs2)
       | None => Returns (ps, mem1, newDiscardPile ++ [discarded], evs)
       end
     end);
  let newState := with_aiMemories (<[seat := newMemory]> (aiMemories s))
                    (with_discardPile newDiscardPile'
                      (with_deck newDeck (with_players ps' s))) in
  match newDeck with
  | [] => endGame newState evs'
  | _ => advanceTurn newState evs'
  end.

(** the [seatConfigs.map] of [createInitialState]: each seat is dealt the
    next four cards of [remaining], face down *)
Fixpoint deal_seats (configs : list SeatConfig) (i : nat) (remaining : list Card) :
    list PlayerInfo * list Card :=
  match configs with
  | [] => ([], remaining)
  | config :: configs =>
    let '(dealt, rest) := dealCards remaining 4 in
    let p := mkPlayer (str_or (sc_socketId config) ("seat-" +++ pretty i)) i (sc_kind config)
               (sc_name config) (with_isFaceUp false <$> dealt) 0 false in
    let '(ps, remaining) := deal_seats configs (S i) rest in
    (p :: ps, remaining)
  end.

(** [players.forEach(p => if (p.kind === 'ai') aiMemories.set(p.seatIndex,
    createEmptyAIMemory()))] *)
Definition initial_memories (ps : list PlayerInfo) : gmap nat AIMemory :=
  foldl (λ m p, if decide (kind p = ai) then <[seatIndex p := createEmptyAIMemory]> m else m)
        ∅ ps.

(** [createInitialState]; [{ ...remaining[0], isFaceUp: true }] on an
    exhausted deck spreads [undefined] *)
Definition createInitialState (now rnd : nat → nat) (seatConfigs : list SeatConfig)
    (difficulty : Difficulty) : outcome ServerGameState :=
  let deck := shuffleDeck rnd (createDeck now true) in
  let '(players, remaining) := deal_seats seatConfigs 0 deck in
  first ← spread_at remaining 0;
  Returns (mkState (drop 1 remaining) [with_isFaceUp true first] players 0 None None None
             None (initial_memories players) None 0 difficulty turn_draw None).

End Server.

(* ------------------------------------------------------------------ *)
(** ** game-room.ts: the per-seat view *)

Record ClientPlayerView := mkClientPlayer {
  v_name : string;
  v_kind : PlayerKind;
  v_seatIndex : nat;
  v_hand : list (option Card);
  v_score : nat;
  v_isLocal : bool
}.

Record ClientGameView := mkClientView {
  v_players : list ClientPlayerView;
  v_currentTurnSeat : nat;
  v_localSeat : nat;
  v_deckCount : nat;
  v_discardPile : list Card;
  v_drawnCard : option Card;
  v_activePower : option PowerType;
  v_powerSourceSeat : option nat;
  v_swapSource : option (nat * nat);
  v_phase : Server.Phase;
  v_turnCount : nat;
  v_winnerSeat : option nat
}.

(** [GameRoom.buildClientView] applied to [this.gameState!] *)
Definition buildClientView (gs : Server.ServerGameState) (forSeat : nat) : ClientGameView :=
  let players := (λ p, mkClientPlayer (name p) (kind p) (seatIndex p)
      ((λ c, if decide (seatIndex p = forSeat) then Some c
             else if isFaceUp c || isPeeking c then Some c else None) <$> hand p)
      (if decide (Server.phase gs = Server.game_over) then score p else 0)
      (bool_decide (seatIndex p = forSeat))) <$> Server.players gs in
  mkClientView players (Server.currentTurnSeat gs) forSeat (length (Server.deck gs))
    (Server.discardPile gs)
    (if decide (Server.currentTurnSeat gs = forSeat) then Server.drawnCard gs else None)
    (Server.activePower gs) (Server.powerSourceSeat gs) (Server.swapSource gs)
    (Server.phase gs) (Server.turnCount gs) (Server.winnerSeat gs).

(* ------------------------------------------------------------------ *)
(** ** game-room.ts: the room (seats, joining and leaving, the dispatch of
    client actions and the turn timer). A socket is represented by its id;
    the room's sends, timers and AI scheduling are emitted as
    [RoomEffect]s. *)

Module Room.

Inductive SeatKind := seat_human | seat_ai | seat_empty.

Global Instance SeatKind_eq_dec : EqDecision SeatKind.
Proof. solve_decision. Defined.

Record Seat := mkSeat {
  socketId : option string;
  seat_name : option string;
  seat_kind : SeatKind
}.

Definition empty_seat : Seat := mkSeat None None seat_empty.

Record RoomPlayer := mkRoomPlayer { socket : string; rp_name : string; seat : nat }.

Record GameRoom := mkRoom {
  id : string;
  hostSocket : string;
  difficulty : Difficulty;
  players : gmap string RoomPlayer;
  seats : list Seat;
  gameState : option Server.ServerGameState
}.

Definition with_players x r :=
  mkRoom (id r) (hostSocket r) (difficulty r) x (seats r) (gameState r).
Definition with_seats x r :=
  mkRoom (id r) (hostSocket r) (difficulty r) (players r) x (gameState r).
Definition with_gameState x r :=
  mkRoom (id r) (hostSocket r) (difficulty r) (players r) (seats r) x.

Inductive RoomEffect :=
| fx_toast (e : Server.GameEvent)      (** [broadcastEvents] / a toast to every socket *)
| fx_broadcastState
| fx_scheduleAITurn
| fx_startTurnTimer
| fx_clearTurnTimer
| fx_peekTimeout (targetSeat targetIndex : nat).

(** the constructor; [nanoid(6).toUpperCase()] is the oracle [roomId] *)
Definition new_GameRoom (roomId hostSocketId hostName : string) (d : Difficulty) : GameRoom :=
  mkRoom roomId hostSocketId d {[hostSocketId := mkRoomPlayer hostSocketId hostName 0]}
    (<[0 := mkSeat (Some hostSocketId) (Some hostName) seat_human]> (replicate 4 empty_seat))
    None.

Record RoomSeat := mkRoomSeat { playerName : option string; rs_kind : SeatKind; isReady : bool }.

Definition getSeatList (r : GameRoom) : list RoomSeat :=
  (λ s, mkRoomSeat (seat_name s) (seat_kind s) (bool_decide (seat_kind s ≠ seat_empty)))
    <$> seats r.

(** [join]: the room is returned with the result *)
Definition join (r : GameRoom) (sock playerName : string) :
    GameRoom * option (nat * list RoomSeat) :=
  if gameState r then (r, None) else
  match list_find (λ s, seat_kind s = seat_empty) (seats r) with
  | None => (r, None)
  | Some (emptySeat, _) =>
    let r' := with_players (<[sock := mkRoomPlayer sock playerName emptySeat]> (players r))
                (with_seats (<[emptySeat := mkSeat (Some sock) (Some playerName) seat_human]>
                   (seats r)) r) in
    (r', Some (emptySeat, getSeatList r'))
  end.

(** [removePlayer]; during a game the seat and its game player become an
    AI, and the AI turn is scheduled if the leaver was to draw *)
Definition removePlayer (r : GameRoom) (sock : string) :
    outcome (GameRoom * option (list RoomSeat) * list RoomEffect) :=
  match players r !! sock with
  | None => Returns (r, None, [])
  | Some player =>
    let k := seat player in
    '(r1, fx) ← (match gameState r with
      | Some gs =>
        let aiName := "AI " +++ pretty (S k) in
        p ← at_ (Server.players gs) k;
        let gs' := Server.with_players
              (<[k := mkPlayer (player_id p) (seatIndex p) ai aiName (hand p) (score p)
                               (isLocal p)]> (Server.players gs)) gs in
        Returns (with_gameState (Some gs')
                   (with_seats (<[k := mkSeat None (Some aiName) seat_ai]> (seats r)) r),
                 if decide (Server.currentTurnSeat gs = k ∧ Server.phase gs = Server.turn_draw)
                 then [fx_scheduleAITurn] else [])
      | None => Returns (with_seats (<[k := empty_seat]> (seats r)) r, [])
      end);
    let r2 := with_players (delete sock (players r1)) r1 in
    Returns (r2, Some (getSeatList r2), fx)
  end.

Definition isHost (r : GameRoom) (sock : string) : bool := String.eqb (hostSocket r) sock.

Definition canStart (r : GameRoom) : bool :=
  existsb (λ s, bool_decide (seat_kind s = seat_human)) (seats r).

(** [startTurnTimer]: clear, then arm the timer unless the game is over *)
Definition startTurnTimer (gs : option Server.ServerGameState) : list RoomEffect :=
  fx_clearTurnTimer ::
  match gs with
  | Some gs => if decide (Server.phase gs = Server.game_over) then [] else [fx_startTurnTimer]
  | None => []
  end.

(** [broadcastState] sends only when a game exists *)
Definition broadcastState (gs : option Server.ServerGameState) : list RoomEffect :=
  if gs then [fx_broadcastState] else [].

(** [startGame] with the oracles of [createInitialState] *)
Definition startGame (now rnd : nat → nat) (r : GameRoom) :
    outcome (GameRoom * list RoomEffect) :=
  let seats1 := imap (λ i s, if decide (seat_kind s = seat_empty)
                             then mkSeat None (Some ("AI " +++ pretty (S i))) seat_ai else s)
                     (seats r) in
  let seatConfigs := imap (λ i s,
        mkSeatConfig (match seat_kind s with seat_human => human | _ => ai end)
          (str_or (seat_name s) ("AI " +++ pretty (S i)))
          (match socketId s with
           | Some x => if String.eqb x "" then None else Some x
           | None => None
           end)) seats1 in
  gs ← Server.createInitialState now rnd seatConfigs (difficulty r);
  let r' := with_gameState (Some gs) (with_seats seats1 r) in
  p0 ← at_ (Server.players gs) 0;
  Returns (r', broadcastState (Some gs) ++
               if decide (kind p0 = ai) then [fx_scheduleAITurn] else startTurnTimer (Some gs)).

(** the client actions of [processAction]; any other name is ignored *)
Inductive Action :=
| draw_from_deck
| draw_from_discard
| swap_with_hand (handIndex : nat)
| discard_drawn
| select_power_target (targetSeat targetIndex : nat)
| other_action.

(** the [switch (action)] of [processAction] *)
Definition dispatch (gs : Server.ServerGameState) (seat : nat) (a : Action) :
    option (outcome Server.EngineResult) :=
  match a with
  | draw_from_deck => Some (Server.processDrawFromDeck gs seat)
  | draw_from_discard => Some (Server.processDrawFromDiscard gs seat)
  | swap_with_hand i => Some (Server.processSwapWithHand gs seat i)
  | discard_drawn => Some (Server.processDiscardDrawn gs seat)
  | select_power_target ts ti => Some (Server.processPowerTarget gs seat ts ti)
  | other_action => None
  end.

(** [handlePeekTimeout]: [players[targetSeat]?.hand[targetIndex]] does not throw *)
Definition handlePeekTimeout (gs : Server.ServerGameState) (ts ti : nat) : list RoomEffect :=
  match Server.players gs !! ts ≫= λ p, hand p !! ti with
  | Some c => if isPeeking c then [fx_peekTimeout ts ti] else []
  | None => []
  end.

(** [checkForAITurn] *)
Definition checkForAITurn (gs : option Server.ServerGameState) : outcome (list RoomEffect) :=
  match gs with
  | None => Returns [fx_clearTurnTimer]
  | Some g =>
    if decide (Server.phase g = Server.game_over) then Returns [fx_clearTurnTimer] else
    current ← at_ (Server.players g) (Server.currentTurnSeat g);
    if decide (kind current = ai ∧ Server.phase g = Server.turn_draw)
    then Returns [fx_clearTurnTimer; fx_scheduleAITurn]
    else if decide (kind current = human) then Returns (startTurnTimer gs)
    else Returns []
  end.

(** [processAction] *)
Definition processAction (r : GameRoom) (sock : string) (a : Action) :
    outcome (GameRoom * list RoomEffect) :=
  match gameState r with
  | None => Returns (r, [])
  | Some gs =>
    if decide (Server.phase gs = Server.game_over) then Returns (r, []) else
    match players r !! sock with
    | None => Returns (r, [])
    | Some player =>
      match dispatch gs (seat player) a with
      | None => Returns (r, [])
      | Some o =>
        res ← o;
        let gs' := Server.state res in
        let peekFx := match a with
                      | select_power_target ts ti => handlePeekTimeout gs' ts ti
                      | _ => []
                      end in
        fx ← checkForAITurn (Some gs');
        Returns (with_gameState (Some gs') r,
                 (fx_toast <$> Server.events res) ++ broadcastState (Some gs') ++ peekFx ++ fx)
      end
    end
  end.

(** [onTurnTimerExpired]: auto-play for a human on turn; a pending power
    is skipped by moving the turn by hand *)
Definition onTurnTimerExpired (r : GameRoom) : outcome (GameRoom * list RoomEffect) :=
  match gameState r with
  | None => Returns (r, [])
  | Some gs =>
    if decide (Server.phase gs = Server.game_over) then Returns (r, []) else
    let seat := Server.currentTurnSeat gs in
    current ← at_ (Server.players gs) seat;
    if decide (kind current ≠ human) then Returns (r, []) else
    '(gs', evs) ←
      (if decide (Server.phase gs = Server.turn_draw) then
         r1 ← Server.processDrawFromDeck gs seat;
         r2 ← Server.processDiscardDrawn (Server.state r1) seat;
         Returns (Server.state r2, Server.events r1 ++ Server.events r2)
       else if decide (Server.phase gs = Server.turn_decision ∧ Server.drawnCard gs ≠ None) then
         r1 ← Server.processDiscardDrawn gs seat;
         Returns (Server.state r1, Server.events r1)
       else if decide (Server.phase gs = Server.power_target) then
         let nextSeat := getNextSeat seat in
         Returns (Server.with_turnCount
                    (Server.turnCount gs + if decide (nextSeat = 0) then 1 else 0)
                    (Server.with_phase Server.turn_draw
                      (Server.with_currentTurnSeat nextSeat
                        (Server.with_swapSource None (Server.with_power None None gs)))), [])
       else Returns (gs, []));
    fx ← checkForAITurn (Some gs');
    Returns (with_gameState (Some gs') r,
             (fx_toast <$> evs) ++
             [fx_toast (Server.toast (name current +++ "'s time ran out! Auto-playing...")
                                     warning)] ++
             broadcastState (Some gs') ++ fx)
  end.

End Room.

(* ------------------------------------------------------------------ *)
(** ** store/game-store.ts: the offline engine

    The zustand store is a state monad: [get()] reads the state, [set({..})]
    merges fields into it. The store's [toasts] slice, the timers and the
    scheduled AI turns are side effects; they are emitted as [Effect]s
    rather than kept in the state (the timer countdown fields and the audio
    volumes are not modelled). *)

Module Offline.

Inductive GamePhase :=
  menu | lobby | dealing | turn_draw | turn_decision | power_target | game_over | tutorial.

Global Instance GamePhase_eq_dec : EqDecision GamePhase.
Proof. solve_decision. Defined.

Record GameState := mkGS {
  phase : GamePhase;
  difficulty : Difficulty;
  deck : list Card;
  discardPile : list Card;
  players : list PlayerInfo;
  currentTurnSeat : nat;
  localPlayerSeat : nat;
  drawnCard : option Card;
  drawnFrom : option DrawSource;
  activePower : option PowerType;
  powerSourceSeat : option nat;
  aiMemories : gmap nat AIMemory;
  winnerSeat : option nat;
  turnCount : nat;
  roomId : option string;
  isOnline : bool;
  swapSource : option (nat * nat);
  isDiscardBurned : bool
}.

Inductive Effect :=
| addToast (message : string) (ty : ToastType) (seat : option nat)
| clearTimer
| startTimer
| scheduleAITurn (seat : nat).   (** [setTimeout(() => executeAITurn(seat), ..)] *)

(** the store monad *)
Definition Store (A : Type) : Type := GameState → outcome (A * GameState * list Effect).

Global Instance store_ret : MRet Store := λ A a st, Returns (a, st, []).
Global Instance store_bind : MBind Store := λ A B f m st,
  match m st with
  | Returns (a, st', e1) =>
    match f a st' with
    | Returns (b, st'', e2) => Returns (b, st'', e1 ++ e2)
    | Throws => Throws
    | Malformed => Malformed
    end
  | Throws => Throws
  | Malformed => Malformed
  end.

Definition get : Store GameState := λ st, Returns (st, st, []).
Definition set (f : GameState → GameState) : Store unit := λ st, Returns (tt, f st, []).
Definition emit (e : Effect) : Store unit := λ st, Returns (tt, st, [e]).
Definition lift {A} (o : outcome A) : Store A := λ st,
  match o with Returns a => Returns (a, st, []) | Throws => Throws | Malformed => Malformed end.
Definition skip : Store unit := mret tt.

Definition set_phase x s := mkGS x (difficulty s) (deck s) (discardPile s) (players s)
  (currentTurnSeat s) (localPlayerSeat s) (drawnCard s) (drawnFrom s) (activePower s)
  (powerSourceSeat s) (aiMemories s) (winnerSeat s) (turnCount s) (roomId s)
  (isOnline s) (swapSource s) (isDiscardBurned s).
Definition set_discardPile x s := mkGS (phase s) (difficulty s) (deck s) x (players s)
  (currentTurnSeat s) (localPlayerSeat s) (drawnCard s) (drawnFrom s) (activePower s)
  (powerSourceSeat s) (aiMemories s) (winnerSeat s) (turnCount s) (roomId s)
  (isOnline s) (swapSource s) (isDiscardBurned s).
Definition set_players x s := mkGS (phase s) (difficulty s) (deck s) (discardPile s) x
  (currentTurnSeat s) (localPlayerSeat s) (drawnCard s) (drawnFrom s) (activePower s)
  (powerSourceSeat s) (aiMemories s) (winnerSeat s) (turnCount s) (roomId s)
  (isOnline s) (swapSource s) (isDiscardBurned s).
Definition set_currentTurnSeat x s := mkGS (phase s) (difficulty s) (deck s)
  (discardPile s) (players s) x (localPlayerSeat s) (drawnCard s) (drawnFrom s)
  (activePower s) (powerSourceSeat s) (aiMemories s) (winnerSeat s) (turnCount s)
  (roomId s) (isOnline s) (swapSource s) (isDiscardBurned s).
Definition set_drawn x y s := mkGS (phase s) (difficulty s) (deck s) (discardPile s)
  (players s) (currentTurnSeat s) (localPlayerSeat s) x y (activePower s)
  (powerSourceSeat s) (aiMemories s) (winnerSeat s) (turnCount s) (roomId s)
  (isOnline s) (swapSource s) (isDiscardBurned s).
Definition set_power x y s := mkGS (phase s) (difficulty s) (deck s) (discardPile s)
  (players s) (currentTurnSeat s) (localPlayerSeat s) (drawnCard s) (drawnFrom s) x y
  (aiMemories s) (winnerSeat s) (turnCount s) (roomId s) (isOnline s) (swapSource s)
  (isDiscardBurned s).
Definition set_aiMemories x s := mkGS (phase s) (difficulty s) (deck s) (discardPile s)
  (players s) (currentTurnSeat s) (localPlayerSeat s) (drawnCard s) (drawnFrom s)
  (activePower s) (powerSourceSeat s) x (winnerSeat s) (turnCount s) (roomId s)
  (isOnline s) (swapSource s) (isDiscardBurned s).
Definition set_winnerSeat x s := mkGS (phase s) (difficulty s) (deck s) (discardPile s)
  (players s) (currentTurnSeat s) (localPlayerSeat s) (drawnCard s) (drawnFrom s)
  (activePower s) (powerSourceSeat s) (aiMemories s) x (turnCount s) (roomId s)
  (isOnline s) (swapSource s) (isDiscardBurned s).
Definition set_turnCount x s := mkGS (phase s) (difficulty s) (deck s) (discardPile s)
  (players s) (currentTurnSeat s) (localPlayerSeat s) (drawnCard s) (drawnFrom s)
  (activePower s) (powerSourceSeat s) (aiMemories s) (winnerSeat s) x (roomId s)
  (isOnline s) (swapSource s) (isDiscardBurned s).
Definition set_swapSource x s := mkGS (phase s) (difficulty s) (deck s) (discardPile s)
  (players s) (currentTurnSeat s) (localPlayerSeat s) (drawnCard s) (drawnFrom s)
  (activePower s) (powerSourceSeat s) (aiMemories s) (winnerSeat s) (turnCount s)
  (roomId s) (isOnline s) x (isDiscardBurned s).
Definition set_isDiscardBurned x s := mkGS (phase s) (difficulty s) (deck s)
  (discardPile s) (players s) (currentTurnSeat s) (localPlayerSeat s) (drawnCard s)
  (drawnFrom s) (activePower s) (powerSourceSeat s) (aiMemories s) (winnerSeat s)
  (turnCount s) (roomId s) (isOnline s) (swapSource s) x.

(** [_endGame] *)
Definition _endGame : Store unit :=
  emit clearTimer;;
  st ← get;
  let newPlayers := map reveal_and_score (players st) in
  let '(w, lowest) := pick_winner newPlayers in
  set (set_winnerSeat (Some w) ∘ set_players newPlayers ∘ set_phase game_over);;
  match find (λ p, isLocal p) newPlayers with
  | Some lp =>
    if decide (seatIndex lp = w)
    then emit (addToast ("You win with " +++ lowest_str lowest +++ " points!") success None)
    else winner ← lift (at_ newPlayers w);
         emit (addToast (name winner +++ " wins with " +++ lowest_str lowest +++ " points!")
                        warning None)
  | None =>
    winner ← lift (at_ newPlayers w);
    emit (addToast (name winner +++ " wins with " +++ lowest_str lowest +++ " points!")
                   warning None)
  end.

(** [_endTurn]: a human seat that is not local keeps the current phase *)
Definition _endTurn : Store unit :=
  emit clearTimer;;
  st ← get;
  match deck st with
  | [] => _endGame
  | _ =>
    let nextSeat := getNextSeat (currentTurnSeat st) in
    nextPlayer ← lift (at_ (players st) nextSeat);
    let tc := turnCount st + (if decide (nextSeat = 0) then 1 else 0) in
    set (set_swapSource None ∘ set_turnCount tc ∘ set_currentTurnSeat nextSeat);;
    if decide (kind nextPlayer = ai) then
      set (set_phase turn_draw);; emit (scheduleAITurn nextSeat)
    else if isLocal nextPlayer then
      set (set_phase turn_draw);; emit startTimer
    else skip
  end.

(** [drawFromDeck] *)
Definition drawFromDeck : Store unit :=
  st ← get;
  if decide (phase st ≠ turn_draw) then skip else
  match deck st with
  | [] => skip
  | top :: rest =>
    current ← lift (at_ (players st) (currentTurnSeat st));
    if negb (isLocal current) then skip else
    set (set_phase turn_decision ∘ set_drawn (Some (with_isFaceUp true top)) (Some from_deck)
         ∘ (λ s, mkGS (phase s) (difficulty s) rest (discardPile s) (players s)
                   (currentTurnSeat s) (localPlayerSeat s) (drawnCard s) (drawnFrom s)
                   (activePower s) (powerSourceSeat s) (aiMemories s) (winnerSeat s)
                   (turnCount s) (roomId s) (isOnline s) (swapSource s)
                   (isDiscardBurned s)))
  end.

(** [drawFromDiscard]: refused while the discard is burned *)
Definition drawFromDiscard : Store unit :=
  st ← get;
  if decide (phase st ≠ turn_draw) then skip else
  match last (discardPile st) with
  | None => skip
  | Some top =>
    current ← lift (at_ (players st) (currentTurnSeat st));
    if negb (isLocal current) then skip else
    if isDiscardBurned st then
      emit (addToast "Cannot pick up! Power was used." warning (Some (currentTurnSeat st)))
    else
      set (set_phase turn_decision
           ∘ set_drawn (Some (with_isFaceUp true top)) (Some from_discard)
           ∘ set_discardPile (removelast (discardPile st)))
  end.

(** [swapWithHand]: a swapped-out hand card never triggers a power *)
Definition swapWithHand (handIndex : nat) : Store unit :=
  st ← get;
  match drawnCard st with
  | None => skip
  | Some drawn =>
  if decide (phase st ≠ turn_decision) then skip else
  let cur := currentTurnSeat st in
  current ← lift (at_ (players st) cur);
  c ← lift (at_ (hand current) handIndex);
  if isLocked c then emit (addToast "That card is locked!" warning (Some cur)) else
  let removedCard := with_isFaceUp true c in
  let newPlayers := set_card (players st) cur handIndex
                      (with_powerUsed false (with_isFaceUp false drawn)) in
  let newDiscardPile := discardPile st ++ [removedCard] in
  let newMemories := map_imap (λ aiSeat mem,
        let updated := mkMemory (forget_slot (knownCards mem) cur handIndex)
                                (discardedCards mem ++ [removedCard]) in
        Some (if decide (aiSeat = cur) then updateMemory updated cur handIndex drawn
              else updated)) (aiMemories st) in
  set (set_aiMemories newMemories ∘ set_drawn None None ∘ set_discardPile newDiscardPile
       ∘ set_players newPlayers);;
  set (set_isDiscardBurned false);;
  _endTurn
  end.

Definition any_locked (ps : list PlayerInfo) : bool :=
  existsb (λ p, existsb isLocked (hand p)) ps.

(** [discardDrawn(usePower = true)]. The [discarded.powerUsed = true]
    write happens after [discarded] was pushed on the pile and on every
    memory's [discardedCards]: the object is shared, so all of those see it. *)
Definition discardDrawn (usePower : bool) : Store unit :=
  st ← get;
  match drawnCard st with
  | None => skip
  | Some drawn =>
  if decide (phase st ≠ turn_decision) then skip else
  let cur := currentTurnSeat st in
  let discarded := with_isFaceUp true drawn in
  pw ← (let p0 := if usePower then getCardPower discarded else None in
        if decide (p0 = Some unlock) then
          if any_locked (players st) then mret p0
          else emit (addToast "No locked cards to unlock!" info (Some cur));; mret None
        else mret p0);
  let shared := if pw : option PowerType then with_powerUsed true discarded else discarded in
  let newMemories := (λ mem, mkMemory (knownCards mem) (discardedCards mem ++ [shared]))
                       <$> aiMemories st in
  set (set_aiMemories newMemories ∘ set_drawn None None
       ∘ set_discardPile (discardPile st ++ [shared]));;
  match pw with
  | Some p =>
    emit (addToast ((if isJoker discarded then "Joker"
                     else default "undefined" (rank_str <$> rank discarded))
                    +++ " power: " +++ powerName p +++ "!") power (Some cur));;
    set (set_isDiscardBurned true ∘ set_phase power_target ∘ set_power (Some p) (Some cur))
  | None =>
    set (set_isDiscardBurned false);;
    _endTurn
  end
  end.

(** the two loops of [rotateHands]; they read hands not yet overwritten *)
Fixpoint rotate_left_loop (i : nat) (ps : list PlayerInfo) : outcome (list PlayerInfo) :=
  match i with
  | 0 => Returns ps
  | S i' =>
    prev ← at_ ps i';
    cur ← at_ ps (S i');
    rotate_left_loop i' (<[S i' := with_hand (hand prev) cur]> ps)
  end.

Fixpoint rotate_right_loop (fuel i : nat) (ps : list PlayerInfo) : outcome (list PlayerInfo) :=
  match fuel with
  | 0 => Returns ps
  | S f =>
    nxt ← at_ ps (S i);
    cur ← at_ ps i;
    rotate_right_loop f (S i) (<[i := with_hand (hand nxt) cur]> ps)
  end.

Inductive Direction := dir_left | dir_right.

(** [let newMemories = new Map(); players.forEach(p => if (p.kind === 'ai')
    newMemories.set(p.seatIndex, { knownCards: new Map(), discardedCards: [...] }))] *)
Definition wipe_memories (ps : list PlayerInfo) (mems : gmap nat AIMemory) : gmap nat AIMemory :=
  foldl (λ m p,
    if decide (kind p = ai) then
      <[seatIndex p := mkMemory ∅ (default [] (discardedCards <$> mems !! seatIndex p))]> m
    else m) ∅ ps.

(** [rotateHands]: the offline mass-swap resolution *)
Definition rotateHands (direction : Direction) : Store unit :=
  st ← get;
  if decide (activePower st ≠ Some mass_swap) then skip else
  let ps := players st in
  let count := length ps in
  newPlayers ← lift (match direction with
    | dir_left =>
      lastP ← at_ ps (count - 1);
      ps' ← rotate_left_loop (count - 1) ps;
      p0 ← at_ ps' 0;
      Returns (<[0 := with_hand (hand lastP) p0]> ps')
    | dir_right =>
      firstP ← at_ ps 0;
      ps' ← rotate_right_loop (count - 1) 0 ps;
      pl ← at_ ps' (count - 1);
      Returns (<[count - 1 := with_hand (hand firstP) pl]> ps')
    end);
  let newMemories := wipe_memories ps (aiMemories st) in
  emit (addToast ("Global Swap! Hands rotated to the "
                  +++ (match direction with dir_left => "LEFT" | dir_right => "RIGHT" end)
                  +++ "!") power None);;
  set (set_swapSource None ∘ set_aiMemories newMemories ∘ set_power None None
       ∘ set_players newPlayers);;
  _endTurn.

(** [selectPowerTarget]. [newPlayers] is a copy of the players and their
    hands; the 3 s timer that clears [isPeeking] after a peek is not
    modelled. In the second swap pick the target card is read after the
    source slot was deselected, a different slot. *)
Definition selectPowerTarget (targetSeat targetIndex : nat) : Store unit :=
  st ← get;
  let ps := players st in
  let cur := currentTurnSeat st in
  let finish (ps' : list PlayerInfo) (mems : gmap nat AIMemory) : Store unit :=
    set (set_swapSource None ∘ set_aiMemories mems ∘ set_power None None ∘ set_players ps');;
    _endTurn in
  match activePower st with
  | None => skip
  | Some mass_swap => skip
  | Some unlock =>
    tp ← lift (at_ ps targetSeat);
    c ← lift (at_ (hand tp) targetIndex);
    if isLocked c then
      let ps' := set_card ps targetSeat targetIndex (with_isLocked false c) in
      emit (addToast ("Unlocked " +++ name tp +++ "'s card #" +++ pretty (S targetIndex) +++ "!")
                     info (Some cur));;
      finish ps' (aiMemories st)
    else finish ps (aiMemories st)
  | Some peek =>
    tp ← lift (at_ ps targetSeat);
    c ← lift (at_ (hand tp) targetIndex);
    if isLocked c then emit (addToast "Cannot peek at a locked card!" warning (Some cur)) else
    let ps' := set_card ps targetSeat targetIndex (with_isPeeking true c) in
    emit (addToast ("Peeking at " +++ name tp +++ "'s card #" +++ pretty (S targetIndex)
                    +++ "...") info (Some cur));;
    set (set_power None None ∘ set_players ps');;
    _endTurn
  | Some swap =>
    match swapSource st with
    | None =>
      tp ← lift (at_ ps targetSeat);
      c ← lift (at_ (hand tp) targetIndex);
      if isLocked c then emit (addToast "Cannot select a locked card!" warning (Some cur)) else
      let ps' := set_card ps targetSeat targetIndex (with_isSelected true c) in
      emit (addToast "Select second card to swap." info (Some cur));;
      set (set_swapSource (Some (targetSeat, targetIndex)) ∘ set_players ps')
    | Some (sourceSeat, sourceIndex) =>
      if decide (sourceSeat = targetSeat ∧ sourceIndex = targetIndex) then
        emit (addToast "Select a different card!" warning (Some cur)) else
      tp ← lift (at_ ps targetSeat);
      tc ← lift (at_ (hand tp) targetIndex);
      if isLocked tc then emit (addToast "Cannot swap with a locked card!" warning (Some cur)) else
      sp ← lift (at_ ps sourceSeat);
      src ← lift (spread_at (hand sp) sourceIndex);
      let ps1 := set_card ps sourceSeat sourceIndex (with_isSelected false src) in
      let temp := with_isSelected false src in
      let ps2 := set_card (set_card ps1 sourceSeat sourceIndex tc) targetSeat targetIndex temp in
      let ps3 := set_card (set_card ps2 sourceSeat sourceIndex (with_isSelected false tc))
                          targetSeat targetIndex (with_isSelected false temp) in
      let mems' := (λ mem, mkMemory (forget_slot (forget_slot (knownCards mem)
                                        sourceSeat sourceIndex) targetSeat targetIndex)
                                    (discardedCards mem)) <$> aiMemories st in
      emit (addToast "Swapped cards!" info (Some cur));;
      finish ps3 mems'
    end
  | Some lock =>
    tp ← lift (at_ ps targetSeat);
    c ← lift (spread_at (hand tp) targetIndex);
    let ps' := set_card ps targetSeat targetIndex (with_isLocked true c) in
    emit (addToast ("Locked " +++ name tp +++ "'s card #" +++ pretty (S targetIndex) +++ "!")
                   info (Some cur));;
    finish ps' (aiMemories st)
  end.

End Offline.

(** The card values as the data model lists them: 7 counts 0, A counts 1,
    10/J/Q/K and the joker count 10, the other ranks their face value. *)
Definition rank_points (r : Rank) : nat :=
  match r with
  | r7 => 0 | rA => 1 | r10 | rJ | rQ | rK => 10
  | r2 => 2 | r3 => 3 | r4 => 4 | r5 => 5 | r6 => 6 | r8 => 8 | r9 => 9
  end.

Definition spec_card_value (c : Card) : nat :=
  if isJoker c then 10 else match rank c with Some r => rank_points r | None => 0 end.

(* ------------------------------------------------------------------ *)
(** ** Concrete tables for the examples *)

Module Sample.

Definition std (i : string) (r : Rank) : Card :=
  mkCard i (Some hearts) (Some r) false None false false false false None.
Definition locked (c : Card) : Card := with_isLocked true c.

Definition plr (i : nat) (k : PlayerKind) (h : list Card) : PlayerInfo :=
  mkPlayer ("seat-" +++ pretty i) i k ("P" +++ pretty i) h 0 false.

Definition hand0 := [std "h2" r2; std "h3" r3; std "hK" rK; std "h4" r4].
Definition hand1 := [std "c5" r5; std "c6" r6; std "c7" r7; std "c8" r8].
Definition hand2 := [std "d9" r9; std "dA" rA; std "d2" r2; std "d3" r3].
Definition hand3 := [std "s4" r4; std "s5" r5; std "s6" r6; std "s7" r7].
Definition hand2_locked := [std "d9" r9; locked (std "dA" rA); std "d2" r2; std "d3" r3].

Definition table (h0 h1 h2 h3 : list Card) : list PlayerInfo :=
  [plr 0 human h0; plr 1 ai h1; plr 2 ai h2; plr 3 ai h3].

Definition mems : gmap nat AIMemory :=
  <[1 := createEmptyAIMemory]> (<[2 := createEmptyAIMemory]> (<[3 := createEmptyAIMemory]> ∅)).

(** seat 0 in turn_decision holding a drawn card *)
Definition srv_decision (drawn : Card) (ps : list PlayerInfo) : Server.ServerGameState :=
  Server.mkState [std "x1" r8; std "x2" r9] [std "top" r5] ps 0 (Some drawn)
    (Some from_deck) None None mems None 0 beginner Server.turn_decision None.

(** seat 0 in power_target with power [pw] *)
Definition srv_power (pw : PowerType) (src : option (nat * nat)) (ps : list PlayerInfo) :
    Server.ServerGameState :=
  Server.mkState [std "x1" r8; std "x2" r9] [std "top" r5; std "pw" rK] ps 0 None None
    (Some pw) (Some 0) mems None 0 beginner Server.power_target src.

Definition off_decision (drawn : Card) (ps : list PlayerInfo) : Offline.GameState :=
  Offline.mkGS Offline.turn_decision beginner [std "x1" r8; std "x2" r9] [std "top" r5]
    ps 0 0 (Some drawn) (Some from_deck) None None mems None 0 None false None false.

Definition off_power (pw : PowerType) (ps : list PlayerInfo) : Offline.GameState :=
  Offline.mkGS Offline.power_target beginner [std "x1" r8; std "x2" r9]
    [std "top" r5; std "pw" rK] ps 0 0 None None (Some pw) (Some 0) mems None 0 None false
    None true.

(** an AI that always draws from the deck, discards and uses no power *)
Definition passive_ai : AIStrategy :=
  mkStrategy (λ _ _, from_deck) (λ _ _ _ _ _, mkDecision act_discard None)
             (λ _ _ _ _ _ _, None).

Definition gs_view : Server.ServerGameState :=
  srv_decision (std "k" r5) (table hand0 hand1 hand2 hand3).

(** a room playing [gs]: seat 0 is the human on socket ["s0"], seats 1 to 3
    are AIs *)
Definition room_seats : list Room.Seat :=
  [Room.mkSeat (Some "s0") (Some "P0") Room.seat_human;
   Room.mkSeat None (Some "AI 2") Room.seat_ai;
   Room.mkSeat None (Some "AI 3") Room.seat_ai;
   Room.mkSeat None (Some "AI 4") Room.seat_ai].

Definition room_with (gs : Server.ServerGameState) : Room.GameRoom :=
  Room.mkRoom "ROOM1" "s0" beginner {["s0" := Room.mkRoomPlayer "s0" "P0" 0]} room_seats
    (Some gs).

(** seat 0 to draw while the deck is exhausted *)
Definition srv_draw_empty (ps : list PlayerInfo) : Server.ServerGameState :=
  Server.mkState [] [std "top" r5] ps 0 None None None None mems None 0 beginner
    Server.turn_draw None.

(** one human and three AI seats, as [startGame] builds them *)
Definition configs4 : list SeatConfig :=
  [mkSeatConfig human "P0" (Some "s0"); mkSeatConfig ai "AI 2" None;
   mkSeatConfig ai "AI 3" None; mkSeatConfig ai "AI 4" None].

(** seats 0 and 1 are humans on sockets ["s0"] and ["s1"] *)
Definition table2 : list PlayerInfo :=
  [plr 0 human hand0; plr 1 human hand1; plr 2 ai hand2; plr 3 ai hand3].

Definition room_two (gs : Server.ServerGameState) : Room.GameRoom :=
  Room.mkRoom "ROOM2" "s0" beginner
    (<["s1" := Room.mkRoomPlayer "s1" "P1" 1]> {["s0" := Room.mkRoomPlayer "s0" "P0" 0]})
    [Room.mkSeat (Some "s0") (Some "P0") Room.seat_human;
     Room.mkSeat (Some "s1") (Some "P1") Room.seat_human;
     Room.mkSeat None (Some "AI 3") Room.seat_ai;
     Room.mkSeat None (Some "AI 4") Room.seat_ai]
    (Some gs).

End Sample.

(* ------------------------------------------------------------------ *)
(** ** Relating the two engines *)

Definition phase_of (p : Server.Phase) : Offline.GamePhase :=
  match p with
  | Server.turn_draw => Offline.turn_draw
  | Server.turn_decision => Offline.turn_decision
  | Server.power_target => Offline.power_target
  | Server.game_over => Offline.game_over
  end.

(** a server state and an offline store state describing the same game *)
Definition corresponds (ss : Server.ServerGameState) (so : Offline.GameState) : Prop :=
  Server.deck ss = Offline.deck so ∧
  Server.discardPile ss = Offline.discardPile so ∧
  Server.players ss = Offline.players so ∧
  Server.currentTurnSeat ss = Offline.currentTurnSeat so ∧
  Server.drawnCard ss = Offline.drawnCard so ∧
  Server.drawnFrom ss = Offline.drawnFrom so ∧
  Server.activePower ss = Offline.activePower so ∧
  Server.powerSourceSeat ss = Offline.powerSourceSeat so ∧
  Server.aiMemories ss = Offline.aiMemories so ∧
  Server.winnerSeat ss = Offline.winnerSeat so ∧
  Server.turnCount ss = Offline.turnCount so ∧
  Server.difficulty ss = Offline.difficulty so ∧
  phase_of (Server.phase ss) = Offline.phase so ∧
  Server.swapSource ss = Offline.swapSource so.

(** every player sits at the position of its seat index *)
Definition seats_indexed (ps : list PlayerInfo) : Prop :=
  ∀ i p, ps !! i = Some p → seatIndex p = i.

(** the card in hand slot [k] of seat [j], if both exist *)
Definition slot (ps : list PlayerInfo) (j k : nat) : option Card :=
  ps !! j ≫= λ p, hand p !! k.

(** slot [k] is unlocked on both seats [a] and [b] *)
Definition both_unlocked (ps : list PlayerInfo) (a b k : nat) : bool :=
  match slot ps a k, slot ps b k with
  | Some x, Some y => negb (isLocked x) && negb (isLocked y)
  | _, _ => false
  end.

(** the slots after exchanging, for [lo <= k < hi], slot [k] of seats [a]
    and [b] whenever both are unlocked *)
Definition mass_swapped (ps : list PlayerInfo) (a b lo hi j k : nat) : option Card :=
  if decide (lo ≤ k < hi ∧ both_unlocked ps a b k = true) then
    if decide (j = a) then slot ps b k
    else if decide (j = b) then slot ps a k
    else slot ps j k
  else slot ps j k.

(** the ids of all the cards of a server game: deck, discard pile, hands
    and the drawn card *)
Definition card_ids (s : Server.ServerGameState) : list string :=
  card_id <$> (Server.deck s ++ Server.discardPile s ++ concat (hand <$> Server.players s)
               ++ option_list (Server.drawnCard s)).

(** the ids of the cards in the players' hands *)
Definition hand_ids (ps : list PlayerInfo) : list string :=
  card_id <$> concat (hand <$> ps).

(** a server state in which a drawn card exists only in turn_decision and a
    power is active only in power_target *)
Definition engine_inv (s : Server.ServerGameState) : Prop :=
  (Server.phase s ≠ Server.turn_decision → Server.drawnCard s = None) ∧
  (Server.activePower s ≠ None → Server.phase s = Server.power_target).

(** the id [createCard] gives the [k]-th card: ["card-k-<now k>"] *)
Definition card_id_at (now : nat → nat) (k : nat) : string :=
  "card-" +++ pretty k +++ "-" +++ pretty (now k).

(** no ['-'] in a string *)
Fixpoint dash_free (s : string) : bool :=
  match s with
  | EmptyString => true
  | String a s => negb (bool_decide (a = "-"%char)) && dash_free s
  end.

(** every socket in the room's player map sits on a human seat that
    records that socket *)
Definition room_inv (r : Room.GameRoom) : Prop :=
  ∀ sock p, Room.players r !! sock = Some p →
    ∃ s, Room.seats r !! Room.seat p = Some s ∧ Room.socketId s = Some sock ∧
         Room.seat_kind s = Room.seat_human.

(* ------------------------------------------------------------------ *)
(** ** Sanity checks on concrete tables *)

Import Sample.

Example endGame_ties_first_seat :
  (r ← Server.endGame (srv_decision (std "k" r5) (table hand0 hand1 hand2 hand3)) [];
   Returns (Server.winnerSeat (Server.state r), map score (Server.players (Server.state r))))
  = Returns (Some 2, [19; 19; 15; 15]).
Proof. vm_compute. reflexivity. Qed.

Example discard_king_enters_power_target :
  (r ← Server.processDiscardDrawn (srv_decision (std "k" rK) (table hand0 hand1 hand2 hand3)) 0;
   Returns (Server.phase (Server.state r), Server.activePower (Server.state r)))
  = Returns (Server.power_target, Some lock).
Proof. vm_compute. reflexivity. Qed.

(* ------------------------------------------------------------------ *)
(** ** Claims *)

(** C1 (discard-burn rule). The server engine has no burn flag: after seat 0
    discards a King (lock power triggers) and locks seat 2's card, seat 1's
    [draw_from_discard] is accepted and hands it the King that triggered the
    power. *)
Theorem C1_server_draw_after_power :
  (r1 ← Server.processDiscardDrawn (srv_decision (std "k" rK) (table hand0 hand1 hand2 hand3)) 0;
   r2 ← Server.processPowerTarget (Server.state r1) 0 2 1;
   r3 ← Server.processDrawFromDiscard (Server.state r2) 1;
   Returns (Server.phase (Server.state r1), Server.activePower (Server.state r1),
            Server.phase (Server.state r2), Server.currentTurnSeat (Server.state r2),
            Server.phase (Server.state r3), Server.drawnCard (Server.state r3),
            Server.events r3))
  = Returns (Server.power_target, Some lock, Server.turn_draw, 1,
             Server.turn_decision, Some (with_isFaceUp true (std "k" rK)), []).
Proof. vm_compute. reflexivity. Qed.

(** C2 (totality of the pure transitions). The transitions index hands with
    client-supplied numbers without a bounds check: [swap_with_hand] with
    [handIndex = 4] and [select_power_target] with [targetSeat = 7] throw a
    TypeError; and [processPowerTarget] called by a seat not on turn returns
    the state with no invalid-action event. *)
Theorem C2_out_of_range_throws :
  Server.processSwapWithHand (srv_decision (std "k" r5) (table hand0 hand1 hand2 hand3)) 0 4
    = Throws ∧
  Server.processPowerTarget (srv_power peek None (table hand0 hand1 hand2 hand3)) 0 7 0
    = Throws ∧
  Server.processPowerTarget (srv_power peek None (table hand0 hand1 hand2 hand3)) 1 2 0
    = Returns (Server.mkResult (srv_power peek None (table hand0 hand1 hand2 hand3)) []).
Proof. vm_compute. repeat split; reflexivity. Qed.

(** C4 (unlock suppression). With no locked card on the board, the server's
    [processDiscardDrawn] of a drawn 10 still enters power_target with the
    unlock power, while the offline [discardDrawn] on the same game
    suppresses it and passes the turn to seat 1. *)
Theorem C4_server_unlock_not_suppressed :
  Offline.any_locked (table hand0 hand1 hand2 hand3) = false ∧
  (r ← Server.processDiscardDrawn (srv_decision (std "t" r10) (table hand0 hand1 hand2 hand3)) 0;
   Returns (Server.phase (Server.state r), Server.activePower (Server.state r)))
  = Returns (Server.power_target, Some unlock) ∧
  (r ← Offline.discardDrawn true (off_decision (std "t" r10) (table hand0 hand1 hand2 hand3));
   let '(_, st, _) := r in
   Returns (Offline.phase st, Offline.activePower st, Offline.currentTurnSeat st))
  = Returns (Offline.turn_draw, None, 1).
Proof. vm_compute. repeat split; reflexivity. Qed.

(** C3 (the offline and server engines implement the same transitions).
    Counterexample: seat 0 holds a King at slot 2 and swaps a drawn 5 into
    it. From corresponding states the server enters power_target with the
    lock power, the offline store triggers nothing and passes the turn. *)
Theorem C3_counterexample :
  ∃ ss so r st e,
    corresponds ss so ∧
    Server.processSwapWithHand ss (Server.currentTurnSeat ss) 2 = Returns r ∧
    Offline.swapWithHand 2 so = Returns (tt, st, e) ∧
    ¬ corresponds (Server.state r) st.
Proof.
  set (ss := srv_decision (std "k" r5) (table hand0 hand1 hand2 hand3)).
  set (so := off_decision (std "k" r5) (table hand0 hand1 hand2 hand3)).
  destruct (Server.processSwapWithHand ss 0 2) as [r| |] eqn:E1;
    [| vm_compute in E1; discriminate ..].
  destruct (Offline.swapWithHand 2 so) as [[[[] st] e]| |] eqn:E2;
    [| vm_compute in E2; discriminate ..].
  exists ss, so, r, st, e.
  split; [repeat split|]. split; [exact E1|]. split; [exact E2|].
  intros (_&_&_&_&_&_&Hp&_).
  vm_compute in E1. injection E1 as <-.
  vm_compute in E2. injection E2 as <- <-.
  vm_compute in Hp. discriminate.
Qed.

(** C5 (a locked card is never selectable for peek, swap, lock or mass swap).
    Counterexample: with the lock power active, seat 0 selects seat 2's
    already locked card at index 1. The server accepts it: the card stays
    locked, the power is consumed and the turn passes to seat 1. *)
Theorem C5_counterexample :
  (r ← Server.processPowerTarget (srv_power lock None (table hand0 hand1 hand2_locked hand3)) 0 2 1;
   Returns (Server.phase (Server.state r), Server.currentTurnSeat (Server.state r),
            Server.activePower (Server.state r),
            Server.players (Server.state r) !! 2 ≫= λ p, hand p !! 1))
  = Returns (Server.turn_draw, 1, None, Some (locked (std "dA" rA))).
Proof. vm_compute. reflexivity. Qed.

(** C6 (mass swap only exchanges slots unlocked on both sides, in both
    engines). Counterexample: the offline mass-swap resolution
    [rotateHands] moves seat 0's locked card (slot 0) to seat 1 and puts
    seat 3's card in its place. *)
Theorem C6_counterexample :
  (r ← Offline.rotateHands Offline.dir_left
         (off_power mass_swap (table (locked (std "a" rA) :: tail hand0) hand1 hand2 hand3));
   let '(_, st, _) := r in
   Returns (Offline.players st !! 0 ≫= λ p, hand p !! 0,
            Offline.players st !! 1 ≫= λ p, hand p !! 0))
  = Returns (Some (std "s4" r4), Some (locked (std "a" rA))).
Proof. vm_compute. reflexivity. Qed.

(** C8 (view filtering). In the view built by [buildClientView gs forSeat]
    every player keeps its position and hand length; a card is shown when it
    belongs to [forSeat] or is face-up or peeking, otherwise it is [null] at
    the same position; the drawn card is shown only to the seat on turn; the
    score is 0 until game_over. *)
Theorem C8_buildClientView_filters :
  ∀ (gs : Server.ServerGameState) (forSeat i : nat) (p : PlayerInfo),
    Server.players gs !! i = Some p →
    ∃ vp, v_players (buildClientView gs forSeat) !! i = Some vp ∧
      v_seatIndex vp = seatIndex p ∧
      length (v_hand vp) = length (hand p) ∧
      (∀ k c, hand p !! k = Some c →
         v_hand vp !! k =
           Some (if decide (seatIndex p = forSeat ∨ isFaceUp c = true ∨ isPeeking c = true)
                 then Some c else None)) ∧
      v_score vp = (if decide (Server.phase gs = Server.game_over) then score p else 0) ∧
      v_drawnCard (buildClientView gs forSeat) =
        (if decide (Server.currentTurnSeat gs = forSeat) then Server.drawnCard gs else None).
Proof.
  intros gs forSeat i p Hp. unfold buildClientView. cbn [v_players v_drawnCard].
  rewrite list_lookup_fmap, Hp. cbn.
  eexists; split; [reflexivity|]. cbn.
  split; [reflexivity|]. split; [by rewrite length_fmap|].
  split; [|split; reflexivity].
  intros k c Hc. rewrite list_lookup_fmap, Hc. cbn.
  destruct (decide (seatIndex p = forSeat)) as [E|E].
  - rewrite decide_True by tauto. reflexivity.
  - destruct (isFaceUp c) eqn:Hf, (isPeeking c) eqn:Hk; cbn.
    all: first [rewrite decide_True by tauto | rewrite decide_False by naive_solver];
         reflexivity.
Qed.

Lemma C8_buildClientView_filters_witness :
  Server.players gs_view !! 2 = Some (plr 2 ai hand2) ∧
  ∃ vp, v_players (buildClientView gs_view 0) !! 2 = Some vp ∧
      v_seatIndex vp = seatIndex (plr 2 ai hand2) ∧
      length (v_hand vp) = length (hand (plr 2 ai hand2)) ∧
      (∀ k c, hand (plr 2 ai hand2) !! k = Some c →
         v_hand vp !! k =
           Some (if decide (seatIndex (plr 2 ai hand2) = 0 ∨ isFaceUp c = true ∨
                            isPeeking c = true)
                 then Some c else None)) ∧
      v_score vp = (if decide (Server.phase gs_view = Server.game_over)
                    then score (plr 2 ai hand2) else 0) ∧
      v_drawnCard (buildClientView gs_view 0) =
        (if decide (Server.currentTurnSeat gs_view = 0)
         then Server.drawnCard gs_view else None).
Proof.
  split; [reflexivity|].
  apply (C8_buildClientView_filters gs_view 0 2 (plr 2 ai hand2)). reflexivity.
Defined.

(* ------------------------------------------------------------------ *)
(** ** The offline discard burn *)

Lemma at_Some {A} (l : list A) (i : nat) (x : A) : l !! i = Some x → at_ l i = Returns x.
Proof. unfold at_. intros ->. reflexivity. Qed.

Lemma spread_at_Some {A} (l : list A) (i : nat) (x : A) :
  l !! i = Some x → spread_at l i = Returns x.
Proof. unfold spread_at. intros ->. reflexivity. Qed.

Lemma bind_Returns {A B} (a : A) (f : A → outcome B) : (Returns a ≫= f) = f a.
Proof. reflexivity. Qed.

(** the offline store refuses a draw from a burned discard pile and leaves
    its state as it was; the server engine has no such flag *)
Lemma drawFromDiscard_burned (st : Offline.GameState) (p : PlayerInfo) :
  Offline.isDiscardBurned st = true →
  Offline.players st !! Offline.currentTurnSeat st = Some p →
  ∃ e, Offline.drawFromDiscard st = Returns (tt, st, e).
Proof.
  intros Hb Hp. unfold Offline.drawFromDiscard.
  cbv [mbind Offline.store_bind Offline.get Offline.lift Offline.emit Offline.set
       Offline.skip mret Offline.store_ret].
  case_decide; [eexists; reflexivity|].
  destruct (last (Offline.discardPile st)); [|eexists; reflexivity].
  rewrite (at_Some _ _ _ Hp). cbn.
  destruct (isLocal p); cbn; [rewrite Hb|]; eexists; reflexivity.
Qed.

(* ------------------------------------------------------------------ *)
(** ** End of game *)

Lemma getCardValue_spec (c : Card) : getCardValue c = spec_card_value c.
Proof.
  unfold getCardValue, spec_card_value.
  destruct (isJoker c); [reflexivity|]. destruct (rank c) as [[]|]; reflexivity.
Qed.

Lemma hand_score_fold (h : list Card) (n : nat) :
  fold_left (λ total c, total + getCardValue c) h n = n + sum_list (getCardValue <$> h).
Proof.
  revert n. induction h as [|c h IH]; intros n; cbn; [lia|].
  rewrite IH. lia.
Qed.

Lemma calculateHandScore_sum (h : list Card) :
  calculateHandScore h = sum_list (spec_card_value <$> h).
Proof.
  unfold calculateHandScore. rewrite hand_score_fold. cbn.
  induction h as [|c h IH]; cbn; [reflexivity|].
  rewrite getCardValue_spec. lia.
Qed.

Lemma revealed_score (h : list Card) :
  calculateHandScore (map (with_isFaceUp true) h) = calculateHandScore h.
Proof.
  rewrite !calculateHandScore_sum.
  induction h as [|c h IH]; cbn; [reflexivity|]. rewrite IH. reflexivity.
Qed.

Lemma pick_winner_snoc (ps : list PlayerInfo) (x : PlayerInfo) :
  pick_winner (ps ++ [x]) =
    match pick_winner ps with
    | (_, None) => (seatIndex x, Some (score x))
    | (w, Some l) => if score x <? l then (seatIndex x, Some (score x)) else (w, Some l)
    end.
Proof. unfold pick_winner. rewrite fold_left_app. cbn. by destruct (fold_left _ _ _) as [? []]. Qed.

(** the scan of [endGame]: first seat with the strictly lowest score *)
Lemma pick_winner_inv (ps : list PlayerInfo) :
  seats_indexed ps →
  (ps = [] ∧ pick_winner ps = (0, None)) ∨
  (∃ w q, pick_winner ps = (w, Some (score q)) ∧ ps !! w = Some q ∧
     (∀ j q', ps !! j = Some q' → score q ≤ score q') ∧
     (∀ j q', j < w → ps !! j = Some q' → score q < score q')).
Proof.
  induction ps as [|x ps IH] using rev_ind; intros Hidx; [left; split; reflexivity|].
  right.
  assert (Hx : seatIndex x = length ps).
  { apply Hidx. apply lookup_snoc_Some. right. split; reflexivity. }
  assert (Hps : seats_indexed ps).
  { intros i p Hp. apply Hidx. apply lookup_app_l_Some. exact Hp. }
  rewrite pick_winner_snoc.
  destruct (IH Hps) as [[-> ->]|(w & q & -> & Hq & Hle & Hlt)].
  - exists 0, x. cbn in Hx |- *. rewrite Hx. split; [reflexivity|].
    split; [reflexivity|].
    split; intros j q' Hj; [|lia].
    destruct j as [|j]; cbn in Hj; [injection Hj as <-; lia|discriminate].
  - destruct (score x <? score q) eqn:E.
    + apply Nat.ltb_lt in E. exists (length ps), x. rewrite Hx.
      split; [reflexivity|]. split; [apply lookup_snoc_Some; right; split; reflexivity|].
      split.
      * intros j q' Hj. apply lookup_snoc_Some in Hj as [[_ Hj]|[_ <-]]; [|lia].
        specialize (Hle j q' Hj). lia.
      * intros j q' Hjw Hj. apply lookup_snoc_Some in Hj as [[_ Hj]|[? _]]; [|lia].
        specialize (Hle j q' Hj). lia.
    + apply Nat.ltb_ge in E. exists w, q.
      split; [reflexivity|]. split; [by apply lookup_app_l_Some|].
      split.
      * intros j q' Hj. apply lookup_snoc_Some in Hj as [[_ Hj]|[_ <-]]; [|lia].
        by apply Hle in Hj.
      * intros j q' Hjw Hj. apply lookup_snoc_Some in Hj as [[_ Hj]|[? <-]].
        -- by apply (Hlt j).
        -- apply lookup_lt_Some in Hq. lia.
Qed.

Lemma reveal_seats_indexed (ps : list PlayerInfo) :
  seats_indexed ps → seats_indexed (map reveal_and_score ps).
Proof.
  intros H i p Hp. rewrite list_lookup_fmap in Hp.
  destruct (ps !! i) as [q|] eqn:Hq; [|discriminate]. injection Hp as <-.
  unfold reveal_and_score. cbn. apply H. exact Hq.
Qed.

Lemma endGame_spec (s : Server.ServerGameState) (evs : list Server.GameEvent) :
  seats_indexed (Server.players s) → Server.players s ≠ [] →
  ∃ w q, pick_winner (map reveal_and_score (Server.players s)) = (w, Some (score q)) ∧
    map reveal_and_score (Server.players s) !! w = Some q ∧
    (∀ j q', map reveal_and_score (Server.players s) !! j = Some q' → score q ≤ score q') ∧
    (∀ j q', j < w → map reveal_and_score (Server.players s) !! j = Some q' →
               score q < score q') ∧
    Server.endGame s evs =
      Returns (Server.mkResult
        (Server.with_phase Server.game_over (Server.with_winnerSeat (Some w)
           (Server.with_players (map reveal_and_score (Server.players s)) s)))
        (evs ++ [Server.toast (name q +++ " wins with " +++ lowest_str (Some (score q))
                               +++ " points!") success])).
Proof.
  intros Hidx Hne.
  destruct (pick_winner_inv _ (reveal_seats_indexed _ Hidx))
    as [[Hnil _]|(w & q & Hw & Hq & Hle & Hlt)].
  { destruct (Server.players s); [contradiction|discriminate]. }
  exists w, q. do 4 (split; [assumption|]).
  unfold Server.endGame. rewrite Hw. unfold at_. rewrite Hq. reflexivity.
Qed.

(** C7 (end-of-game scoring and winner). [endGame] reveals every hand,
    scores each player with the sum of its card values (7 -> 0, A -> 1,
    10/J/Q/K/joker -> 10, else face value) and names as winner the first
    seat, in seat order, with the lowest score. *)
Theorem C7_endGame_scores_and_winner :
  ∀ (s : Server.ServerGameState) (evs : list Server.GameEvent),
    seats_indexed (Server.players s) →
    Server.players s ≠ [] →
    ∃ r, Server.endGame s evs = Returns r ∧
      Server.phase (Server.state r) = Server.game_over ∧
      length (Server.players (Server.state r)) = length (Server.players s) ∧
      (∀ i p, Server.players s !! i = Some p →
         ∃ q, Server.players (Server.state r) !! i = Some q ∧
           hand q = with_isFaceUp true <$> hand p ∧
           score q = sum_list (spec_card_value <$> hand p)) ∧
      (∃ w qw, Server.winnerSeat (Server.state r) = Some w ∧
         Server.players (Server.state r) !! w = Some qw ∧
         (∀ j q, Server.players (Server.state r) !! j = Some q → score qw ≤ score q) ∧
         (∀ j q, j < w → Server.players (Server.state r) !! j = Some q →
                 score qw < score q)).
Proof.
  intros s evs Hidx Hne.
  destruct (endGame_spec s evs Hidx Hne) as (w & q & _ & Hq & Hle & Hlt & ->).
  eexists; split; [reflexivity|]. cbn.
  split; [reflexivity|]. split; [apply length_map|].
  split.
  - intros i p Hp. exists (reveal_and_score p).
    rewrite list_lookup_fmap, Hp. split; [reflexivity|]. split; [reflexivity|].
    cbn. rewrite revealed_score. apply calculateHandScore_sum.
  - exists w, q. repeat split; assumption.
Qed.

Lemma C7_endGame_scores_and_winner_witness :
  seats_indexed (Server.players gs_view) ∧ Server.players gs_view ≠ [] ∧
  ∃ r, Server.endGame gs_view [] = Returns r ∧
      Server.phase (Server.state r) = Server.game_over ∧
      length (Server.players (Server.state r)) = length (Server.players gs_view) ∧
      (∀ i p, Server.players gs_view !! i = Some p →
         ∃ q, Server.players (Server.state r) !! i = Some q ∧
           hand q = with_isFaceUp true <$> hand p ∧
           score q = sum_list (spec_card_value <$> hand p)) ∧
      (∃ w qw, Server.winnerSeat (Server.state r) = Some w ∧
         Server.players (Server.state r) !! w = Some qw ∧
         (∀ j q, Server.players (Server.state r) !! j = Some q → score qw ≤ score q) ∧
         (∀ j q, j < w → Server.players (Server.state r) !! j = Some q →
                 score qw < score q)).
Proof.
  assert (H1 : seats_indexed (Server.players gs_view)).
  { intros i p Hp. do 4 (destruct i as [|i]; [vm_compute in Hp; injection Hp as <-; reflexivity|]).
    vm_compute in Hp. discriminate. }
  assert (H2 : Server.players gs_view ≠ []) by (vm_compute; discriminate).
  split; [exact H1|]. split; [exact H2|].
  exact (C7_endGame_scores_and_winner gs_view [] H1 H2).
Defined.

(* ------------------------------------------------------------------ *)
(** ** Slots, [set_card] and the end of a power *)

Lemma slot_set_card (ps : list PlayerInfo) (j k : nat) (c : Card) (j' k' : nat) :
  slot (set_card ps j k c) j' k' =
    if decide (j' = j ∧ k' = k) then (λ _, c) <$> slot ps j k else slot ps j' k'.
Proof.
  unfold slot, set_card. destruct (ps !! j) as [p|] eqn:Hj.
  - destruct (decide (j' = j)) as [->|Hne].
    + rewrite list_lookup_insert_eq by (eapply lookup_lt_Some; eauto). simpl.
      destruct (decide (k' = k)) as [->|Hk].
      * rewrite decide_True by auto.
        destruct (hand p !! k) eqn:Hk.
        -- rewrite list_lookup_insert_eq by (eapply lookup_lt_Some; eauto). reflexivity.
        -- rewrite list_insert_ge by (apply lookup_ge_None; auto). rewrite Hk. reflexivity.
      * rewrite decide_False by tauto. rewrite list_lookup_insert_ne by congruence.
        rewrite Hj. reflexivity.
    + rewrite decide_False by tauto. rewrite list_lookup_insert_ne by congruence.
      reflexivity.
  - destruct (decide (j' = j ∧ k' = k)) as [[-> ->]|]; [rewrite Hj|]; reflexivity.
Qed.

Lemma advanceTurn_continue (s : Server.ServerGameState) (evs : list Server.GameEvent) :
  Server.deck s ≠ [] →
  Server.advanceTurn s evs =
    Returns (Server.mkResult
      (Server.with_swapSource None (Server.with_phase Server.turn_draw
         (Server.with_turnCount (Server.turnCount s +
              (if decide (getNextSeat (Server.currentTurnSeat s) = 0) then 1 else 0))
            (Server.with_currentTurnSeat (getNextSeat (Server.currentTurnSeat s)) s)))) evs).
Proof.
  intros Hd. unfold Server.advanceTurn. destruct (Server.deck s); [contradiction|reflexivity].
Qed.

Lemma resolve_power_continue (s : Server.ServerGameState) (ps : list PlayerInfo)
    (mems : gmap nat AIMemory) (evs : list Server.GameEvent) :
  Server.deck s ≠ [] →
  ∃ r, Server.resolve_power s ps mems evs = Returns r ∧
    Server.players (Server.state r) = ps ∧
    Server.aiMemories (Server.state r) = mems ∧
    Server.activePower (Server.state r) = None ∧
    Server.powerSourceSeat (Server.state r) = None ∧
    Server.swapSource (Server.state r) = None ∧
    Server.phase (Server.state r) = Server.turn_draw ∧
    Server.currentTurnSeat (Server.state r) = getNextSeat (Server.currentTurnSeat s) ∧
    Server.deck (Server.state r) = Server.deck s ∧
    Server.events r = evs.
Proof.
  intros Hd. unfold Server.resolve_power.
  rewrite advanceTurn_continue by exact Hd.
  eexists; split; [reflexivity|]. repeat split.
Qed.

Lemma resolve_power_clears (s : Server.ServerGameState) (ps : list PlayerInfo)
    (mems : gmap nat AIMemory) (evs : list Server.GameEvent) (r : Server.EngineResult) :
  Server.resolve_power s ps mems evs = Returns r → Server.swapSource (Server.state r) = None.
Proof.
  unfold Server.resolve_power, Server.advanceTurn. cbn.
  destruct (Server.deck s).
  - unfold Server.endGame, at_. destruct (pick_winner _) as [w l]. cbn.
    case_match; cbn; [|discriminate]. intros [= <-]. reflexivity.
  - intros [= <-]. reflexivity.
Qed.

(* ------------------------------------------------------------------ *)
(** ** The AI turn on a human seat *)

(** C10 (AI turn on a human seat). When the seat on turn is human,
    [executeAITurnServer] does not reject: it takes the branch it takes on an
    empty deck and calls [endGame], which reveals every hand, scores it,
    names a winner and sets the phase to game_over. *)
Theorem C10_human_turn_ends_game :
  ∀ (strat : AIStrategy) (s : Server.ServerGameState) (p : PlayerInfo),
    Server.players s !! Server.currentTurnSeat s = Some p → kind p = human →
    Server.executeAITurnServer strat s = Server.endGame s [] ∧
    (∀ s' p', Server.players s' !! Server.currentTurnSeat s' = Some p' →
       Server.deck s' = [] → Server.executeAITurnServer strat s' = Server.endGame s' []) ∧
    (seats_indexed (Server.players s) →
     ∃ r, Server.executeAITurnServer strat s = Returns r ∧
       Server.phase (Server.state r) = Server.game_over ∧
       Server.winnerSeat (Server.state r) ≠ None ∧
       ∀ i q, Server.players s !! i = Some q →
         ∃ q', Server.players (Server.state r) !! i = Some q' ∧
           hand q' = with_isFaceUp true <$> hand q ∧
           score q' = calculateHandScore (hand q)).
Proof.
  intros strat s p Hp Hk.
  assert (Hend : Server.executeAITurnServer strat s = Server.endGame s []).
  { unfold Server.executeAITurnServer, at_. rewrite Hp. cbn -[Server.endGame].
    rewrite decide_True by (left; rewrite Hk; discriminate). reflexivity. }
  split; [exact Hend|]. split.
  - intros s' p' Hp' Hd. unfold Server.executeAITurnServer, at_. rewrite Hp'.
    cbn -[Server.endGame]. rewrite decide_True by (right; exact Hd). reflexivity.
  - intros Hidx. rewrite Hend.
    assert (Hne : Server.players s ≠ []) by (intros E; rewrite E in Hp; discriminate).
    destruct (endGame_spec s [] Hidx Hne) as (w & q & _ & _ & _ & _ & ->).
    eexists; split; [reflexivity|]. cbn. split; [reflexivity|]. split; [discriminate|].
    intros i q0 Hq0. exists (reveal_and_score q0).
    rewrite list_lookup_fmap, Hq0. split; [reflexivity|]. split; [reflexivity|].
    cbn. apply revealed_score.
Qed.

Lemma C10_human_turn_ends_game_witness :
  Server.players gs_view !! Server.currentTurnSeat gs_view = Some (plr 0 human hand0) ∧
  kind (plr 0 human hand0) = human ∧
  Server.executeAITurnServer passive_ai gs_view = Server.endGame gs_view [].
Proof.
  assert (H1 : Server.players gs_view !! Server.currentTurnSeat gs_view
               = Some (plr 0 human hand0)) by reflexivity.
  assert (H2 : kind (plr 0 human hand0) = human) by reflexivity.
  split; [exact H1|]. split; [exact H2|].
  exact (proj1 (C10_human_turn_ends_game passive_ai gs_view _ H1 H2)).
Defined.

(* ------------------------------------------------------------------ *)
(** ** The swap power *)

Lemma slot_Some (ps : list PlayerInfo) (j k : nat) (c : Card) :
  slot ps j k = Some c → ∃ p, ps !! j = Some p ∧ hand p !! k = Some c.
Proof.
  unfold slot. destruct (ps !! j) as [p|]; cbn; [|discriminate]. eauto.
Qed.

Ltac open_power Hap :=
  unfold Server.processPowerTarget; rewrite Hap;
  rewrite decide_False by tauto; cbv zeta.

Ltac read_slot H :=
  let p := fresh "p" in let Hp := fresh "Hp" in let Hc := fresh "Hc" in
  destruct (slot_Some _ _ _ _ H) as (p & Hp & Hc);
  unfold at_, spread_at; rewrite Hp; cbn -[Server.resolve_power]; rewrite Hc;
  cbn -[Server.resolve_power].

Lemma swap_first_pick (s : Server.ServerGameState) (ts ti : nat) (c : Card) :
  Server.activePower s = Some swap → Server.swapSource s = None →
  slot (Server.players s) ts ti = Some c → isLocked c = false →
  Server.processPowerTarget s (Server.currentTurnSeat s) ts ti =
    Returns (Server.mkResult
      (Server.with_swapSource (Some (ts, ti)) (Server.with_players (Server.players s) s))
      [Server.toast "Select second card to swap" info]).
Proof.
  intros Hap Hsrc Hsl Hl. open_power Hap. rewrite Hsrc. read_slot Hsl.
  rewrite Hl. reflexivity.
Qed.

Lemma swap_second_same (s : Server.ServerGameState) (ss si : nat) :
  Server.activePower s = Some swap → Server.swapSource s = Some (ss, si) →
  Server.processPowerTarget s (Server.currentTurnSeat s) ss si =
    Server.reject s (Server.toast "Select a different card" warning).
Proof.
  intros Hap Hsrc. open_power Hap. rewrite Hsrc.
  rewrite decide_True by auto. reflexivity.
Qed.

Lemma swap_second_locked (s : Server.ServerGameState) (ss si ts ti : nat) (c : Card) :
  Server.activePower s = Some swap → Server.swapSource s = Some (ss, si) →
  ¬ (ss = ts ∧ si = ti) →
  slot (Server.players s) ts ti = Some c → isLocked c = true →
  Server.processPowerTarget s (Server.currentTurnSeat s) ts ti =
    Server.reject s (Server.toast "Cannot swap with locked card" warning).
Proof.
  intros Hap Hsrc Hne Hsl Hl. open_power Hap. rewrite Hsrc.
  rewrite decide_False by exact Hne. read_slot Hsl. rewrite Hl. reflexivity.
Qed.

Lemma swap_second_ok (s : Server.ServerGameState) (ss si ts ti : nat) (c1 c2 : Card) :
  Server.activePower s = Some swap → Server.swapSource s = Some (ss, si) →
  ¬ (ss = ts ∧ si = ti) →
  slot (Server.players s) ss si = Some c1 →
  slot (Server.players s) ts ti = Some c2 → isLocked c2 = false →
  ∃ mems', Server.processPowerTarget s (Server.currentTurnSeat s) ts ti =
    Server.resolve_power s
      (set_card (set_card (Server.players s) ss si c2) ts ti c1) mems'
      [Server.toast "Swapped cards!" info].
Proof.
  intros Hap Hsrc Hne Hs1 Hs2 Hl. open_power Hap. rewrite Hsrc.
  rewrite decide_False by exact Hne. read_slot Hs2. rewrite Hl. read_slot Hs1.
  eexists. reflexivity.
Qed.

(** C9 (two-step swap power). With the swap power active and no pending
    source, a first [select_power_target] on an unlocked card records it as
    the pending source and keeps the turn, the power and the phase. A second
    selection of the same slot or of a locked card is rejected with the state
    unchanged; any other card is exchanged with the source, the pending
    source is cleared and the turn passes to the next seat. Every turn
    advance clears the pending source. *)
Theorem C9_two_step_swap :
  ∀ (s : Server.ServerGameState) (seat ts ti : nat) (c : Card),
    Server.activePower s = Some swap → Server.currentTurnSeat s = seat →
    Server.swapSource s = None →
    slot (Server.players s) ts ti = Some c → isLocked c = false →
    ∃ r, Server.processPowerTarget s seat ts ti = Returns r ∧
      Server.events r = [Server.toast "Select second card to swap" info] ∧
      Server.swapSource (Server.state r) = Some (ts, ti) ∧
      Server.activePower (Server.state r) = Some swap ∧
      Server.currentTurnSeat (Server.state r) = seat ∧
      Server.phase (Server.state r) = Server.phase s ∧
      Server.players (Server.state r) = Server.players s ∧
      (∀ ts2 ti2,
         (ts2 = ts ∧ ti2 = ti) ∨
         (∃ c2, slot (Server.players s) ts2 ti2 = Some c2 ∧ isLocked c2 = true) →
         ∃ e, Server.processPowerTarget (Server.state r) seat ts2 ti2 =
                Returns (Server.mkResult (Server.state r) [e])) ∧
      (∀ ts2 ti2 c2, Server.deck s ≠ [] → ¬ (ts2 = ts ∧ ti2 = ti) →
         slot (Server.players s) ts2 ti2 = Some c2 → isLocked c2 = false →
         ∃ r2, Server.processPowerTarget (Server.state r) seat ts2 ti2 = Returns r2 ∧
           Server.swapSource (Server.state r2) = None ∧
           Server.activePower (Server.state r2) = None ∧
           Server.phase (Server.state r2) = Server.turn_draw ∧
           Server.currentTurnSeat (Server.state r2) = getNextSeat seat ∧
           slot (Server.players (Server.state r2)) ts ti = Some c2 ∧
           slot (Server.players (Server.state r2)) ts2 ti2 = Some c ∧
           ∀ j k, ¬ (j = ts ∧ k = ti) → ¬ (j = ts2 ∧ k = ti2) →
             slot (Server.players (Server.state r2)) j k = slot (Server.players s) j k) ∧
      (∀ s' evs, Server.deck s' ≠ [] →
         ∃ r', Server.advanceTurn s' evs = Returns r' ∧
               Server.swapSource (Server.state r') = None).
Proof.
  intros s seat ts ti c Hap <- Hsrc Hsl Hl.
  rewrite (swap_first_pick s ts ti c Hap Hsrc Hsl Hl).
  set (s1 := Server.with_swapSource (Some (ts, ti)) (Server.with_players (Server.players s) s)).
  assert (Hap1 : Server.activePower s1 = Some swap) by exact Hap.
  assert (Hsrc1 : Server.swapSource s1 = Some (ts, ti)) by reflexivity.
  eexists; split; [reflexivity|]. cbn -[s1].
  do 6 (split; [first [reflexivity|assumption]|]). split; [|split].
  - intros ts2 ti2 [[-> ->]|(c2 & Hs2 & Hl2)].
    + eexists. exact (swap_second_same s1 ts ti Hap1 Hsrc1).
    + destruct (decide (ts = ts2 ∧ ti = ti2)) as [[-> ->]|Hne].
      * eexists. exact (swap_second_same s1 ts2 ti2 Hap1 Hsrc1).
      * eexists. exact (swap_second_locked s1 ts ti ts2 ti2 c2 Hap1 Hsrc1 Hne Hs2 Hl2).
  - intros ts2 ti2 c2 Hd Hne Hs2 Hl2.
    assert (Hne' : ¬ (ts = ts2 ∧ ti = ti2)) by (intros [-> ->]; tauto).
    destruct (swap_second_ok s1 ts ti ts2 ti2 c c2 Hap1 Hsrc1 Hne' Hsl Hs2 Hl2) as [mems' Hm].
    change (Server.players s1) with (Server.players s) in Hm.
    change (Server.currentTurnSeat s) with (Server.currentTurnSeat s1). rewrite Hm.
    destruct (resolve_power_continue s1
                (set_card (set_card (Server.players s) ts ti c2) ts2 ti2 c) mems'
                [Server.toast "Swapped cards!" info] Hd)
      as (r2 & -> & Hps & _ & Hpow & _ & Hsw & Hph & Hcur & _ & _).
    exists r2. rewrite Hps. do 5 (split; [first [reflexivity|assumption]|]).
    rewrite !slot_set_card.
    split; [|split].
    + repeat case_decide; try tauto. rewrite Hsl. reflexivity.
    + repeat case_decide; try tauto. rewrite Hs2. reflexivity.
    + intros j k Hj1 Hj2. rewrite !slot_set_card. repeat case_decide; tauto.
  - intros s' evs Hd. rewrite advanceTurn_continue by exact Hd.
    eexists; split; reflexivity.
Qed.

Lemma C9_two_step_swap_witness :
  Server.activePower (srv_power swap None (table hand0 hand1 hand2 hand3)) = Some swap ∧
  slot (table hand0 hand1 hand2 hand3) 1 2 = Some (std "c7" r7) ∧
  ∃ r, Server.processPowerTarget (srv_power swap None (table hand0 hand1 hand2 hand3)) 0 1 2
         = Returns r ∧
       Server.swapSource (Server.state r) = Some (1, 2).
Proof.
  assert (H1 : Server.activePower (srv_power swap None (table hand0 hand1 hand2 hand3))
               = Some swap) by reflexivity.
  assert (H2 : slot (table hand0 hand1 hand2 hand3) 1 2 = Some (std "c7" r7))
    by reflexivity.
  split; [exact H1|]. split; [exact H2|].
  destruct (C9_two_step_swap (srv_power swap None (table hand0 hand1 hand2 hand3)) 0 1 2
              (std "c7" r7) H1 eq_refl eq_refl H2 eq_refl)
    as (r & Hr & _ & Hs & _).
  exists r. split; [exact Hr|exact Hs].
Defined.

(* ------------------------------------------------------------------ *)
(** ** The mass swap *)

Ltac range_contra :=
  first [ congruence
        | exfalso; match goal with
          | H : ¬ (_ ∧ ?B), H' : (_ ∧ ?B) |- _ => apply H; split; [lia | exact (proj2 H')]
          end ].

Lemma mass_swap_loop_spec (seat t n i : nat) (ps : list PlayerInfo) :
  seat ≠ t →
  (∀ k, i ≤ k < i + n → is_Some (slot ps seat k) ∧ is_Some (slot ps t k)) →
  ∃ ps', Server.mass_swap_loop seat t n i ps = Returns ps' ∧
    ∀ j k, slot ps' j k = mass_swapped ps seat t i (i + n) j k.
Proof.
  intros Hst. revert i ps.
  induction n as [|n IH]; intros i ps Hsome.
  - exists ps. split; [reflexivity|]. intros j k. unfold mass_swapped.
    rewrite decide_False by lia. reflexivity.
  - destruct (Hsome i ltac:(lia)) as [[oc Hoc] [tc Htc]].
    destruct (slot_Some _ _ _ _ Hoc) as (own & Hown & Hoc').
    destruct (slot_Some _ _ _ _ Htc) as (tp & Htp & Htc').
    assert (Hrest : ∀ ps1, (∀ j k, k ≠ i → slot ps1 j k = slot ps j k) →
              ∀ k, S i ≤ k < S i + n → is_Some (slot ps1 seat k) ∧ is_Some (slot ps1 t k)).
    { intros ps1 Hsame k Hk. rewrite !Hsame by lia. apply Hsome. lia. }
    assert (Hbu : ∀ ps1, (∀ j k, k ≠ i → slot ps1 j k = slot ps j k) →
              ∀ k, k ≠ i → both_unlocked ps1 seat t k = both_unlocked ps seat t k).
    { intros ps1 Hsame k Hk. unfold both_unlocked. rewrite !Hsame by exact Hk. reflexivity. }
    cbn [Server.mass_swap_loop]. unfold at_. rewrite Hown. cbn.
    unfold at_. rewrite Hoc'. cbn.
    destruct (isLocked oc) eqn:Hlo.
    + destruct (IH (S i) ps (Hrest ps (λ _ _ _, eq_refl))) as (ps' & Hl & Hps').
      exists ps'. simpl. rewrite Hl. split; [reflexivity|]. intros j k. rewrite Hps'.
      unfold mass_swapped.
      destruct (decide (k = i)) as [->|Hki].
      * assert (both_unlocked ps seat t i = false) as ->
          by (unfold both_unlocked; rewrite Hoc, Htc, Hlo; reflexivity).
        rewrite !decide_False by lia. reflexivity.
      * repeat case_decide; try reflexivity; range_contra.
    + unfold at_. rewrite Htp. cbn. unfold at_. rewrite Htc'. cbn.
      destruct (isLocked tc) eqn:Hlt.
      * destruct (IH (S i) ps (Hrest ps (λ _ _ _, eq_refl))) as (ps' & Hl & Hps').
        exists ps'. simpl. rewrite Hl. split; [reflexivity|]. intros j k. rewrite Hps'.
        unfold mass_swapped.
        destruct (decide (k = i)) as [->|Hki].
        -- assert (both_unlocked ps seat t i = false) as ->
             by (unfold both_unlocked; rewrite Hoc, Htc, Hlo, Hlt; reflexivity).
           rewrite !decide_False by lia. reflexivity.
        -- repeat case_decide; try reflexivity; range_contra.
      * set (ps1 := set_card (set_card ps seat i tc) t i oc).
        assert (Hsame : ∀ j k, k ≠ i → slot ps1 j k = slot ps j k).
        { intros j k Hk. unfold ps1. rewrite !slot_set_card.
          repeat case_decide; try lia; reflexivity. }
        destruct (IH (S i) ps1 (Hrest ps1 Hsame)) as (ps' & Hl & Hps').
        exists ps'. simpl. rewrite Hl. split; [reflexivity|]. intros j k. rewrite Hps'.
        unfold mass_swapped.
        destruct (decide (k = i)) as [->|Hki].
        -- assert (both_unlocked ps seat t i = true) as ->
             by (unfold both_unlocked; rewrite Hoc, Htc, Hlo, Hlt; reflexivity).
           rewrite (decide_False (P := S i ≤ i < S i + n ∧ both_unlocked ps1 seat t i = true))
             by (intros [? _]; lia).
           rewrite decide_True by lia.
           unfold ps1. rewrite !slot_set_card. rewrite Hoc, Htc.
           repeat case_decide; subst; try lia; try tauto; reflexivity.
        -- rewrite (Hbu ps1 Hsame) by exact Hki. rewrite !Hsame by exact Hki.
           repeat case_decide; try reflexivity; range_contra.
Qed.

(* ------------------------------------------------------------------ *)
(** ** The offline end of turn and hand rotation *)

Lemma endTurn_frame (st st' : Offline.GameState) (u : unit) (e : list Offline.Effect) :
  Offline._endTurn st = Returns (u, st', e) →
  Offline.activePower st' = Offline.activePower st ∧
  Offline.isDiscardBurned st' = Offline.isDiscardBurned st ∧
  (Offline.phase st' = Offline.phase st ∨ Offline.phase st' = Offline.turn_draw ∨
   Offline.phase st' = Offline.game_over) ∧
  (Offline.deck st ≠ [] → Offline.players st' = Offline.players st ∧
                          Offline.aiMemories st' = Offline.aiMemories st).
Proof.
  unfold Offline._endTurn, Offline._endGame.
  cbv [mbind Offline.store_bind Offline.get Offline.lift Offline.emit Offline.set Offline.skip mret Offline.store_ret].
  destruct (Offline.deck st) eqn:Hd.
  - repeat (case_match; try discriminate); intros; simplify_eq; cbn; intuition congruence.
  - repeat (case_match; try discriminate); intros; simplify_eq; cbn; intuition congruence.
Qed.

Lemma getNextSeat_lt (s : nat) : getNextSeat s < 4.
Proof. unfold getNextSeat. apply Nat.mod_upper_bound. lia. Qed.

Lemma endTurn_continue (st : Offline.GameState) :
  Offline.deck st ≠ [] → length (Offline.players st) = 4 →
  ∃ st' e, Offline._endTurn st = Returns (tt, st', e).
Proof.
  intros Hd Hl. unfold Offline._endTurn.
  cbv [mbind Offline.store_bind Offline.get Offline.lift Offline.emit Offline.set Offline.skip mret Offline.store_ret].
  destruct (Offline.deck st) eqn:Hdk; [contradiction|].
  destruct (lookup_lt_is_Some_2 (Offline.players st) (getNextSeat (Offline.currentTurnSeat st)))
    as [p Hp]; [rewrite Hl; apply getNextSeat_lt|].
  unfold at_. rewrite Hp. cbn.
  repeat case_match; simplify_eq; repeat match goal with u : () |- _ => destruct u end; eauto.
Qed.

Lemma rotate_left_4 (st : Offline.GameState) (p0 p1 p2 p3 : PlayerInfo) :
  Offline.players st = [p0; p1; p2; p3] → Offline.activePower st = Some mass_swap →
  Offline.deck st ≠ [] →
  ∃ st' e, Offline.rotateHands Offline.dir_left st = Returns (tt, st', e) ∧
    Offline.players st' = [with_hand (hand p3) p0; with_hand (hand p0) p1;
                           with_hand (hand p1) p2; with_hand (hand p2) p3] ∧
    Offline.aiMemories st' = Offline.wipe_memories [p0; p1; p2; p3] (Offline.aiMemories st) ∧
    Offline.activePower st' = None.
Proof.
  intros Hp Hap Hd. unfold Offline.rotateHands.
  cbv [mbind Offline.store_bind Offline.get Offline.lift Offline.emit Offline.set].
  rewrite Hap. rewrite decide_False by congruence. rewrite Hp.
  cbn -[Offline._endTurn Offline.wipe_memories].
  match goal with |- context [Offline._endTurn ?x] => set (st1 := x) end.
  destruct (endTurn_continue st1) as (st' & e & He); [exact Hd|reflexivity|].
  destruct (endTurn_frame _ _ _ _ He) as (Hap' & _ & _ & Hfr).
  destruct (Hfr Hd) as [Hps Hmem].
  rewrite He. cbn. eexists st', _. split; [reflexivity|].
  rewrite Hps, Hmem, Hap'. repeat split.
Qed.

Lemma rotate_right_4 (st : Offline.GameState) (p0 p1 p2 p3 : PlayerInfo) :
  Offline.players st = [p0; p1; p2; p3] → Offline.activePower st = Some mass_swap →
  Offline.deck st ≠ [] →
  ∃ st' e, Offline.rotateHands Offline.dir_right st = Returns (tt, st', e) ∧
    Offline.players st' = [with_hand (hand p1) p0; with_hand (hand p2) p1;
                           with_hand (hand p3) p2; with_hand (hand p0) p3] ∧
    Offline.aiMemories st' = Offline.wipe_memories [p0; p1; p2; p3] (Offline.aiMemories st) ∧
    Offline.activePower st' = None.
Proof.
  intros Hp Hap Hd. unfold Offline.rotateHands.
  cbv [mbind Offline.store_bind Offline.get Offline.lift Offline.emit Offline.set].
  rewrite Hap. rewrite decide_False by congruence. rewrite Hp.
  cbn -[Offline._endTurn Offline.wipe_memories].
  match goal with |- context [Offline._endTurn ?x] => set (st1 := x) end.
  destruct (endTurn_continue st1) as (st' & e & He); [exact Hd|reflexivity|].
  destruct (endTurn_frame _ _ _ _ He) as (Hap' & _ & _ & Hfr).
  destruct (Hfr Hd) as [Hps Hmem].
  rewrite He. cbn. eexists st', _. split; [reflexivity|].
  rewrite Hps, Hmem, Hap'. repeat split.
Qed.

(** the server's mass swap: the loop over the four slots, then the
    memory reset of both seats and the common tail *)
Lemma mass_swap_resolves (s : Server.ServerGameState) (t ti : nat) :
  Server.activePower s = Some mass_swap → Server.currentTurnSeat s ≠ t →
  (∀ k, k < 4 → is_Some (slot (Server.players s) (Server.currentTurnSeat s) k) ∧
                is_Some (slot (Server.players s) t k)) →
  ∃ ps' evs,
    Server.processPowerTarget s (Server.currentTurnSeat s) t ti =
      Server.resolve_power s ps'
        ((λ mem, mkMemory (<[t := ∅]> (<[Server.currentTurnSeat s := ∅]> (knownCards mem)))
                          (discardedCards mem)) <$> Server.aiMemories s) evs ∧
    ∀ j k, slot ps' j k = mass_swapped (Server.players s) (Server.currentTurnSeat s) t 0 4 j k.
Proof.
  intros Hap Hne Hsome. open_power Hap.
  destruct (mass_swap_loop_spec (Server.currentTurnSeat s) t 4 0 (Server.players s) Hne
              (λ k Hk, Hsome k ltac:(lia))) as (ps' & Hl & Hps').
  rewrite Hl. cbn -[Server.resolve_power Server.name_at].
  destruct (Hsome 0 ltac:(lia)) as [[a Ha] [b Hb]].
  assert (Ht : is_Some (slot ps' t 0)).
  { rewrite Hps'. unfold mass_swapped.
    repeat case_decide; subst; first [rewrite Ha | rewrite Hb | idtac]; eauto; congruence. }
  destruct Ht as [c Hc]. destruct (slot_Some _ _ _ _ Hc) as (p & Hp & _).
  unfold Server.name_at, at_. rewrite Hp. cbn -[Server.resolve_power].
  eexists _, _. split; [reflexivity|exact Hps'].
Qed.

Lemma wipe_memories_known (ps : list PlayerInfo) (mems : gmap nat AIMemory)
    (o : nat) (mem : AIMemory) :
  Offline.wipe_memories ps mems !! o = Some mem → knownCards mem = ∅.
Proof.
  unfold Offline.wipe_memories.
  cut (∀ m : gmap nat AIMemory, (∀ o mem, m !! o = Some mem → knownCards mem = ∅) →
         ∀ o mem, foldl (λ m p,
            if decide (kind p = ai) then
              <[seatIndex p := mkMemory ∅ (default [] (discardedCards <$> mems !! seatIndex p))]> m
            else m) m ps !! o = Some mem → knownCards mem = ∅).
  { intros H. apply H. intros ? ? E. rewrite lookup_empty in E. discriminate. }
  induction ps as [|p ps IH]; intros m Hm; cbn; [exact Hm|].
  apply IH. intros o' mem'. case_decide; [|apply Hm].
  rewrite lookup_insert_Some. intros [[_ <-]|[_ E]]; [reflexivity|exact (Hm _ _ E)].
Qed.

(** C6 (mass swap, as the two engines implement it). The server's
    [processPowerTarget] with the mass-swap power against another seat with
    four-card hands exchanges exactly the slots unlocked on both sides,
    leaves every other slot and every other seat as it was, and resets both
    seats' entries of every AI memory to an empty map. The offline engine
    resolves the mass swap with [rotateHands] instead: all four hands move
    one seat to the left or to the right, locked cards included, and every
    AI memory forgets all its known cards. *)
Theorem C6_mass_swap_amended :
  (∀ (s : Server.ServerGameState) (seat t ti : nat),
     Server.activePower s = Some mass_swap → Server.currentTurnSeat s = seat → seat ≠ t →
     (∀ k, k < 4 → is_Some (slot (Server.players s) seat k) ∧
                   is_Some (slot (Server.players s) t k)) →
     ∃ ps' mems' evs,
       Server.processPowerTarget s seat t ti = Server.resolve_power s ps' mems' evs ∧
       (∀ k a b, k < 4 → slot (Server.players s) seat k = Some a →
          slot (Server.players s) t k = Some b →
          (isLocked a = false → isLocked b = false →
             slot ps' seat k = Some b ∧ slot ps' t k = Some a) ∧
          (isLocked a = true ∨ isLocked b = true →
             slot ps' seat k = Some a ∧ slot ps' t k = Some b)) ∧
       (∀ j k, j ≠ seat → j ≠ t → slot ps' j k = slot (Server.players s) j k) ∧
       (∀ o, mems' !! o = None ↔ Server.aiMemories s !! o = None) ∧
       (∀ o mem, Server.aiMemories s !! o = Some mem →
          ∃ mem', mems' !! o = Some mem' ∧
            knownCards mem' !! seat = Some ∅ ∧ knownCards mem' !! t = Some ∅ ∧
            (∀ j, j ≠ seat → j ≠ t → knownCards mem' !! j = knownCards mem !! j) ∧
            discardedCards mem' = discardedCards mem)) ∧
  (∀ (st : Offline.GameState) (p0 p1 p2 p3 : PlayerInfo),
     Offline.players st = [p0; p1; p2; p3] → Offline.activePower st = Some mass_swap →
     Offline.deck st ≠ [] →
     (∃ st' e, Offline.rotateHands Offline.dir_left st = Returns (tt, st', e) ∧
        Offline.players st' = [with_hand (hand p3) p0; with_hand (hand p0) p1;
                               with_hand (hand p1) p2; with_hand (hand p2) p3] ∧
        ∀ o mem, Offline.aiMemories st' !! o = Some mem → knownCards mem = ∅) ∧
     (∃ st' e, Offline.rotateHands Offline.dir_right st = Returns (tt, st', e) ∧
        Offline.players st' = [with_hand (hand p1) p0; with_hand (hand p2) p1;
                               with_hand (hand p3) p2; with_hand (hand p0) p3] ∧
        ∀ o mem, Offline.aiMemories st' !! o = Some mem → knownCards mem = ∅)).
Proof.
  split.
  - intros s seat t ti Hap <- Hne Hsome.
    destruct (mass_swap_resolves s t ti Hap Hne Hsome) as (ps' & evs & Heq & Hps').
    eexists ps', _, evs. split; [exact Heq|].
    split; [|split; [|split]].
    + intros k a b Hk Ha Hb. rewrite !Hps'. unfold mass_swapped, both_unlocked.
      rewrite Ha, Hb. split.
      * intros Hla Hlb. rewrite Hla, Hlb. cbn.
        split; repeat case_decide;
          first [ assumption | congruence
                | exfalso; match goal with H : ¬ (_ ∧ _) |- _ =>
                    apply H; split; [lia|reflexivity] end ].
      * intros Hl.
        assert (Hf : negb (isLocked a) && negb (isLocked b) = false)
          by (destruct Hl as [E|E]; rewrite E; [reflexivity|destruct (isLocked a); reflexivity]).
        rewrite Hf. split; case_decide as Hc; [destruct Hc as [_ Hc]; discriminate|reflexivity
                                              |destruct Hc as [_ Hc]; discriminate|reflexivity].
    + intros j k Hj1 Hj2. rewrite Hps'. unfold mass_swapped.
      repeat case_decide; congruence.
    + intros o. rewrite lookup_fmap. destruct (Server.aiMemories s !! o); cbn; split; done.
    + intros o mem Hmem. rewrite lookup_fmap, Hmem. eexists; split; [reflexivity|]. cbn.
      split; [|split; [|split; [|reflexivity]]].
      * rewrite lookup_insert_ne by congruence. apply lookup_insert_eq.
      * apply lookup_insert_eq.
      * intros j Hj1 Hj2. rewrite !lookup_insert_ne by congruence. reflexivity.
  - intros st p0 p1 p2 p3 Hp Hap Hd. split.
    + destruct (rotate_left_4 st p0 p1 p2 p3 Hp Hap Hd) as (st' & e & Hr & Hps & Hm & _).
      exists st', e. split; [exact Hr|]. split; [exact Hps|].
      intros o mem. rewrite Hm. apply wipe_memories_known.
    + destruct (rotate_right_4 st p0 p1 p2 p3 Hp Hap Hd) as (st' & e & Hr & Hps & Hm & _).
      exists st', e. split; [exact Hr|]. split; [exact Hps|].
      intros o mem. rewrite Hm. apply wipe_memories_known.
Qed.

Lemma C6_mass_swap_amended_witness :
  (∃ ps' mems' evs,
     Server.processPowerTarget (srv_power mass_swap None (table hand0 hand1 hand2 hand3)) 0 2 0 =
     Server.resolve_power (srv_power mass_swap None (table hand0 hand1 hand2 hand3))
       ps' mems' evs) ∧
  (∃ st' e, Offline.rotateHands Offline.dir_left
              (off_power mass_swap (table hand0 hand1 hand2 hand3)) = Returns (tt, st', e)).
Proof.
  assert (H4 : ∀ k, k < 4 →
     is_Some (slot (Server.players (srv_power mass_swap None (table hand0 hand1 hand2 hand3))) 0 k) ∧
     is_Some (slot (Server.players (srv_power mass_swap None (table hand0 hand1 hand2 hand3))) 2 k)).
  { intros k Hk. do 4 (destruct k as [|k]; [split; eexists; reflexivity|]). lia. }
  split.
  - destruct (proj1 C6_mass_swap_amended (srv_power mass_swap None (table hand0 hand1 hand2 hand3))
                0 2 0 eq_refl eq_refl ltac:(discriminate) H4) as (ps' & mems' & evs & Heq & _).
    exists ps', mems', evs. exact Heq.
  - destruct (proj2 C6_mass_swap_amended (off_power mass_swap (table hand0 hand1 hand2 hand3))
                _ _ _ _ eq_refl eq_refl ltac:(discriminate)) as [(st' & e & Hr & _) _].
    exists st', e. exact Hr.
Defined.

(* ------------------------------------------------------------------ *)
(** ** Locked targets *)

Lemma with_isLocked_same (c : Card) : isLocked c = true → with_isLocked true c = c.
Proof. destruct c; cbn. intros ->. reflexivity. Qed.

Lemma set_card_same (ps : list PlayerInfo) (j k : nat) (c : Card) :
  slot ps j k = Some c → set_card ps j k c = ps.
Proof.
  intros Hs. destruct (slot_Some _ _ _ _ Hs) as (p & Hp & Hc).
  unfold set_card. rewrite Hp. rewrite (list_insert_id (hand p) k c Hc).
  replace (with_hand (hand p) p) with p by (destruct p; reflexivity).
  apply list_insert_id. exact Hp.
Qed.

(** C5 (locked targets, as implemented). When the seat on turn selects a
    locked card: peek rejects it with the state unchanged; swap rejects it
    with the state unchanged, as first or as second card; mass swap leaves
    it in place. The lock power accepts it: no card changes, the power is
    consumed and the turn advances. The unlock power unlocks it; on an
    unlocked card unlock changes nothing but also consumes the power and
    advances the turn. *)
Theorem C5_locked_targets_amended :
  ∀ (s : Server.ServerGameState) (seat ts ti : nat) (c : Card),
    Server.currentTurnSeat s = seat → slot (Server.players s) ts ti = Some c →
    (isLocked c = true →
      (Server.activePower s = Some peek →
         Server.processPowerTarget s seat ts ti =
           Server.reject s (Server.toast "Cannot peek at locked card" warning)) ∧
      (Server.activePower s = Some swap →
         ∃ e, Server.processPowerTarget s seat ts ti = Returns (Server.mkResult s [e])) ∧
      (Server.activePower s = Some mass_swap → seat ≠ ts →
         (∀ k, k < 4 → is_Some (slot (Server.players s) seat k) ∧
                       is_Some (slot (Server.players s) ts k)) →
         ∃ ps' mems' evs,
           Server.processPowerTarget s seat ts ti = Server.resolve_power s ps' mems' evs ∧
           slot ps' ts ti = Some c ∧ slot ps' seat ti = slot (Server.players s) seat ti) ∧
      (Server.activePower s = Some lock →
         ∃ evs, Server.processPowerTarget s seat ts ti =
                  Server.resolve_power s (Server.players s) (Server.aiMemories s) evs) ∧
      (Server.activePower s = Some unlock →
         ∃ evs, Server.processPowerTarget s seat ts ti =
                  Server.resolve_power s
                    (set_card (Server.players s) ts ti (with_isLocked false c))
                    (Server.aiMemories s) evs)) ∧
    (isLocked c = false → Server.activePower s = Some unlock →
       Server.processPowerTarget s seat ts ti =
         Server.resolve_power s (Server.players s) (Server.aiMemories s) []).
Proof.
  intros s seat ts ti c <- Hsl.
  destruct (slot_Some _ _ _ _ Hsl) as (p & Hp & Hc).
  split.
  - intros Hl. split; [|split; [|split; [|split]]].
    + intros Hap. open_power Hap.
      rewrite (at_Some _ _ _ Hp), bind_Returns, (at_Some _ _ _ Hc), bind_Returns, Hl.
      reflexivity.
    + intros Hap. destruct (Server.swapSource s) as [[ss si]|] eqn:Hsrc.
      * destruct (decide (ss = ts ∧ si = ti)) as [[-> ->]|Hne].
        -- eexists. exact (swap_second_same s ts ti Hap Hsrc).
        -- eexists. exact (swap_second_locked s ss si ts ti c Hap Hsrc Hne Hsl Hl).
      * eexists. open_power Hap. rewrite Hsrc.
        rewrite (at_Some _ _ _ Hp), bind_Returns, (at_Some _ _ _ Hc), bind_Returns, Hl.
        reflexivity.
    + intros Hap Hne Hsome.
      destruct (mass_swap_resolves s ts ti Hap Hne Hsome) as (ps' & evs & Heq & Hps').
      eexists ps', _, evs. split; [exact Heq|].
      rewrite !Hps'. unfold mass_swapped.
      assert (Hb : both_unlocked (Server.players s) (Server.currentTurnSeat s) ts ti = false).
      { unfold both_unlocked. rewrite Hsl.
        destruct (slot _ (Server.currentTurnSeat s) ti); [|reflexivity].
        rewrite Hl. apply andb_false_r. }
      rewrite Hb. split; case_decide as Hd; [destruct Hd as [_ Hd]; discriminate|exact Hsl
                                           |destruct Hd as [_ Hd]; discriminate|reflexivity].
    + intros Hap. open_power Hap.
      rewrite (at_Some _ _ _ Hp), bind_Returns, (spread_at_Some _ _ _ Hc), bind_Returns.
      rewrite (with_isLocked_same c Hl), (set_card_same _ _ _ _ Hsl).
      unfold Server.name_at. rewrite (at_Some _ _ _ Hp), bind_Returns, bind_Returns.
      eexists. reflexivity.
    + intros Hap. open_power Hap.
      rewrite (at_Some _ _ _ Hp), bind_Returns, (at_Some _ _ _ Hc), bind_Returns, Hl.
      unfold Server.name_at.
      assert (Hp' : set_card (Server.players s) ts ti (with_isLocked false c) !! ts
                    = Some (with_hand (<[ti := with_isLocked false c]> (hand p)) p)).
      { unfold set_card. rewrite Hp. apply list_lookup_insert_eq.
        eapply lookup_lt_Some. exact Hp. }
      rewrite (at_Some _ _ _ Hp'), bind_Returns, bind_Returns.
      eexists. reflexivity.
  - intros Hl Hap. open_power Hap.
    rewrite (at_Some _ _ _ Hp), bind_Returns, (at_Some _ _ _ Hc), bind_Returns, Hl.
    reflexivity.
Qed.

Lemma C5_locked_targets_amended_witness :
  slot (table hand0 hand1 hand2_locked hand3) 2 1 = Some (locked (std "dA" rA)) ∧
  ∃ evs, Server.processPowerTarget (srv_power lock None (table hand0 hand1 hand2_locked hand3))
            0 2 1 =
         Server.resolve_power (srv_power lock None (table hand0 hand1 hand2_locked hand3))
            (table hand0 hand1 hand2_locked hand3) mems evs.
Proof.
  assert (Hs : slot (table hand0 hand1 hand2_locked hand3) 2 1 = Some (locked (std "dA" rA)))
    by reflexivity.
  split; [exact Hs|].
  destruct (C5_locked_targets_amended (srv_power lock None (table hand0 hand1 hand2_locked hand3))
              0 2 1 _ eq_refl Hs) as [Hlk _].
  destruct Hlk as (_ & _ & _ & Hlock & _); [reflexivity|].
  exact (Hlock eq_refl).
Defined.

(* ------------------------------------------------------------------ *)
(** ** Swapping the drawn card into the hand *)

Lemma length_set_card (ps : list PlayerInfo) (j k : nat) (c : Card) :
  length (set_card ps j k c) = length ps.
Proof. unfold set_card. destruct (ps !! j); [apply length_insert|reflexivity]. Qed.

(** C3 (swap power trigger, as the two engines implement it). When the
    seat on turn swaps its drawn card into an unlocked hand slot whose card
    has a power, the server engine discards that card face up and triggers
    its power: power_target, the power active, the seat as its source. The
    offline store never triggers a power on a swap: the drawn card enters
    the hand, the discard burn is cleared, the active power stays what it
    was and the phase does not become power_target. *)
Theorem C3_swap_power_amended :
  (∀ (s : Server.ServerGameState) (seat hi : nat) (drawn c : Card) (p : PlayerInfo)
     (pw : PowerType),
     Server.drawnCard s = Some drawn → Server.phase s = Server.turn_decision →
     Server.currentTurnSeat s = seat →
     Server.players s !! seat = Some p → hand p !! hi = Some c → isLocked c = false →
     getCardPower (with_isFaceUp true c) = Some pw →
     ∃ r, Server.processSwapWithHand s seat hi = Returns r ∧
       Server.phase (Server.state r) = Server.power_target ∧
       Server.activePower (Server.state r) = Some pw ∧
       Server.powerSourceSeat (Server.state r) = Some seat ∧
       Server.currentTurnSeat (Server.state r) = seat ∧
       last (Server.discardPile (Server.state r)) = Some (with_isFaceUp true c) ∧
       slot (Server.players (Server.state r)) seat hi = Some (with_isFaceUp false drawn)) ∧
  (∀ (st : Offline.GameState) (hi : nat) (drawn c : Card) (p : PlayerInfo),
     Offline.drawnCard st = Some drawn → Offline.phase st = Offline.turn_decision →
     Offline.players st !! Offline.currentTurnSeat st = Some p →
     hand p !! hi = Some c → isLocked c = false →
     Offline.deck st ≠ [] → length (Offline.players st) = 4 →
     ∃ st' e, Offline.swapWithHand hi st = Returns (tt, st', e) ∧
       Offline.phase st' ≠ Offline.power_target ∧
       Offline.activePower st' = Offline.activePower st ∧
       Offline.isDiscardBurned st' = false ∧
       slot (Offline.players st') (Offline.currentTurnSeat st) hi =
         Some (with_powerUsed false (with_isFaceUp false drawn))).
Proof.
  split.
  - intros s seat hi drawn c p pw Hd Hph <- Hp Hc Hl Hpw.
    unfold Server.processSwapWithHand. rewrite Hd.
    rewrite decide_False by (rewrite Hph; tauto).
    rewrite (at_Some _ _ _ Hp), bind_Returns, (at_Some _ _ _ Hc), bind_Returns, Hl.
    cbv zeta. rewrite Hpw.
    eexists; split; [reflexivity|]. cbn.
    do 4 (split; [reflexivity|]). split; [apply last_snoc|].
    rewrite slot_set_card, decide_True by auto. unfold slot. rewrite Hp. cbn.
    rewrite Hc. reflexivity.
  - intros st hi drawn c p Hd Hph Hp Hc Hl Hdk Hlen.
    unfold Offline.swapWithHand.
    cbv [mbind Offline.store_bind Offline.get Offline.lift Offline.emit Offline.set].
    rewrite Hd. rewrite decide_False by (rewrite Hph; tauto).
    rewrite (at_Some _ _ _ Hp), (at_Some _ _ _ Hc). cbn -[Offline._endTurn]. rewrite Hl.
    match goal with |- context [Offline._endTurn ?x] => set (st1 := x) end.
    destruct (endTurn_continue st1) as (st' & e & He);
      [exact Hdk|cbn; rewrite length_set_card; exact Hlen|].
    destruct (endTurn_frame _ _ _ _ He) as (Hap & Hburn & Hphase & Hfr).
    destruct (Hfr Hdk) as [Hps _].
    rewrite He. eexists st', _. split; [reflexivity|].
    split; [|split; [exact Hap|split; [exact Hburn|]]].
    + cbn in Hphase. rewrite Hph in Hphase.
      destruct Hphase as [E | [E | E]]; rewrite E; discriminate.
    + rewrite Hps. cbn. rewrite slot_set_card, decide_True by auto.
      unfold slot. rewrite Hp. cbn. rewrite Hc. reflexivity.
Qed.

Lemma C3_swap_power_amended_witness :
  (∃ r, Server.processSwapWithHand (srv_decision (std "k" r5) (table hand0 hand1 hand2 hand3)) 0 2
          = Returns r ∧
        Server.phase (Server.state r) = Server.power_target) ∧
  (∃ st' e, Offline.swapWithHand 2 (off_decision (std "k" r5) (table hand0 hand1 hand2 hand3))
              = Returns (tt, st', e) ∧
            Offline.phase st' ≠ Offline.power_target).
Proof.
  split.
  - destruct (proj1 C3_swap_power_amended
                (srv_decision (std "k" r5) (table hand0 hand1 hand2 hand3)) 0 2
                (std "k" r5) (std "hK" rK) (plr 0 human hand0) lock
                eq_refl eq_refl eq_refl eq_refl eq_refl eq_refl ltac:(vm_compute; reflexivity))
      as (r & Hr & Hph & _).
    exists r. split; assumption.
  - destruct (proj2 C3_swap_power_amended
                (off_decision (std "k" r5) (table hand0 hand1 hand2 hand3)) 2
                (std "k" r5) (std "hK" rK) (plr 0 human hand0)
                eq_refl eq_refl eq_refl eq_refl eq_refl ltac:(discriminate) eq_refl)
      as (st' & e & Hr & Hph & _).
    exists st', e. split; assumption.
Defined.

(** * Further properties of the code *)





Lemma hand_ids_reveal (ps : list PlayerInfo) : hand_ids (map reveal_and_score ps) = hand_ids ps.
Proof.
  unfold hand_ids. induction ps as [|p ps IH]; [reflexivity|].
  cbn [map fmap list_fmap concat]. rewrite !fmap_app. cbn in IH |- *. rewrite IH. f_equal.
  induction (hand p) as [|c h IHh]; [reflexivity|]. cbn. f_equal. exact IHh.
Qed.


Lemma card_ids_split (s : Server.ServerGameState) :
  card_ids s = (card_id <$> Server.deck s) ++ (card_id <$> Server.discardPile s) ++
               hand_ids (Server.players s) ++ (card_id <$> option_list (Server.drawnCard s)).
Proof. unfold card_ids, hand_ids. rewrite !fmap_app. reflexivity. Qed.

Lemma advanceTurn_frame (s : Server.ServerGameState) (evs : list Server.GameEvent)
    (r : Server.EngineResult) :
  Server.advanceTurn s evs = Returns r →
  card_ids (Server.state r) = card_ids s ∧
  Server.drawnCard (Server.state r) = Server.drawnCard s ∧
  Server.activePower (Server.state r) = Server.activePower s ∧
  (Server.phase (Server.state r) = Server.turn_draw ∨
   Server.phase (Server.state r) = Server.game_over).
Proof.
  unfold Server.advanceTurn. destruct (Server.deck s) eqn:Ed.
  - unfold Server.endGame, at_. destruct (pick_winner _) as [w l]. cbn.
    case_match; cbn; [|discriminate]. intros [= <-].
    rewrite !card_ids_split. cbn -[hand_ids]. rewrite hand_ids_reveal. auto.
  - intros [= <-]. cbn. auto.
Qed.






Lemma processDrawFromDeck_inv (s : Server.ServerGameState) (seat : nat)
    (r : Server.EngineResult) :
  engine_inv s → Server.processDrawFromDeck s seat = Returns r →
  engine_inv (Server.state r) ∧ card_ids (Server.state r) ≡ₚ card_ids s.
Proof.
  intros [I1 I2] H. unfold Server.processDrawFromDeck, Server.reject in H.
  case_decide as Hg; [simplify_eq; split; [split|]; auto|].
  destruct (Server.deck s) as [|top rest] eqn:Ed; simplify_eq; [split; [split|]; auto|].
  assert (Server.phase s = Server.turn_draw) as Hp
    by (destruct (decide (Server.phase s = Server.turn_draw)); tauto).
  assert (Server.activePower s = None) as Ha.
  { destruct (Server.activePower s) eqn:E; [|reflexivity].
    rewrite I2 in Hp by congruence. discriminate. }
  assert (Server.drawnCard s = None) as Hd by (apply I1; congruence).
  split; [split; cbn; intros Hn; congruence|].
  rewrite !card_ids_split. cbn -[hand_ids]. rewrite Ed, Hd. cbn -[hand_ids].
  solve_Permutation.
Qed.



Lemma processDiscardDrawn_inv (s : Server.ServerGameState) (seat : nat)
    (r : Server.EngineResult) :
  engine_inv s → Server.processDiscardDrawn s seat = Returns r →
  engine_inv (Server.state r) ∧ card_ids (Server.state r) ≡ₚ card_ids s.
Proof.
  intros I H. unfold Server.processDiscardDrawn, Server.reject in H.
  destruct (Server.drawnCard s) as [d|] eqn:Hd; [|simplify_eq; split; [exact I|reflexivity]].
  case_decide as Hg; [simplify_eq; split; [exact I|reflexivity]|].
  destruct I as [I1 I2].
  destruct (getCardPower (with_isFaceUp true d)) as [pw|] eqn:Hpw.
  - simplify_eq. split; [split; cbn; auto; discriminate|].
    rewrite !card_ids_split. cbn -[hand_ids]. rewrite Hd, fmap_app. cbn -[hand_ids].
    solve_Permutation.
  - apply advanceTurn_frame in H as (Hids & Hd' & Ha & Hph).
    split; [split; rewrite ?Hd', ?Ha; cbn; intros Hn; congruence|].
    rewrite Hids, !card_ids_split. cbn -[hand_ids]. rewrite Hd, fmap_app. cbn -[hand_ids].
    solve_Permutation.
Qed.




(** X8: the turn timer's auto-play keeps the engine invariant and the
    multiset of card ids of the game, and changes neither the room's
    players nor its seats. *)
Theorem onTurnTimerExpired_engine_inv (r r' : Room.GameRoom) (gs : Server.ServerGameState)
    (fx : list Room.RoomEffect) :
  Room.gameState r = Some gs → engine_inv gs →
  Room.onTurnTimerExpired r = Returns (r', fx) →
  Room.players r' = Room.players r ∧ Room.seats r' = Room.seats r ∧
  ∃ gs', Room.gameState r' = Some gs' ∧ engine_inv gs' ∧ card_ids gs' ≡ₚ card_ids gs.
Proof.
  intros Hg I H. unfold Room.onTurnTimerExpired, at_ in H. rewrite Hg in H.
  case_decide; [simplify_eq; eauto 10|].
  destruct (Server.players gs !! Server.currentTurnSeat gs) as [p|];
    cbv [mbind outcome_bind] in H; [|discriminate].
  case_decide; [simplify_eq; eauto 10|].
  case_decide as Hdraw.
  { destruct (Server.processDrawFromDeck gs _) as [r1| |] eqn:E1; try discriminate.
    destruct (Server.processDiscardDrawn (Server.state r1) _) as [r2| |] eqn:E2;
      try discriminate.
    destruct (Room.checkForAITurn _); try discriminate. simplify_eq.
    apply processDrawFromDeck_inv in E1 as [J1 K1]; [|exact I].
    apply processDiscardDrawn_inv in E2 as [J2 K2]; [|exact J1].
    cbn. split; [done|split; [done|]]. eexists; split; [done|split; [done|]].
    by rewrite K2, K1. }
  case_decide as Hdec.
  { destruct (Server.processDiscardDrawn gs _) as [r1| |] eqn:E1; try discriminate.
    destruct (Room.checkForAITurn _); try discriminate. simplify_eq.
    apply processDiscardDrawn_inv in E1 as [J1 K1]; [|exact I].
    cbn. eauto 10. }
  case_decide as Hpow.
  { destruct (Room.checkForAITurn _); try discriminate. simplify_eq.
    cbn. split; [done|split; [done|]]. eexists; split; [done|split; [|reflexivity]].
    destruct I as [I1 I2]. split; cbn; [|congruence].
    intros _. apply I1. rewrite Hpow. discriminate. }
  destruct (Room.checkForAITurn _); try discriminate. simplify_eq. cbn. eauto 10.
Qed.

Lemma onTurnTimerExpired_engine_inv_witness :
  ∃ r' fx gs', Room.onTurnTimerExpired (room_with gs_view) = Returns (r', fx) ∧
    Room.gameState r' = Some gs' ∧ engine_inv gs'.
Proof.
  assert (engine_inv gs_view) as I by (split; cbn; intros Hn; congruence).
  destruct (Room.onTurnTimerExpired (room_with gs_view)) as [[r' fx]| |] eqn:E;
    [|vm_compute in E; discriminate..].
  destruct (onTurnTimerExpired_engine_inv (room_with gs_view) r' gs_view fx eq_refl I E)
    as (_ & _ & gs' & Hg & Hi & _).
  exists r', fx, gs'. split; [reflexivity|split; assumption].
Defined.


Lemma swap_entries_perm {A} (l : list A) (i j : nat) : swap_entries l i j ≡ₚ l.
Proof.
  unfold swap_entries. destruct (l !! i) eqn:Ei, (l !! j) eqn:Ej; try reflexivity.
  by apply Permutation_insert_swap.
Qed.

Lemma shuffle_loop_perm {A} (rnd : nat → nat) (i : nat) (l : list A) :
  shuffle_loop rnd i l ≡ₚ l.
Proof.
  revert l. induction i as [|i IH]; intros l; [reflexivity|].
  cbn. rewrite IH. apply swap_entries_perm.
Qed.

Lemma shuffleDeck_Permutation {A} (rnd : nat → nat) (deck : list A) :
  shuffleDeck rnd deck ≡ₚ deck.
Proof. apply shuffle_loop_perm. Qed.

Lemma deal_seats_ids (cfgs : list SeatConfig) (i : nat) (rem : list Card)
    (ps : list PlayerInfo) (rest : list Card) :
  Server.deal_seats cfgs i rem = (ps, rest) →
  (card_id <$> concat (hand <$> ps)) ++ (card_id <$> rest) = card_id <$> rem ∧
  rest = drop (4 * length cfgs) rem ∧ length ps = length cfgs.
Proof.
  revert i rem ps rest. induction cfgs as [|cfg cfgs IH]; intros i rem ps rest H; cbn in H.
  - simplify_eq. cbn. rewrite drop_0. auto.
  - unfold dealCards in H. destruct (Server.deal_seats cfgs (S i) (drop 4 rem)) as [ps' rest'] eqn:E.
    simplify_eq. apply IH in E as (Hids & -> & Hl).
    split; [|split; [rewrite drop_drop; f_equal; cbn [length]; lia|cbn; lia]].
    rewrite fmap_cons, concat_cons. cbn [hand].
    rewrite fmap_app, <- app_assoc, Hids, <- list_fmap_compose.
    change (card_id ∘ with_isFaceUp false) with card_id.
    rewrite <- fmap_app, take_drop. reflexivity.
Qed.

Lemma deal_seats_lookup (cfgs : list SeatConfig) (i : nat) (rem : list Card)
    (ps : list PlayerInfo) (rest : list Card) (k : nat) (p : PlayerInfo) :
  Server.deal_seats cfgs i rem = (ps, rest) → ps !! k = Some p →
  ∃ cfg, cfgs !! k = Some cfg ∧
    player_id p = str_or (sc_socketId cfg) ("seat-" +++ pretty (i + k)) ∧
    seatIndex p = i + k ∧ kind p = sc_kind cfg ∧ name p = sc_name cfg ∧
    hand p = with_isFaceUp false <$> take 4 (drop (4 * k) rem) ∧
    score p = 0 ∧ isLocal p = false.
Proof.
  revert i rem ps k. induction cfgs as [|cfg cfgs IH]; intros i rem ps k H Hk; cbn in H.
  - simplify_eq.
  - unfold dealCards in H.
    destruct (Server.deal_seats cfgs (S i) (drop 4 rem)) as [ps' rest'] eqn:E.
    simplify_eq. destruct k as [|k]; cbn in Hk.
    + simplify_eq. exists cfg. cbn. rewrite Nat.add_0_r. auto 10.
    + destruct (IH _ _ _ _ E Hk) as (c & Hc & H1 & H2 & H3 & H4 & H5 & H6 & H7).
      exists c. cbn. rewrite H1, H2, H5, drop_drop. 
      replace (S i + k) with (i + S k) by lia.
      replace (4 + 4 * k) with (4 * S k) by lia. auto 10.
Qed.

Lemma initial_memories_go (ps : list PlayerInfo) (i : nat) (m : gmap nat AIMemory) (j : nat) :
  (∀ k p, ps !! k = Some p → seatIndex p = i + k) →
  foldl (λ m p, if decide (kind p = ai) then <[seatIndex p := createEmptyAIMemory]> m else m)
        m ps !! j =
  match (if decide (i ≤ j) then ps !! (j - i) else None) with
  | Some p => if decide (kind p = ai) then Some createEmptyAIMemory else m !! j
  | None => m !! j
  end.
Proof.
  revert i m. induction ps as [|p ps IH]; intros i m Hs; cbn.
  - case_decide; [rewrite lookup_nil|]; reflexivity.
  - assert (seatIndex p = i) as Hp by (rewrite (Hs 0 p eq_refl); lia).
    rewrite (IH (S i)) by (intros k q Hk; rewrite (Hs (S k) q Hk); lia).
    rewrite Hp.
    destruct (lt_eq_lt_dec j i) as [[Hlt| ->]|Hgt].
    + destruct (decide (S i ≤ j)); [lia|]. destruct (decide (i ≤ j)); [lia|].
      case_decide; [rewrite lookup_insert_ne by lia|]; reflexivity.
    + destruct (decide (S i ≤ i)); [lia|]. destruct (decide (i ≤ i)); [|lia].
      rewrite Nat.sub_diag. cbn.
      case_decide; [rewrite lookup_insert_eq|]; reflexivity.
    + destruct (decide (S i ≤ j)); [|lia]. destruct (decide (i ≤ j)); [|lia].
      replace (j - i) with (S (j - S i)) by lia. cbn.
      destruct (ps !! (j - S i)); [case_decide; [reflexivity|]|];
        (case_decide; [rewrite lookup_insert_ne by lia|]; reflexivity).
Qed.

Lemma createDeck_ids (now : nat → nat) (j : bool) :
  card_id <$> createDeck now j = card_id_at now <$> seq 1 (if j then 54 else 52).
Proof. destruct j; cbv -[pretty_nat]; reflexivity. Qed.

Lemma createDeck_length (now : nat → nat) (j : bool) :
  length (createDeck now j) = if j then 54 else 52.
Proof.
  rewrite <- (length_fmap card_id), createDeck_ids, length_fmap, length_seq. reflexivity.
Qed.


Lemma pretty_N_go_dash_free (x : N) (s : string) :
  dash_free s = true → dash_free (pretty_N_go x s) = true.
Proof.
  revert s. induction (N.lt_wf_0 x) as [x _ IH]; intros s Hs.
  destruct (decide (x = 0%N)) as [->|?]; [by rewrite pretty_N_go_0|].
  rewrite pretty_N_go_step by lia. apply IH; [apply N.div_lt; lia|].
  cbn. rewrite Hs. unfold pretty_N_char. repeat case_match; reflexivity.
Qed.

Lemma pretty_nat_dash_free (n : nat) : dash_free (pretty n) = true.
Proof.
  unfold pretty at 1, pretty_nat. unfold pretty, pretty_N. destruct (decide _); [reflexivity|].
  apply pretty_N_go_dash_free. reflexivity.
Qed.

Lemma dash_split (a b x y : string) :
  dash_free a = true → dash_free b = true → a +++ String "-" x = b +++ String "-" y → a = b.
Proof.
  revert b. induction a as [|ca a IH]; intros [|cb b] Ha Hb H; cbn in *.
  - reflexivity.
  - injection H as <- _. discriminate.
  - injection H as -> _. discriminate.
  - injection H as <- H. apply andb_prop in Ha as [_ Ha]. apply andb_prop in Hb as [_ Hb].
    f_equal. auto.
Qed.

Lemma card_id_at_inj (now : nat → nat) (a b : nat) : card_id_at now a = card_id_at now b → a = b.
Proof.
  unfold card_id_at. cbn. intros H. injection H as H. cbn in H.
  apply dash_split in H; [|apply pretty_nat_dash_free..]. by apply (inj pretty).
Qed.

Lemma createDeck_NoDup (now : nat → nat) (j : bool) : NoDup (card_id <$> createDeck now j).
Proof.
  rewrite createDeck_ids. apply NoDup_fmap_2_strong; [|apply NoDup_seq].
  intros a b _ _. apply card_id_at_inj.
Qed.


Lemma initial_deal (now rnd : nat → nat) (cfgs : list SeatConfig) (d : Difficulty) :
  length cfgs ≤ 13 →
  ∃ gs, Server.createInitialState now rnd cfgs d = Returns gs ∧
    Server.phase gs = Server.turn_draw ∧ Server.currentTurnSeat gs = 0 ∧
    length (Server.players gs) = length cfgs ∧
    length (Server.deck gs) = 53 - 4 * length cfgs ∧
    length (Server.discardPile gs) = 1 ∧
    (∀ i p, Server.players gs !! i = Some p →
       ∃ cfg, cfgs !! i = Some cfg ∧ seatIndex p = i ∧
         kind p = sc_kind cfg ∧ name p = sc_name cfg ∧
         length (hand p) = 4 ∧ Forall (λ c, isFaceUp c = false) (hand p)) ∧
    (∀ j, Server.aiMemories gs !! j =
       match Server.players gs !! j with
       | Some p => if decide (kind p = ai) then Some createEmptyAIMemory else None
       | None => None
       end).
Proof.
  intros Hn. unfold Server.createInitialState.
  set (deck := shuffleDeck rnd (createDeck now true)).
  assert (length deck = 54) as Hdl.
  { unfold deck. rewrite (Permutation_length (shuffleDeck_Permutation rnd _)).
    apply createDeck_length. }
  destruct (Server.deal_seats cfgs 0 deck) as [ps rem] eqn:E.
  pose proof (deal_seats_ids _ _ _ _ _ E) as (_ & Hrem & Hlen).
  assert (is_Some (rem !! 0)) as [first Hf].
  { apply lookup_lt_is_Some_2. rewrite Hrem, length_drop. lia. }
  unfold spread_at. cbv [mbind outcome_bind]. rewrite Hf.
  eexists; split; [reflexivity|]. cbn.
  split; [reflexivity|split; [reflexivity|split; [exact Hlen|split; [|split; [reflexivity|split]]]]].
  - rewrite length_drop, Hrem, length_drop. lia.
  - intros i p Hp. destruct (deal_seats_lookup _ _ _ _ _ _ _ E Hp)
      as (cfg & Hc & _ & Hs & Hk & Hnm & Hh & _).
    exists cfg. split; [exact Hc|split; [exact Hs|split; [exact Hk|split; [exact Hnm|]]]].
    rewrite Hh. split.
    + rewrite length_fmap, length_take, length_drop.
      apply lookup_lt_Some in Hc. lia.
    + apply Forall_fmap, Forall_true. reflexivity.
  - intros j. unfold Server.initial_memories.
    rewrite (initial_memories_go _ 0) by
      (intros k q Hq; destruct (deal_seats_lookup _ _ _ _ _ _ _ E Hq) as (? & _ & _ & -> & _); lia).
    rewrite lookup_empty, Nat.sub_0_r. destruct (decide (0 ≤ j)); [|lia].
    destruct (ps !! j); reflexivity.
Qed.


Lemma room_inv_seat_unique (r : Room.GameRoom) (sock sock' : string) (p p' : Room.RoomPlayer) :
  room_inv r → Room.players r !! sock = Some p → Room.players r !! sock' = Some p' →
  Room.seat p = Room.seat p' → sock = sock'.
Proof.
  intros I H H' Hs. destruct (I _ _ H) as (s & Hs1 & Hid & _).
  destruct (I _ _ H') as (s' & Hs1' & Hid' & _). rewrite Hs in Hs1. congruence.
Qed.

Lemma new_GameRoom_room_inv (roomId host hostName : string) (d : Difficulty) :
  room_inv (Room.new_GameRoom roomId host hostName d).
Proof.
  intros sock p H. cbn in H. apply lookup_singleton_Some in H as [<- <-].
  eexists; split; [reflexivity|auto].
Qed.

Lemma join_room_inv (r r' : Room.GameRoom) (sock nm : string) res :
  room_inv r → Room.join r sock nm = (r', res) → room_inv r'.
Proof.
  intros I H. unfold Room.join in H.
  destruct (Room.gameState r); [simplify_eq; exact I|].
  destruct (list_find _ (Room.seats r)) as [[k s]|] eqn:Ef; [|simplify_eq; exact I].
  apply list_find_Some in Ef as (Hk & Hempty & _). simplify_eq.
  intros sock' p H. cbn in H |- *.
  destruct (decide (sock = sock')) as [<-|Hne].
  - rewrite lookup_insert_eq in H. simplify_eq. cbn.
    rewrite list_lookup_insert by (eapply lookup_lt_Some; eauto).
    rewrite decide_True by (split; [reflexivity|eapply lookup_lt_Some; eauto]). eauto.
  - rewrite lookup_insert_ne in H by done.
    destruct (I _ _ H) as (s' & Hs' & Hid & Hkind).
    assert (Room.seat p ≠ k) by congruence.
    rewrite list_lookup_insert_ne by done. eauto.
Qed.

Lemma removePlayer_room_inv (r r' : Room.GameRoom) (sock : string) v fx :
  room_inv r → Room.removePlayer r sock = Returns (r', v, fx) → room_inv r'.
Proof.
  intros I H. unfold Room.removePlayer, at_ in H.
  destruct (Room.players r !! sock) as [pl|] eqn:Hpl; [|simplify_eq; exact I].
  cbv [mbind outcome_bind] in H.
  assert (∀ x sock' p, delete sock (Room.players r) !! sock' = Some p →
            ∃ s, <[Room.seat pl := x]> (Room.seats r) !! Room.seat p = Some s ∧
                 Room.socketId s = Some sock' ∧ Room.seat_kind s = Room.seat_human) as Key.
  { intros x sock' p Hp.
    destruct (decide (sock = sock')) as [<-|Hne]; [rewrite lookup_delete_eq in Hp; discriminate|].
    rewrite lookup_delete_ne in Hp by done.
    assert (Room.seat pl ≠ Room.seat p).
    { intros Heq. apply Hne. eapply room_inv_seat_unique; eauto. }
    rewrite list_lookup_insert_ne by done. by apply I. }
  destruct (Room.gameState r) as [gs|].
  - destruct (Server.players gs !! Room.seat pl); [|discriminate].
    simplify_eq. intros sock' q Hq. exact (Key _ _ _ Hq).
  - simplify_eq. intros sock' q Hq. exact (Key _ _ _ Hq).
Qed.

Lemma startGame_room_inv (now rnd : nat → nat) (r r' : Room.GameRoom) fx :
  room_inv r → Room.startGame now rnd r = Returns (r', fx) → room_inv r'.
Proof.
  intros I H. unfold Room.startGame, at_ in H. cbv [mbind outcome_bind] in H.
  repeat (case_match; try discriminate H); simplify_eq; try discriminate.
  all: intros sock p Hp; cbn in Hp |- *; destruct (I _ _ Hp) as (s & Hs & Hid & Hk);
    rewrite list_lookup_imap, Hs; cbn; rewrite decide_False by congruence; eauto.
Qed.

(** X11: before a game starts, a player who joins a room (on a new socket,
    where every empty seat is blank) and leaves again restores the room
    exactly, and the leave reports the original seat list and no effects. *)
Theorem join_then_removePlayer (r r' : Room.GameRoom) (sock nm : string) (k : nat)
    (view : list Room.RoomSeat) :
  Room.gameState r = None → Room.players r !! sock = None →
  (∀ s, s ∈ Room.seats r → Room.seat_kind s = Room.seat_empty → s = Room.empty_seat) →
  Room.join r sock nm = (r', Some (k, view)) →
  Room.removePlayer r' sock = Returns (r, Some (Room.getSeatList r), []).
Proof.
  intros Hg Hp Hempty H. unfold Room.join in H. rewrite Hg in H.
  destruct (list_find _ (Room.seats r)) as [[k' s]|] eqn:Ef; [|discriminate].
  apply list_find_Some in Ef as (Hk & Hkind & _). simplify_eq.
  assert (s = Room.empty_seat) as -> by (apply Hempty; [eapply list_elem_of_lookup_2|]; eauto).
  unfold Room.removePlayer. cbn. rewrite lookup_insert_eq. cbn. rewrite Hg. cbn.
  rewrite list_insert_insert_eq, list_insert_id, delete_insert_id by done.
  destruct r. reflexivity.
Qed.

Lemma join_then_removePlayer_witness :
  ∃ r' view, Room.join (Room.new_GameRoom "ROOM1" "s0" "P0" beginner) "s1" "P1" = (r', Some (1, view)) ∧
    Room.removePlayer r' "s1" =
      Returns (Room.new_GameRoom "ROOM1" "s0" "P0" beginner,
               Some (Room.getSeatList (Room.new_GameRoom "ROOM1" "s0" "P0" beginner)), []).
Proof.
  eexists _, _. split; [reflexivity|].
  eapply (join_then_removePlayer _ _ "s1" "P1" 1).
  - reflexivity.
  - vm_compute. reflexivity.
  - intros s Hs Hk. cbn in Hs.
    repeat (apply elem_of_cons in Hs as [->|Hs]; [try discriminate Hk; reflexivity|]).
    apply elem_of_nil in Hs as [].
  - reflexivity.
Defined.

Lemma dispatch_off_turn (gs : Server.ServerGameState) (seat : nat) (a : Room.Action) o :
  seat ≠ Server.currentTurnSeat gs → Room.dispatch gs seat a = Some o →
  ∃ evs, o = Returns (Server.mkResult gs evs).
Proof.
  intros Hs H. destruct a; cbn in H; simplify_eq.
  - unfold Server.processDrawFromDeck, Server.reject. rewrite decide_True by auto. eauto.
  - unfold Server.processDrawFromDiscard, Server.reject. rewrite decide_True by auto. eauto.
  - unfold Server.processSwapWithHand, Server.reject.
    destruct (Server.drawnCard gs); [rewrite decide_True by auto|]; eauto.
  - unfold Server.processDiscardDrawn, Server.reject.
    destruct (Server.drawnCard gs); [rewrite decide_True by auto|]; eauto.
  - unfold Server.processPowerTarget.
    destruct (Server.activePower gs); [rewrite decide_True by auto|]; eauto.
Qed.

Lemma handlePeekTimeout_only_peek (gs : Server.ServerGameState) (ts ti : nat) :
  Forall (λ e, e ≠ Room.fx_scheduleAITurn ∧ e ≠ Room.fx_startTurnTimer)
    (Room.handlePeekTimeout gs ts ti).
Proof.
  unfold Room.handlePeekTimeout. repeat case_match; repeat constructor; discriminate.
Qed.

(** X12: if the player on turn disconnects in the decision or power-target
    phase, no AI turn is scheduled; afterwards the turn timer does nothing
    and every client action leaves the room unchanged without scheduling an
    AI turn or a turn timer: the game is stuck. *)
Theorem leave_mid_turn_stalls (r r1 : Room.GameRoom) (sock : string) (pl : Room.RoomPlayer)
    (gs : Server.ServerGameState) v (fx : list Room.RoomEffect) :
  room_inv r → Room.gameState r = Some gs → Room.players r !! sock = Some pl →
  Room.seat pl = Server.currentTurnSeat gs →
  Server.phase gs = Server.turn_decision ∨ Server.phase gs = Server.power_target →
  Room.removePlayer r sock = Returns (r1, v, fx) →
  fx = [] ∧ Room.onTurnTimerExpired r1 = Returns (r1, []) ∧
  ∀ sock' a r2 fx2, Room.processAction r1 sock' a = Returns (r2, fx2) →
    r2 = r1 ∧ ∀ e, e ∈ fx2 → e ≠ Room.fx_scheduleAITurn ∧ e ≠ Room.fx_startTurnTimer.
Proof.
  intros I Hg Hpl Hseat Hph H. unfold Room.removePlayer, at_ in H. rewrite Hpl, Hg in H.
  cbv [mbind outcome_bind] in H.
  destruct (Server.players gs !! Room.seat pl) as [q|] eqn:Hq; [|discriminate].
  rewrite decide_False in H by (intros [_ Hd]; destruct Hph; congruence).
  simplify_eq.
  assert (Server.phase gs ≠ Server.game_over) as Hgo by (destruct Hph; congruence).
  assert (Server.phase gs ≠ Server.turn_draw) as Hdr by (destruct Hph; congruence).
  set (gs' := Server.with_players _ gs).
  assert (Server.players gs' !! Server.currentTurnSeat gs' =
          Some (mkPlayer (player_id q) (seatIndex q) ai ("AI " +++ pretty (S (Room.seat pl)))
                         (hand q) (score q) (isLocal q))) as Hcur.
  { cbn. rewrite <- Hseat, list_lookup_insert, decide_True; [reflexivity|].
    split; [reflexivity|eapply lookup_lt_Some; eauto]. }
  assert (Room.checkForAITurn (Some gs') = Returns []) as Hchk.
  { unfold Room.checkForAITurn, at_. rewrite decide_False by exact Hgo. rewrite Hcur.
    cbn. rewrite decide_False by (intros [_ ?]; congruence).
    rewrite decide_False by discriminate. reflexivity. }
  split; [reflexivity|split].
  - unfold Room.onTurnTimerExpired, at_. cbn [Room.gameState Room.with_players Room.with_gameState].
    rewrite decide_False by exact Hgo. rewrite Hcur. cbn. rewrite decide_True by discriminate.
    reflexivity.
  - intros sock' a r2 fx2 H2. unfold Room.processAction in H2.
    cbn [Room.gameState Room.with_players Room.with_gameState Room.players] in H2.
    rewrite decide_False in H2 by exact Hgo.
    destruct (delete sock (Room.players r) !! sock') as [p'|] eqn:Hp';
      [|simplify_eq; split; [reflexivity|set_solver]].
    destruct (decide (sock = sock')) as [<-|Hne]; [by rewrite lookup_delete_eq in Hp'|].
    rewrite lookup_delete_ne in Hp' by done.
    assert (Room.seat p' ≠ Server.currentTurnSeat gs') as Hoff.
    { cbn. rewrite <- Hseat. intros Heq. apply Hne.
      eapply room_inv_seat_unique; eauto. }
    destruct (Room.dispatch gs' (Room.seat p') a) as [o|] eqn:Ed;
      [|simplify_eq; split; [reflexivity|set_solver]].
    destruct (dispatch_off_turn _ _ _ _ Hoff Ed) as [evs ->].
    cbv [mbind outcome_bind] in H2. cbn [Server.state] in H2. rewrite Hchk in H2.
    simplify_eq. split; [reflexivity|]. apply Forall_forall.
    rewrite app_nil_r. apply Forall_app; split.
    + apply Forall_fmap, Forall_true. intros e; cbn; split; discriminate.
    + constructor; [split; discriminate|].
      destruct a; try constructor. apply handlePeekTimeout_only_peek.
Qed.

Lemma leave_mid_turn_stalls_witness :
  ∃ r1 v, Room.removePlayer (room_two (srv_decision (std "k" r5) table2)) "s0" = Returns (r1, v, []) ∧
    Room.onTurnTimerExpired r1 = Returns (r1, []).
Proof.
  assert (room_inv (room_two (srv_decision (std "k" r5) table2))) as I.
  { intros sock p H. cbn in H.
    apply lookup_insert_Some in H as [[<- <-]|[_ H]];
      [|apply lookup_singleton_Some in H as [<- <-]];
      eexists; (split; [reflexivity|split; reflexivity]). }
  destruct (Room.removePlayer (room_two (srv_decision (std "k" r5) table2)) "s0")
    as [[[r1 v] fx]| |] eqn:E; [|vm_compute in E; discriminate..].
  destruct (leave_mid_turn_stalls _ r1 "s0" (Room.mkRoomPlayer "s0" "P0" 0) _ v fx I eq_refl
              eq_refl eq_refl (or_introl eq_refl) E) as (-> & Ht & _).
  exists r1, v. split; [reflexivity|exact Ht].
Defined.

(** X13: when the timer expires on a human in the power-target phase, the
    power is dropped and the turn passes to the next seat in the draw
    phase, with deck and players unchanged and the turn count increased
    when play wraps to seat 0. *)
Theorem timer_skips_power (r r' : Room.GameRoom) (gs : Server.ServerGameState)
    (p : PlayerInfo) (fx : list Room.RoomEffect) :
  Room.gameState r = Some gs → Server.phase gs = Server.power_target →
  Server.players gs !! Server.currentTurnSeat gs = Some p → kind p = human →
  Room.onTurnTimerExpired r = Returns (r', fx) →
  ∃ gs', Room.gameState r' = Some gs' ∧
    Server.phase gs' = Server.turn_draw ∧
    Server.currentTurnSeat gs' = getNextSeat (Server.currentTurnSeat gs) ∧
    Server.activePower gs' = None ∧ Server.powerSourceSeat gs' = None ∧
    Server.swapSource gs' = None ∧
    Server.deck gs' = Server.deck gs ∧ Server.players gs' = Server.players gs ∧
    Server.turnCount gs' =
      Server.turnCount gs + (if decide (getNextSeat (Server.currentTurnSeat gs) = 0) then 1 else 0).
Proof.
  intros Hg Hph Hp Hk H. unfold Room.onTurnTimerExpired, at_ in H. rewrite Hg, Hp in H.
  rewrite decide_False in H by congruence. cbv [mbind outcome_bind] in H.
  rewrite decide_False in H by congruence.
  rewrite decide_False in H by congruence.
  rewrite decide_False in H by (intros [? _]; congruence).
  rewrite decide_True in H by exact Hph.
  destruct (Room.checkForAITurn _); try discriminate. simplify_eq.
  eexists; split; [reflexivity|]. cbn. auto 10.
Qed.

Lemma timer_skips_power_witness :
  ∃ r' fx gs',
    Room.onTurnTimerExpired (room_with (srv_power peek None (table hand0 hand1 hand2 hand3))) =
      Returns (r', fx) ∧
    Room.gameState r' = Some gs' ∧ Server.phase gs' = Server.turn_draw ∧
    Server.currentTurnSeat gs' = 1.
Proof.
  destruct (Room.onTurnTimerExpired (room_with (srv_power peek None (table hand0 hand1 hand2 hand3))))
    as [[r' fx]| |] eqn:E; [|vm_compute in E; discriminate..].
  destruct (timer_skips_power (room_with (srv_power peek None (table hand0 hand1 hand2 hand3))) r'
              (srv_power peek None (table hand0 hand1 hand2 hand3)) (plr 0 human hand0) fx eq_refl eq_refl eq_refl eq_refl E)
    as (gs' & Hg & Hph & Hc & _).
  exists r', fx, gs'. split; [reflexivity|split; [exact Hg|split; [exact Hph|]]].
  rewrite Hc. reflexivity.
Defined.

(** X14: when the timer expires on a human who must draw from an empty
    deck, the game state is unchanged; the room emits two invalid-action
    toasts, the time-out toast, a state broadcast and a restarted timer. *)
Theorem timer_empty_deck_idles (r r' : Room.GameRoom) (gs : Server.ServerGameState)
    (p : PlayerInfo) (fx : list Room.RoomEffect) :
  Room.gameState r = Some gs → Server.phase gs = Server.turn_draw → Server.deck gs = [] →
  Server.players gs !! Server.currentTurnSeat gs = Some p → kind p = human →
  Room.onTurnTimerExpired r = Returns (r', fx) →
  Room.gameState r' = Some gs ∧
  fx = [Room.fx_toast Server.invalid_action; Room.fx_toast Server.invalid_action;
        Room.fx_toast (Server.toast (name p +++ "'s time ran out! Auto-playing...") warning);
        Room.fx_broadcastState; Room.fx_clearTurnTimer; Room.fx_startTurnTimer].
Proof.
  intros Hg Hph Hd Hp Hk H. unfold Room.onTurnTimerExpired, at_ in H. rewrite Hg, Hp in H.
  rewrite decide_False in H by congruence. cbv [mbind outcome_bind] in H.
  rewrite decide_False in H by congruence.
  rewrite decide_True in H by exact Hph.
  unfold Server.processDrawFromDeck, Server.reject in H.
  rewrite decide_False in H by (intros [?|?]; congruence). rewrite Hd in H. cbn in H.
  unfold Server.processDiscardDrawn, Server.reject in H.
  destruct (Server.drawnCard gs); [rewrite decide_True in H by (left; congruence)|];
  cbn in H; unfold Room.checkForAITurn, at_ in H; rewrite decide_False in H by congruence;
  rewrite Hp in H; cbn in H; rewrite decide_False in H by (intros [? _]; congruence);
  rewrite decide_True in H by exact Hk; unfold Room.startTurnTimer in H;
  rewrite decide_False in H by congruence; simplify_eq; auto.
Qed.

Lemma timer_empty_deck_idles_witness :
  ∃ r' fx,
    Room.onTurnTimerExpired (room_with (srv_draw_empty (table hand0 hand1 hand2 hand3))) =
      Returns (r', fx) ∧
    Room.gameState r' = Some (srv_draw_empty (table hand0 hand1 hand2 hand3)).
Proof.
  destruct (Room.onTurnTimerExpired (room_with (srv_draw_empty (table hand0 hand1 hand2 hand3))))
    as [[r' fx]| |] eqn:E; [|vm_compute in E; discriminate..].
  destruct (timer_empty_deck_idles (room_with (srv_draw_empty (table hand0 hand1 hand2 hand3))) r'
              (srv_draw_empty (table hand0 hand1 hand2 hand3)) (plr 0 human hand0) fx eq_refl eq_refl eq_refl eq_refl
              eq_refl E) as (Hg & _).
  exists r', fx. split; [reflexivity|exact Hg].
Defined.


(** X15: [startGame] on 1 to 13 seats succeeds: every empty seat [i]
    becomes the AI seat ["AI i+1"], human seats are kept with their names,
    player [i] sits at seat [i] with the matching kind, connected players
    are unchanged, and the effects are a broadcast followed by an AI turn
    if seat 0 is an AI, or else by a restarted turn timer. *)
Theorem startGame_seats (now rnd : nat → nat) (r : Room.GameRoom) :
  1 ≤ length (Room.seats r) ≤ 13 →
  ∃ r' fx gs, Room.startGame now rnd r = Returns (r', fx) ∧
    Room.gameState r' = Some gs ∧ Room.players r' = Room.players r ∧
    length (Room.seats r') = length (Room.seats r) ∧
    (∀ s, s ∈ Room.seats r' → Room.seat_kind s ≠ Room.seat_empty) ∧
    (∀ i s, Room.seats r !! i = Some s →
       ∃ p, Server.players gs !! i = Some p ∧ seatIndex p = i ∧
         (Room.seat_kind s = Room.seat_human →
            Room.seats r' !! i = Some s ∧ kind p = human ∧
            name p = str_or (Room.seat_name s) ("AI " +++ pretty (S i))) ∧
         (Room.seat_kind s = Room.seat_empty →
            Room.seats r' !! i = Some (Room.mkSeat None (Some ("AI " +++ pretty (S i))) Room.seat_ai) ∧
            kind p = ai ∧ name p = "AI " +++ pretty (S i))) ∧
    fx = Room.fx_broadcastState ::
           (if decide (kind <$> Server.players gs !! 0 = Some ai) then [Room.fx_scheduleAITurn]
            else [Room.fx_clearTurnTimer; Room.fx_startTurnTimer]).
Proof.
  intros Hn. unfold Room.startGame.
  set (seats1 := imap _ (Room.seats r)).
  set (cfgs := imap _ seats1).
  assert (length cfgs = length (Room.seats r)) as Hcl
    by (unfold cfgs, seats1; rewrite !length_imap; reflexivity).
  destruct (initial_deal now rnd cfgs (Room.difficulty r)) as
    (gs & Hgs & Hph & Hcur & Hpl & _ & _ & Hp & _); [lia|].
  rewrite Hgs. cbv [mbind outcome_bind].
  destruct (Server.players gs !! 0) as [p0|] eqn:H0;
    [|apply lookup_ge_None in H0; lia].
  unfold at_. rewrite H0.
  eexists _, _, gs. split; [reflexivity|]. cbn.
  split; [reflexivity|split; [reflexivity|split; [unfold seats1; apply length_imap|split; [|split]]]].
  - intros s Hs. apply list_elem_of_lookup in Hs as [i Hs].
    unfold seats1 in Hs. apply list_lookup_imap_Some in Hs as (s0 & _ & ->).
    case_decide; cbn; congruence.
  - intros i s Hs.
    destruct (Server.players gs !! i) as [p|] eqn:Hpi;
      [|apply lookup_ge_None in Hpi; apply lookup_lt_Some in Hs; lia].
    destruct (Hp _ _ Hpi) as (cfg & Hc & Hsi & Hk & Hnm & _).
    unfold cfgs in Hc. apply list_lookup_imap_Some in Hc as (s1 & Hs1 & ->).
    unfold seats1 in Hs1. rewrite list_lookup_imap, Hs in Hs1. cbn in Hs1.
    injection Hs1 as <-. cbn in Hk, Hnm.
    exists p. split; [reflexivity|split; [exact Hsi|split]].
    + intros Hh. rewrite decide_False in Hk, Hnm by congruence.
      rewrite Hh in Hk. unfold seats1. rewrite list_lookup_imap, Hs. cbn.
      rewrite decide_False by congruence. auto.
    + intros He. rewrite decide_True in Hk, Hnm by exact He.
      unfold seats1. rewrite list_lookup_imap, Hs. cbn. rewrite decide_True by exact He.
      cbn in Hk, Hnm. auto.
  - rewrite H0. cbn. unfold Room.startTurnTimer. rewrite Hph.
    destruct (kind p0); reflexivity.
Qed.

Lemma startGame_seats_witness :
  1 ≤ length (Room.seats (Room.new_GameRoom "ROOM1" "s0" "P0" beginner)) ≤ 13 ∧
  ∃ r' fx, Room.startGame (λ k, k) (λ _, 0) (Room.new_GameRoom "ROOM1" "s0" "P0" beginner) =
      Returns (r', fx) ∧
    fx = [Room.fx_broadcastState; Room.fx_clearTurnTimer; Room.fx_startTurnTimer].
Proof.
  assert (1 ≤ length (Room.seats (Room.new_GameRoom "ROOM1" "s0" "P0" beginner)) ≤ 13) as Hn
    by (cbn; lia).
  split; [exact Hn|].
  destruct (startGame_seats (λ k, k) (λ _, 0) _ Hn) as (r' & fx & gs & E & _ & _ & _ & _ & Hs & ->).
  eexists r', _. split; [exact E|].
  destruct (Hs 0 (Room.mkSeat (Some "s0") (Some "P0") Room.seat_human) eq_refl)
    as (p & Hp & _ & Hh & _).
  destruct (Hh eq_refl) as (_ & Hk & _).
  rewrite Hp. cbn [fmap option_fmap option_map]. rewrite Hk. reflexivity.
Defined.


Ltac store_red H :=
  cbv [mbind Offline.store_bind Offline.get Offline.lift Offline.emit Offline.set Offline.skip
       mret Offline.store_ret] in H.

Lemma offline_swap_first (st st1 : Offline.GameState) (ss si : nat) (sc : Card) u e :
  Offline.activePower st = Some swap → Offline.swapSource st = None →
  slot (Offline.players st) ss si = Some sc → isLocked sc = false →
  Offline.selectPowerTarget ss si st = Returns (u, st1, e) →
  Offline.players st1 = set_card (Offline.players st) ss si (with_isSelected true sc) ∧
  Offline.swapSource st1 = Some (ss, si) ∧ Offline.activePower st1 = Some swap ∧
  Offline.deck st1 = Offline.deck st.
Proof.
  intros Hap Hsrc Hs Hl H. destruct (slot_Some _ _ _ _ Hs) as (p & Hp & Hc).
  unfold Offline.selectPowerTarget, at_ in H. store_red H.
  rewrite Hap, Hsrc, Hp in H. cbn in H. rewrite Hc, Hl in H. cbn in H.
  simplify_eq. cbn. auto.
Qed.

Lemma offline_swap_second (st st2 : Offline.GameState) (ss si ts ti : nat) (sc tc : Card) u e :
  Offline.activePower st = Some swap → Offline.swapSource st = Some (ss, si) →
  (ss, si) ≠ (ts, ti) →
  slot (Offline.players st) ss si = Some sc →
  slot (Offline.players st) ts ti = Some tc → isLocked tc = false →
  Offline.deck st ≠ [] →
  Offline.selectPowerTarget ts ti st = Returns (u, st2, e) →
  Offline.players st2 =
    set_card (set_card (set_card (set_card (set_card (Offline.players st) ss si
      (with_isSelected false sc)) ss si tc) ts ti (with_isSelected false sc))
      ss si (with_isSelected false tc)) ts ti (with_isSelected false sc) ∧
  Offline.activePower st2 = None.
Proof.
  intros Hap Hsrc Hne Hs Ht Hl Hd H.
  destruct (slot_Some _ _ _ _ Hs) as (p & Hp & Hc).
  destruct (slot_Some _ _ _ _ Ht) as (q & Hq & Htc).
  unfold Offline.selectPowerTarget, at_, spread_at in H. store_red H.
  rewrite Hap, Hsrc in H. cbn in H.
  rewrite decide_False in H by (intros [-> ->]; congruence).
  rewrite Hq in H. cbn in H. rewrite Htc, Hl in H. cbn in H. rewrite Hp in H. cbn in H.
  rewrite Hc in H. cbn in H.
  destruct (Offline._endTurn _) as [[[u' st'] e']| |] eqn:He; try discriminate.
  simplify_eq. apply endTurn_frame in He as (Ha & _ & _ & Hpl). cbn in *.
  destruct (Hpl Hd) as [-> _]. auto.
Qed.

(** X16: in the offline store, choosing a source and then a distinct
    unlocked target under the swap power exchanges the two cards (both
    unselected), leaves every other slot as it was and clears the power. *)
Theorem offline_two_step_swap (st st1 st2 : Offline.GameState) (ss si ts ti : nat) (sc tc : Card)
    u1 e1 u2 e2 :
  Offline.activePower st = Some swap → Offline.swapSource st = None →
  (ss, si) ≠ (ts, ti) →
  slot (Offline.players st) ss si = Some sc → isLocked sc = false →
  slot (Offline.players st) ts ti = Some tc → isLocked tc = false →
  Offline.deck st ≠ [] →
  Offline.selectPowerTarget ss si st = Returns (u1, st1, e1) →
  Offline.selectPowerTarget ts ti st1 = Returns (u2, st2, e2) →
  slot (Offline.players st2) ss si = Some (with_isSelected false tc) ∧
  slot (Offline.players st2) ts ti = Some (with_isSelected false sc) ∧
  (∀ j k, (j, k) ≠ (ss, si) → (j, k) ≠ (ts, ti) →
     slot (Offline.players st2) j k = slot (Offline.players st) j k) ∧
  Offline.activePower st2 = None.
Proof.
  intros Hap Hsrc Hne Hs Hsl Ht Htl Hd H1 H2.
  destruct (offline_swap_first _ _ _ _ _ _ _ Hap Hsrc Hs Hsl H1) as (Hp1 & Hsrc1 & Hap1 & Hd1).
  assert (slot (Offline.players st1) ss si = Some (with_isSelected true sc)) as Hs1.
  { rewrite Hp1, slot_set_card, decide_True, Hs by auto. reflexivity. }
  assert (slot (Offline.players st1) ts ti = Some tc) as Ht1.
  { rewrite Hp1, slot_set_card, decide_False by (intros [-> ->]; auto). exact Ht. }
  destruct (offline_swap_second _ _ _ _ _ _ _ _ _ _ Hap1 Hsrc1 Hne Hs1 Ht1 Htl
              ltac:(congruence) H2) as [Hp2 Hap2].
  assert (¬ (ss = ts ∧ si = ti)) as Hne1 by (intros [-> ->]; auto).
  rewrite Hp2, Hp1. split; [|split; [|split; [|exact Hap2]]].
  - rewrite !slot_set_card. repeat case_decide; try (exfalso; naive_solver).
    rewrite Hs. reflexivity.
  - rewrite !slot_set_card. repeat case_decide; try (exfalso; naive_solver).
    rewrite Ht. reflexivity.
  - intros j k Hjk1 Hjk2.
    repeat (rewrite slot_set_card, decide_False by (intros [-> ->]; auto)).
    reflexivity.
Qed.

Lemma offline_two_step_swap_witness :
  ∃ st1 st2 u1 e1 u2 e2,
    Offline.selectPowerTarget 1 0 (off_power swap (table hand0 hand1 hand2 hand3)) =
      Returns (u1, st1, e1) ∧
    Offline.selectPowerTarget 2 0 st1 = Returns (u2, st2, e2) ∧
    slot (Offline.players st2) 1 0 = Some (with_isSelected false (std "d9" r9)) ∧
    slot (Offline.players st2) 2 0 = Some (with_isSelected false (std "c5" r5)).
Proof.
  destruct (Offline.selectPowerTarget 1 0 (off_power swap (table hand0 hand1 hand2 hand3)))
    as [[[u1 st1] e1]| |] eqn:E1; [|vm_compute in E1; discriminate..].
  pose proof E1 as E1'. vm_compute in E1'. injection E1' as _ Hst1 _.
  destruct (Offline.selectPowerTarget 2 0 st1) as [[[u2 st2] e2]| |] eqn:E2;
    [|rewrite <- Hst1 in E2; vm_compute in E2; discriminate..].
  destruct (offline_two_step_swap (off_power swap (table hand0 hand1 hand2 hand3)) st1 st2
              1 0 2 0 (std "c5" r5) (std "d9" r9) u1 e1 u2 e2
              eq_refl eq_refl ltac:(discriminate) eq_refl eq_refl eq_refl eq_refl
              ltac:(discriminate) E1 E2) as (Hs & Ht & _).
  exists st1, st2, u1, e1, u2, e2. split; [reflexivity|split; [exact E2|split; assumption]].
Defined.

(** X17: in the offline store, a target pick with no pending power, under
    mass swap, on a locked card for peek or swap, or on the swap source
    itself, leaves the state unchanged and emits at most one toast. *)
Theorem offline_target_refused (st : Offline.GameState) (ts ti : nat) :
  Offline.activePower st = None ∨ Offline.activePower st = Some mass_swap ∨
  ((Offline.activePower st = Some peek ∨ Offline.activePower st = Some swap) ∧
   ∃ c, slot (Offline.players st) ts ti = Some c ∧ isLocked c = true) ∨
  (Offline.activePower st = Some swap ∧ Offline.swapSource st = Some (ts, ti)) →
  ∃ e, Offline.selectPowerTarget ts ti st = Returns (tt, st, e) ∧ length e ≤ 1.
Proof.
  intros Hc. unfold Offline.selectPowerTarget, at_.
  cbv [mbind Offline.store_bind Offline.get Offline.lift Offline.emit Offline.set Offline.skip
       mret Offline.store_ret].
  destruct Hc as [Ha|[Ha|[[[Ha|Ha] (c & Hs & Hl)]|[Ha Hsrc]]]]; rewrite Ha;
    [eexists; split; [reflexivity|cbn; lia]..| | |].
  - destruct (slot_Some _ _ _ _ Hs) as (p & Hp & Hc). rewrite Hp. cbn. rewrite Hc, Hl.
    eexists; split; [reflexivity|cbn; lia].
  - destruct (slot_Some _ _ _ _ Hs) as (p & Hp & Hc).
    destruct (Offline.swapSource st) as [[a b]|].
    + case_decide; [eexists; split; [reflexivity|cbn; lia]|].
      rewrite Hp. cbn. rewrite Hc, Hl. eexists; split; [reflexivity|cbn; lia].
    + rewrite Hp. cbn. rewrite Hc, Hl. eexists; split; [reflexivity|cbn; lia].
  - rewrite Hsrc, decide_True by auto. eexists; split; [reflexivity|cbn; lia].
Qed.

Lemma offline_target_refused_witness :
  ∃ e, Offline.selectPowerTarget 2 1 (off_power peek (table hand0 hand1 hand2_locked hand3)) =
         Returns (tt, off_power peek (table hand0 hand1 hand2_locked hand3), e) ∧
       length e ≤ 1.
Proof.
  apply offline_target_refused. right; right; left.
  split; [left; reflexivity|]. exists (locked (std "dA" rA)). split; reflexivity.
Defined.

(** X18: in the offline store, using the unlock power on a card that is not
    locked changes no hand but still consumes the power. *)
Theorem offline_unlock_unlocked_wasted (st st' : Offline.GameState) (ts ti : nat) (c : Card) u e :
  Offline.activePower st = Some unlock →
  slot (Offline.players st) ts ti = Some c → isLocked c = false →
  Offline.deck st ≠ [] →
  Offline.selectPowerTarget ts ti st = Returns (u, st', e) →
  Offline.players st' = Offline.players st ∧ Offline.activePower st' = None.
Proof.
  intros Ha Hs Hl Hd H. destruct (slot_Some _ _ _ _ Hs) as (p & Hp & Hc).
  unfold Offline.selectPowerTarget, at_ in H. store_red H.
  rewrite Ha, Hp in H. cbn in H. rewrite Hc, Hl in H. cbn in H.
  destruct (Offline._endTurn _) as [[[u' st''] e']| |] eqn:He; try discriminate.
  simplify_eq. apply endTurn_frame in He as (Ha' & _ & _ & Hpl). cbn in *.
  destruct (Hpl Hd) as [-> _]. auto.
Qed.

Lemma offline_unlock_unlocked_wasted_witness :
  ∃ st' u e,
    Offline.selectPowerTarget 1 0 (off_power unlock (table hand0 hand1 hand2 hand3)) =
      Returns (u, st', e) ∧
    Offline.players st' = table hand0 hand1 hand2 hand3 ∧ Offline.activePower st' = None.
Proof.
  destruct (Offline.selectPowerTarget 1 0 (off_power unlock (table hand0 hand1 hand2 hand3)))
    as [[[u st'] e]| |] eqn:E; [|vm_compute in E; discriminate..].
  destruct (offline_unlock_unlocked_wasted (off_power unlock (table hand0 hand1 hand2 hand3))
              st' 1 0 (std "c5" r5) u e eq_refl eq_refl eq_refl
              ltac:(discriminate) E) as [Hp Ha].
  exists st', u, e. split; [reflexivity|split; assumption].
Defined.

(** ** Cards, deck and shuffle *)

(** X1: a card that still grants a power (10, J, Q, K or joker, power not
    used) is worth 10 points. *)
Theorem power_card_value (c : Card) (p : PowerType) :
  getCardPower c = Some p → getCardValue c = 10.
Proof.
  unfold getCardPower, getCardValue.
  destruct (powerUsed c) as [[]|], (isJoker c), (rank c) as [[]|]; cbn; congruence.
Qed.

Lemma power_card_value_witness :
  getCardPower (std "k" rK) = Some lock ∧ getCardValue (std "k" rK) = 10.
Proof. split; [reflexivity|apply (power_card_value _ lock); reflexivity]. Defined.

(** X2: no card face is drawn with the card back image, and two cards get
    the same image path exactly when both are jokers of the same colour
    (a missing colour reads as red) or both are standard cards of the same
    suit and rank. *)
Theorem getCardImagePath_faces :
  (∀ c, getCardImagePath c ≠ CARD_BACK_IMAGE) ∧
  ∀ c1 c2, getCardImagePath c1 = getCardImagePath c2 ↔
    isJoker c1 = isJoker c2 ∧
    (if isJoker c1 then default red (jokerColor c1) = default red (jokerColor c2)
     else suit c1 = suit c2 ∧ rank c1 = rank c2).
Proof.
  split.
  - intros c. unfold getCardImagePath, CARD_BACK_IMAGE.
    destruct (isJoker c);
      [destruct (default red (jokerColor c))|destruct (suit c) as [[]|], (rank c) as [[]|]];
      cbn; discriminate.
  - intros c1 c2. split.
    + unfold getCardImagePath.
      destruct (isJoker c1), (isJoker c2).
      * destruct (default red (jokerColor c1)), (default red (jokerColor c2)); cbn;
          intros H; try discriminate; auto.
      * destruct (suit c2) as [[]|], (rank c2) as [[]|]; cbn; discriminate.
      * destruct (suit c1) as [[]|], (rank c1) as [[]|]; cbn; discriminate.
      * destruct (suit c1) as [[]|], (suit c2) as [[]|]; cbn; intros H;
          try discriminate; repeat (injection H as H);
          destruct (rank c1) as [[]|], (rank c2) as [[]|]; cbn in H; first [discriminate | auto].
    + intros [Hj H]. unfold getCardImagePath. rewrite <- Hj.
      destruct (isJoker c1); [rewrite H|destruct H as [-> ->]]; reflexivity.
Qed.

(** X3: [createDeck] builds 52 cards (54 with jokers) with distinct ids,
    every one well formed, face down, unlocked, unselected, not peeking and
    with no power used; the deck is worth 312 points (332 with jokers) and
    holds four cards of each power, plus two mass swaps with the jokers. *)
Theorem createDeck_contents (now : nat → nat) (j : bool) :
  length (createDeck now j) = (if j then 54 else 52) ∧
  NoDup (card_id <$> createDeck now j) ∧
  Forall (λ c, card_ok c ∧ isFaceUp c = false ∧ isLocked c = false ∧
               isSelected c = false ∧ isPeeking c = false ∧ powerUsed c = None)
         (createDeck now j) ∧
  calculateHandScore (createDeck now j) = (if j then 332 else 312) ∧
  (∀ p, length (filter (λ c, getCardPower c = Some p) (createDeck now j)) =
          match p with mass_swap => if j then 2 else 0 | _ => 4 end).
Proof.
  split; [apply createDeck_length|split; [apply createDeck_NoDup|split; [|split]]].
  - unfold card_ok. apply (bool_decide_unpack _). destruct j; cbv -[pretty_nat]; reflexivity.
  - destruct j; cbv -[pretty_nat]; reflexivity.
  - intros p. destruct p, j; cbv -[pretty_nat]; reflexivity.
Qed.

(** X4: whatever indices the random source returns, [shuffleDeck] only
    reorders the deck: no card is lost or duplicated. *)
Theorem shuffleDeck_keeps_cards {A} (rnd : nat → nat) (deck : list A) :
  shuffleDeck rnd deck ≡ₚ deck ∧ length (shuffleDeck rnd deck) = length deck.
Proof.
  assert (shuffleDeck rnd deck ≡ₚ deck) as Hp by apply shuffle_loop_perm.
  split; [exact Hp|apply Permutation_length, Hp].
Qed.

(** ** Game creation *)

(** X5: for at most 13 seats, [createInitialState] succeeds: seat 0 is to
    draw, each player gets the kind and name of its seat config and four
    face-down cards, one card starts the discard pile, the other
    [53 - 4 * seats] cards form the deck, and exactly the AI seats get an
    empty AI memory. *)
Theorem createInitialState_deal (now rnd : nat → nat) (cfgs : list SeatConfig) (d : Difficulty) :
  length cfgs ≤ 13 →
  ∃ gs, Server.createInitialState now rnd cfgs d = Returns gs ∧
    Server.phase gs = Server.turn_draw ∧ Server.currentTurnSeat gs = 0 ∧
    length (Server.players gs) = length cfgs ∧
    length (Server.deck gs) = 53 - 4 * length cfgs ∧
    length (Server.discardPile gs) = 1 ∧
    (∀ i p, Server.players gs !! i = Some p →
       ∃ cfg, cfgs !! i = Some cfg ∧ seatIndex p = i ∧
         kind p = sc_kind cfg ∧ name p = sc_name cfg ∧
         length (hand p) = 4 ∧ Forall (λ c, isFaceUp c = false) (hand p)) ∧
    (∀ j, Server.aiMemories gs !! j =
       match Server.players gs !! j with
       | Some p => if decide (kind p = ai) then Some createEmptyAIMemory else None
       | None => None
       end).
Proof. exact (initial_deal now rnd cfgs d). Qed.

Lemma createInitialState_deal_witness :
  length configs4 ≤ 13 ∧
  ∃ gs, Server.createInitialState (λ k, k) (λ _, 0) configs4 beginner = Returns gs ∧
    length (Server.deck gs) = 37.
Proof.
  assert (length configs4 ≤ 13) as Hn by (cbn; lia).
  split; [exact Hn|].
  destruct (createInitialState_deal (λ k, k) (λ _, 0) configs4 beginner Hn)
    as (gs & E & _ & _ & _ & Hd & _).
  exists gs. split; [exact E|]. rewrite Hd. reflexivity.
Defined.


(** ** The room *)

(** X9: an action sent by a player whose seat is not on turn changes
    nothing: the room keeps its game state, players and seats. *)
Theorem processAction_off_turn (r r' : Room.GameRoom) (sock : string) (a : Room.Action)
    (gs : Server.ServerGameState) (p : Room.RoomPlayer) (fx : list Room.RoomEffect) :
  Room.gameState r = Some gs → Room.players r !! sock = Some p →
  Room.seat p ≠ Server.currentTurnSeat gs →
  Room.processAction r sock a = Returns (r', fx) →
  Room.gameState r' = Some gs ∧ Room.players r' = Room.players r ∧
  Room.seats r' = Room.seats r.
Proof.
  intros Hg Hp Hs H. unfold Room.processAction in H. rewrite Hg in H.
  destruct (decide (Server.phase gs = Server.game_over)); [simplify_eq; auto|].
  rewrite Hp in H.
  destruct (Room.dispatch gs (Room.seat p) a) as [o|] eqn:Ed; [|simplify_eq; auto].
  destruct (dispatch_off_turn _ _ _ _ Hs Ed) as [evs ->].
  cbv [mbind outcome_bind] in H. cbn [Server.state] in H.
  destruct (Room.checkForAITurn (Some gs)); simplify_eq; auto.
Qed.

Lemma processAction_off_turn_witness :
  ∃ r' fx,
    Room.processAction (room_two (srv_decision (std "k" r5) table2)) "s1" Room.draw_from_deck =
      Returns (r', fx) ∧
    Room.gameState r' = Some (srv_decision (std "k" r5) table2).
Proof.
  destruct (Room.processAction (room_two (srv_decision (std "k" r5) table2)) "s1"
              Room.draw_from_deck) as [[r' fx]| |] eqn:E; [|vm_compute in E; discriminate..].
  exists r', fx. split; [reflexivity|].
  refine (proj1 (processAction_off_turn (room_two (srv_decision (std "k" r5) table2)) r' "s1"
                   Room.draw_from_deck (srv_decision (std "k" r5) table2)
                   (Room.mkRoomPlayer "s1" "P1" 1) fx eq_refl _ _ E)).
  - vm_compute. reflexivity.
  - cbn. lia.
Defined.

(** X10: every connected player sits on a human seat that carries its
    socket: this holds for a new room and is kept by [join],
    [removePlayer] and [startGame]. *)
Theorem room_inv_kept :
  (∀ roomId host hostName d, room_inv (Room.new_GameRoom roomId host hostName d)) ∧
  ∀ r, room_inv r →
    (∀ sock nm r' res, Room.join r sock nm = (r', res) → room_inv r') ∧
    (∀ sock r' v fx, Room.removePlayer r sock = Returns (r', v, fx) → room_inv r') ∧
    (∀ now rnd r' fx, Room.startGame now rnd r = Returns (r', fx) → room_inv r').
Proof.
  split; [apply new_GameRoom_room_inv|].
  intros r I. split; [|split]; intros.
  - eapply join_room_inv; eauto.
  - eapply removePlayer_room_inv; eauto.
  - eapply startGame_room_inv; eauto.
Qed.
